(** * llm-knowledge-extractor: the analysis pipeline of [backend/analyzer/utils.py]

    A shallow embedding of the two-tier analyzer (primary analyzer, mock
    fallback), the keyword extractor, the confidence scorer and the
    orchestrating function [analyze_text_complete], followed by the
    properties of the pipeline.

    Conventions of the embedding.
    - A Python [str] is a [string]; the text is taken to be 7-bit ASCII, and
      the byte values 128..255 are inert (no case, not whitespace, not a
      letter, not a word character).
    - A Python [float] is an IEEE-754 binary64 number, [spec_float] with
      precision 53 and maximal exponent 1024; [+], [*], [<] are the
      correctly rounded operations of [SpecFloat].
    - A Python value of unknown type (what [json.loads] produces) is a
      [pyval]; a [dict] with string keys is an association list, read with
      [dict_get] (the first binding of a key is the one that counts).
    - A call that can raise returns a [result]; the library collaborators
      (the OpenAI client, [json.loads], the NLTK tokenizer, tagger and
      stopword corpus, which may be missing, [random.choice], the Django
      setting) are the fields of a [World].
    - The network requests and the printed lines of one call are collected
      in a trace. *)

From Stdlib Require Import ZArith NArith List String Ascii Bool Lia.
From Stdlib Require Import Permutation Sorted.
From Stdlib Require Import Floats.SpecFloat.
From Stdlib Require Import DecimalString.
Import ListNotations.

Local Open Scope string_scope.
Local Open Scope list_scope.

(* ================================================================== *)
(** ** Python [str] methods *)

Module Str.

Definition code (c : ascii) : N := N_of_ascii c.

Definition in_range (lo hi : N) (c : ascii) : bool :=
  (N.leb lo (code c) && N.leb (code c) hi)%bool.

(** [str.isspace] on one ASCII character: TAB, LF, VT, FF, CR, the four
    separators FS, GS, RS, US, and the space. *)
Definition isspace (c : ascii) : bool :=
  (in_range 9 13 c || in_range 28 32 c)%bool.

Definition isupper (c : ascii) : bool := in_range 65 90 c.
Definition islower (c : ascii) : bool := in_range 97 122 c.

(** [c.isalpha()], which on ASCII is also "c is a cased character". *)
Definition isalpha_char (c : ascii) : bool := (isupper c || islower c)%bool.

Definition isdigit (c : ascii) : bool := in_range 48 57 c.

(** The class [\w] of the [re] module on ASCII text. *)
Definition isword (c : ascii) : bool :=
  (isalpha_char c || isdigit c || N.eqb (code c) 95)%bool.

Definition lower_char (c : ascii) : ascii :=
  if isupper c then ascii_of_N (code c + 32) else c.

Definition upper_char (c : ascii) : ascii :=
  if islower c then ascii_of_N (code c - 32) else c.

(** [s.lower()] *)
Fixpoint lower (s : string) : string :=
  match s with
  | EmptyString => EmptyString
  | String c s' => String (lower_char c) (lower s')
  end.

(** [s.title()]: a cased character is upper-cased when the character
    before it is not cased, and lower-cased otherwise. *)
Fixpoint title_from (previous_is_cased : bool) (s : string) : string :=
  match s with
  | EmptyString => EmptyString
  | String c s' =>
      String (if previous_is_cased then lower_char c else upper_char c)
             (title_from (isalpha_char c) s')
  end.

Definition title (s : string) : string := title_from false s.

(** [s.isalpha()]: non-empty and every character a letter. *)
Fixpoint all_alpha (s : string) : bool :=
  match s with
  | EmptyString => true
  | String c s' => (isalpha_char c && all_alpha s')%bool
  end.

Definition isalpha (s : string) : bool :=
  match s with
  | EmptyString => false
  | _ => all_alpha s
  end.

Definition is_empty (s : string) : bool :=
  match s with
  | EmptyString => true
  | _ => false
  end.

Fixpoint lstrip (s : string) : string :=
  match s with
  | EmptyString => EmptyString
  | String c s' => if isspace c then lstrip s' else s
  end.

Fixpoint rstrip (s : string) : string :=
  match s with
  | EmptyString => EmptyString
  | String c s' =>
      let r := rstrip s' in
      if (isspace c && is_empty r)%bool then EmptyString else String c r
  end.

(** [s.strip()] *)
Definition strip (s : string) : string := rstrip (lstrip s).

(** [s.split()]: the maximal runs of non-whitespace characters, in order;
    [word] is the run being read. *)
Fixpoint split_from (word : string) (s : string) : list string :=
  match s with
  | EmptyString => if is_empty word then [] else [word]
  | String c s' =>
      if isspace c
      then (if is_empty word then split_from EmptyString s'
            else word :: split_from EmptyString s')
      else split_from (word ++ String c EmptyString) s'
  end.

Definition split (s : string) : list string := split_from EmptyString s.

(** [sep.join(l)] *)
Definition join (sep : string) (l : list string) : string :=
  String.concat sep l.

(** [s[:n]] for [n >= 0] *)
Fixpoint take (n : nat) (s : string) : string :=
  match n, s with
  | O, _ => EmptyString
  | S _, EmptyString => EmptyString
  | S n', String c s' => String c (take n' s')
  end.

(** [s.startswith(p)] *)
Definition startswith (p s : string) : bool := String.prefix p s.

(** [sub in s] *)
Fixpoint contains (sub s : string) : bool :=
  (String.prefix sub s ||
   match s with
   | EmptyString => false
   | String _ s' => contains sub s'
   end)%bool.

(** Membership of a string in a collection of strings ([x in l]). *)
Definition mem (x : string) (l : list string) : bool :=
  existsb (String.eqb x) l.

End Str.

(* ================================================================== *)
(** ** The two regular expressions of the source *)

Module Re.

Definition is_char (n : N) (c : ascii) : bool := N.eqb (Str.code c) n.

(** The character of code [n] occurs in [s]. *)
Fixpoint has_char (n : N) (s : string) : bool :=
  match s with
  | EmptyString => false
  | String c s' => (is_char n c || has_char n s')%bool
  end.

(** The suffix of [s] that starts at its first opening brace. *)
Fixpoint from_open_brace (s : string) : option string :=
  match s with
  | EmptyString => None
  | String c s' => if is_char 123 c then Some s else from_open_brace s'
  end.

(** The longest prefix of [s] that ends with a closing brace. *)
Fixpoint upto_last_close_brace (s : string) : option string :=
  match s with
  | EmptyString => None
  | String c s' =>
      match upto_last_close_brace s' with
      | Some r => Some (String c r)
      | None => if is_char 125 c then Some (String c EmptyString) else None
      end
  end.

(** [re.search(r'\{.*\}', s, re.DOTALL)]: the leftmost match starts at the
    first opening brace and, [.*] being greedy and matching newlines, ends
    at the last closing brace after it; [None] when there is no such pair.
    The result is [m.group()]. *)
Definition search_braces (s : string) : option string :=
  match from_open_brace s with
  | None => None
  | Some t => upto_last_close_brace t
  end.

(** Scanner state of [findall_words]: outside any run of word characters,
    inside a run made of letters only so far, or inside a run that holds a
    digit or an underscore. *)
Inductive scan :=
| Outside
| Letters (run : string)
| Spoiled.

Definition emit (run : string) : list string :=
  if Nat.leb 3 (String.length run) then [run] else [].

(** [re.findall(r'\b[a-zA-Z]{3,}\b', s)].  A match must begin and end at a
    word boundary, so it is a whole maximal run of [\w] characters; the run
    is matched when it has only letters and at least three of them. *)
Fixpoint findall_from (st : scan) (s : string) : list string :=
  match s with
  | EmptyString =>
      match st with
      | Letters run => emit run
      | _ => []
      end
  | String c s' =>
      if Str.isalpha_char c then
        match st with
        | Outside => findall_from (Letters (String c EmptyString)) s'
        | Letters run => findall_from (Letters (run ++ String c EmptyString)) s'
        | Spoiled => findall_from Spoiled s'
        end
      else if Str.isword c then findall_from Spoiled s'
      else
        match st with
        | Letters run => emit run ++ findall_from Outside s'
        | _ => findall_from Outside s'
        end
  end.

Definition findall_words (s : string) : list string := findall_from Outside s.

End Re.

(* ================================================================== *)
(** ** Python [float]: IEEE-754 binary64 *)

Module F64.

Definition prec : Z := 53.
Definition emax : Z := 1024.

Definition float := spec_float.

Definition of_Z (z : Z) : float := binary_normalize prec emax z 0 false.

Definition add (x y : float) : float := SFadd prec emax x y.
Definition mul (x y : float) : float := SFmul prec emax x y.
Definition div (x y : float) : float := SFdiv prec emax x y.
Definition ltb (x y : float) : bool := SFltb x y.
Definition leb (x y : float) : bool := SFleb x y.

(** The binary64 number written [n/d] in decimal notation: the correctly
    rounded quotient, which is the value of the literal. *)
Definition literal (n d : Z) : float := div (of_Z n) (of_Z d).

Definition f0_0 : float := Eval vm_compute in of_Z 0.
Definition f0_05 : float := Eval vm_compute in literal 5 100.
Definition f0_1 : float := Eval vm_compute in literal 1 10.
Definition f0_2 : float := Eval vm_compute in literal 2 10.
Definition f0_7 : float := Eval vm_compute in literal 7 10.
Definition f0_8 : float := Eval vm_compute in literal 8 10.
Definition f1_0 : float := Eval vm_compute in of_Z 1.

(** [min(a, b)] and [max(a, b)] of two arguments: the first one is kept
    unless the second is strictly smaller (larger). *)
Definition py_min (a b : float) : float := if ltb b a then b else a.
Definition py_max (a b : float) : float := if ltb a b then b else a.

(** [x != 0.0], the truth value of a float. *)
Definition nonzero (x : float) : bool :=
  match x with
  | S754_zero _ => false
  | _ => true
  end.

End F64.

(* ================================================================== *)
(** ** Python values, exceptions and results *)

#[local] Set Warnings "-register-all".

Inductive pyval : Type :=
| PyNone
| PyBool (b : bool)
| PyInt (z : Z)
| PyFloat (f : F64.float)
| PyStr (s : string)
| PyList (l : list pyval)
| PyDict (d : list (string * pyval)).

Definition dict := list (string * pyval).

(** [d.get(key, default)] *)
Fixpoint dict_get (d : dict) (key : string) (default : pyval) : pyval :=
  match d with
  | [] => default
  | (k, v) :: d' => if String.eqb k key then v else dict_get d' key default
  end.

(** The truth value of an object ([if v:], [not v]). *)
Definition truthy (v : pyval) : bool :=
  match v with
  | PyNone => false
  | PyBool b => b
  | PyInt z => negb (Z.eqb z 0)
  | PyFloat f => F64.nonzero f
  | PyStr s => negb (Str.is_empty s)
  | PyList l => match l with [] => false | _ => true end
  | PyDict d => match d with [] => false | _ => true end
  end.

Inductive exn_class :=
| ValueError
| AttributeError
| TypeError
| LookupError
| Exception           (* raised as the base class itself *)
| LibraryError (name : string).   (* any other subclass of Exception *)

Record exn := MkExn { exn_kind : exn_class; exn_str : string }.

Inductive result (A : Type) : Type :=
| Ok (a : A)
| Raise (e : exn).

Arguments Ok {A} a.
Arguments Raise {A} e.

Definition rbind {A B} (m : result A) (f : A -> result B) : result B :=
  match m with
  | Ok a => f a
  | Raise e => Raise e
  end.

(** [try: m  except Exception as e: handler e], without events. *)
Definition rtry {A} (m : result A) (handler : exn -> result A) : result A :=
  match m with
  | Ok a => Ok a
  | Raise e => handler e
  end.

(** [type(v).__name__] *)
Definition type_name (v : pyval) : string :=
  match v with
  | PyNone => "NoneType"
  | PyBool _ => "bool"
  | PyInt _ => "int"
  | PyFloat _ => "float"
  | PyStr _ => "str"
  | PyList _ => "list"
  | PyDict _ => "dict"
  end.

(** [v.strip()]: only a [str] has the method. *)
Definition py_strip (v : pyval) : result string :=
  match v with
  | PyStr s => Ok (Str.strip s)
  | _ => Raise (MkExn AttributeError
                  ("'" ++ type_name v ++ "' object has no attribute 'strip'"))
  end.

(** [len(v)]: defined on strings, lists and dicts. *)
Definition py_len (v : pyval) : result nat :=
  match v with
  | PyStr s => Ok (String.length s)
  | PyList l => Ok (List.length l)
  | PyDict d => Ok (List.length d)
  | _ => Raise (MkExn TypeError ("object of type '" ++ type_name v ++ "' has no len()"))
  end.

(** [v != "neutral"]-style comparison of an object with a string. *)
Definition py_ne_str (v : pyval) (s : string) : bool :=
  match v with
  | PyStr t => negb (String.eqb t s)
  | _ => true
  end.

(* ================================================================== *)
(** ** The collaborators and the effects of one call *)

(** [stopwords.words('english')]: the words of the corpus when it is
    installed; when it is missing, the call raises a [LookupError], of which
    the text is kept.  The module tries to download the corpus when it is
    imported (lines 24-27), and a download that fails leaves it missing. *)
Inductive corpus :=
| Installed (words : list string)
| Missing (message : string).

(** What the code takes from outside the repository.  A field of type
    [result] may raise; what it raises is a subclass of [Exception]. *)
Record World := {
  (** [settings.OPENAI_API_KEY]; [None] is Python's [None]. *)
  OPENAI_API_KEY : option string;
  (** [openai.OpenAI(api_key=...)], the construction of the client. *)
  openai_client : result unit;
  (** [client.chat.completions.create(...)] for the user text, followed by
      [.choices[0].message.content]: the reply text, which the client library
      allows to be [None]. *)
  chat_completion : string -> result (option string);
  (** [json.loads] on a text that starts with a brace: an object or an
      error. *)
  json_loads : string -> result dict;
  (** [nltk.tokenize.word_tokenize], [nltk.tag.pos_tag] and
      [stopwords.words('english')]. *)
  word_tokenize : string -> result (list string);
  pos_tag : list string -> result (list (string * string));
  stopwords_english : corpus;
  (** The random source behind [random.choice]: an index for a given
      length. *)
  randbelow : nat -> nat
}.

Inductive event :=
| Request (user_text : string)    (* one call of the generative service *)
| Print (line : string).

(** A computation with a trace of events that returns or raises. *)
Definition M (A : Type) : Type := (list event * result A)%type.

Definition ret {A} (a : A) : M A := ([], Ok a).

Definition lift {A} (r : result A) : M A := ([], r).

Definition raise {A} (e : exn) : M A := ([], Raise e).

Definition emit (ev : event) : M unit := ([ev], Ok tt).

Definition bind {A B} (m : M A) (f : A -> M B) : M B :=
  match m with
  | (t, Ok a) => let (t', r) := f a in (t ++ t', r)
  | (t, Raise e) => (t, Raise e)
  end.

(** [try: m  except Exception as e: handler e] *)
Definition try_except {A} (m : M A) (handler : exn -> M A) : M A :=
  match m with
  | (t, Ok a) => (t, Ok a)
  | (t, Raise e) => let (t', r) := handler e in (t ++ t', r)
  end.

Notation "x <- m ;; k" := (bind m (fun x => k))
  (at level 61, m at next level, right associativity).
Notation "m ;;; k" := (bind m (fun _ => k))
  (at level 61, right associativity).

Definition trace {A} (m : M A) : list event := fst m.
Definition outcome {A} (m : M A) : result A := snd m.

Definition is_request (ev : event) : bool :=
  match ev with
  | Request _ => true
  | Print _ => false
  end.

(** The number of calls of the generative service in a trace. *)
Definition requests (t : list event) : nat := List.length (filter is_request t).

(* ================================================================== *)
(** ** [class MockAnalyzer] *)

Module MockAnalyzer.

Definition sample_topics : list (list string) :=
  [ ["technology"; "innovation"; "digital"];
    ["health"; "wellness"; "medical"];
    ["business"; "economy"; "finance"];
    ["education"; "learning"; "knowledge"];
    ["environment"; "sustainability"; "climate"];
    ["science"; "research"; "discovery"];
    ["culture"; "society"; "community"];
    ["art"; "creativity"; "design"];
    ["travel"; "adventure"; "exploration"];
    ["food"; "cooking"; "nutrition"] ].

(** [self.sentiment_keywords], one list per key. *)
Definition sentiment_keywords (key : string) : list string :=
  if String.eqb key "positive" then
    ["excellent"; "amazing"; "great"; "wonderful"; "fantastic";
     "outstanding"; "brilliant"; "superb"; "incredible"; "remarkable"]
  else if String.eqb key "negative" then
    ["terrible"; "awful"; "horrible"; "disappointing"; "frustrating";
     "concerning"; "problematic"; "difficult"; "challenging"; "negative"]
  else if String.eqb key "neutral" then
    ["standard"; "typical"; "normal"; "regular"; "common"; "usual";
     "average"; "moderate"; "standard"; "conventional"]
  else [].

(** [random.choice(seq)] for a non-empty [seq]. *)
Definition random_choice (w : World) (seq : list (list string)) : list string :=
  nth (randbelow w (List.length seq) mod List.length seq) seq [].

(** The title of the mock analysis (lines 58-62). *)
Definition make_title (text : string) : string :=
  let words := firstn 5 (Str.split text) in
  let title := Str.title (Str.join " " words) in
  if Nat.ltb 50 (String.length title)
  then Str.take 47 title ++ "..."
  else title.

(** The summary of the mock analysis (lines 64-70). *)
Definition make_summary (text title : string) : string :=
  if Nat.ltb (String.length text) 50 then
    "This text discusses " ++ Str.lower title
      ++ " and provides brief information on the topic."
  else if Nat.ltb (String.length text) 200 then
    "The content covers " ++ Str.lower title
      ++ " and explores key aspects of the subject matter."
  else
    "This comprehensive text about " ++ Str.lower title
      ++ " provides detailed insights and analysis on the topic.".

(** [sum(1 for word in words if word in text_lower)] *)
Definition count_hits (words : list string) (text_lower : string) : nat :=
  List.length (filter (fun word => Str.contains word text_lower) words).

(** The sentiment of the mock analysis (lines 75-85). *)
Definition make_sentiment (text : string) : string :=
  let text_lower := Str.lower text in
  let positive_count := count_hits (sentiment_keywords "positive") text_lower in
  let negative_count := count_hits (sentiment_keywords "negative") text_lower in
  if Nat.ltb negative_count positive_count then "positive"
  else if Nat.ltb positive_count negative_count then "negative"
  else "neutral".

Definition analyze_text (w : World) (text : string) : dict :=
  let title := make_title text in
  let summary := make_summary text title in
  let topics := random_choice w sample_topics in
  let sentiment := make_sentiment text in
  [ ("summary", PyStr summary);
    ("title", PyStr title);
    ("topics", PyList (map PyStr topics));
    ("sentiment", PyStr sentiment) ].

End MockAnalyzer.

(* ================================================================== *)
(** ** [class LLMAnalyzer] *)

Module LLMAnalyzer.

Definition placeholder : string := "your_openai_api_key_here".

(** [not settings.OPENAI_API_KEY or settings.OPENAI_API_KEY == placeholder] *)
Definition unconfigured (w : World) : bool :=
  match OPENAI_API_KEY w with
  | None => true
  | Some key => (Str.is_empty key || String.eqb key placeholder)%bool
  end.

(** [__init__]: no event, hence no request, is ever produced here. *)
Definition init (w : World) : M unit :=
  if unconfigured w
  then raise (MkExn ValueError
         "OpenAI API key not configured. Please set OPENAI_API_KEY in your environment.")
  else lift (openai_client w).

(** The dictionary built when the reply holds no brace pair. *)
Definition raw_text_result (content : string) : dict :=
  [ ("summary", PyStr content);
    ("title", PyNone);
    ("topics", PyList [PyStr "general"]);
    ("sentiment", PyStr "neutral") ].

Definition analyze_text (w : World) (text : string) : M dict :=
  try_except
    (emit (Request text) ;;;
     reply <- lift (chat_completion w text) ;;
     content <- lift (match reply with
                      | Some s => Ok (Str.strip s)
                      | None => Raise (MkExn AttributeError
                                  "'NoneType' object has no attribute 'strip'")
                      end) ;;
     match Re.search_braces content with
     | Some json_match => lift (json_loads w json_match)
     | None => ret (raw_text_result content)
     end)
    (fun e => raise (MkExn Exception ("OpenAI API error: " ++ exn_str e))).

End LLMAnalyzer.

(* ================================================================== *)
(** ** [class KeywordExtractor] *)

Module KeywordExtractor.

(** The items of a [collections.Counter], in the order in which the keys
    were first met. *)
Definition counts := list (string * nat).

Fixpoint counter_add (x : string) (c : counts) : counts :=
  match c with
  | [] => [(x, 1)]
  | (k, n) :: c' =>
      if String.eqb k x then (k, S n) :: c' else (k, n) :: counter_add x c'
  end.

(** [c[x]], which is 0 for a key that is missing. *)
Fixpoint count_of (c : counts) (x : string) : nat :=
  match c with
  | [] => 0
  | (k, n) :: c' => if String.eqb k x then n else count_of c' x
  end.

(** [Counter(l)] *)
Definition Counter (l : list string) : counts :=
  fold_left (fun c x => counter_add x c) l [].

(** Insertion in front of a list sorted by decreasing count: the new item
    goes after the items with a strictly larger count only. *)
Fixpoint insert_desc (x : string * nat) (l : counts) : counts :=
  match l with
  | [] => [x]
  | y :: l' =>
      if Nat.ltb (snd x) (snd y) then y :: insert_desc x l' else x :: l
  end.

(** [sorted(items, key=itemgetter(1), reverse=True)]: a stable sort, items
    of equal count stay in their order. *)
Definition sorted_desc (c : counts) : counts := fold_right insert_desc [] c.

(** [c.most_common(n)] for an [int] n, which is
    [heapq.nlargest(n, c.items(), key=itemgetter(1))]: the first [n] items
    of the stable descending sort, and none when [n <= 0]. *)
Definition most_common (n : Z) (c : counts) : counts :=
  firstn (Z.to_nat n) (sorted_desc c).

(** The order of the sort: the count of [a] is at least the count of [b]. *)
Definition count_ge (a b : string * nat) : Prop := snd b <= snd a.

(** [__init__] (lines 158-159): [stopwords.words('english')] is read, and
    its [LookupError] is raised to the caller when the corpus is missing. *)
Definition init (w : World) : M unit :=
  match stopwords_english w with
  | Installed _ => ret tt
  | Missing message => raise (MkExn LookupError message)
  end.

(** [self.stop_words] of the extractor that [__init__] built; there is no
    extractor, and no call of its method, when the corpus is missing. *)
Definition stop_words (w : World) : list string :=
  match stopwords_english w with
  | Installed words => words
  | Missing _ => []
  end.

(** The condition of the comprehension at lines 171-177. *)
Definition is_keyword_noun (w : World) (tagged : string * string) : bool :=
  let (word, pos) := tagged in
  (Str.startswith "NN" pos && Str.isalpha word
   && Nat.ltb 2 (String.length word) && negb (Str.mem word (stop_words w)))%bool.

(** The list [nouns] of the [try] block. *)
Definition nouns (w : World) (text : string) : result (list string) :=
  rbind (word_tokenize w (Str.lower text)) (fun tokens =>
  rbind (pos_tag w tokens) (fun tagged_tokens =>
  Ok (map fst (filter (is_keyword_noun w) tagged_tokens)))).

(** The list [words] of the [except] block, after the stopword filter. *)
Definition words (w : World) (text : string) : list string :=
  filter (fun word => negb (Str.mem word (stop_words w)))
         (Re.findall_words (Str.lower text)).

(** The tokens that are counted: the nouns, or the words of the regular
    expression when tokenizing or tagging raised. *)
Definition candidates (w : World) (text : string) : list string :=
  match nouns w text with
  | Ok l => l
  | Raise _ => words w text
  end.

Definition top (num_keywords : Z) (l : list string) : list string :=
  map fst (most_common num_keywords (Counter l)).

(** The [try] block (lines 166-183) and the [except] block
    (lines 186-190). *)
Definition extract_keywords (w : World) (text : string) (num_keywords : Z)
  : result (list string) :=
  rtry (rbind (nouns w text) (fun nouns => Ok (top num_keywords nouns)))
       (fun _ => Ok (top num_keywords (words w text))).

End KeywordExtractor.

(* ================================================================== *)
(** ** [calculate_confidence_score] *)

Definition bump (condition : bool) (score amount : F64.float) : F64.float :=
  if condition then F64.add score amount else score.

(** The two-step ladder used for topics and keywords:
    [if n >= 3: +0.1  elif n >= 2: +0.05]. *)
Definition bump_count (n : nat) (score : F64.float) : F64.float :=
  if Nat.leb 3 n then F64.add score F64.f0_1
  else if Nat.leb 2 n then F64.add score F64.f0_05
  else score.

Definition calculate_confidence_score
    (text : string) (llm_result : dict) (keywords : list string)
  : result F64.float :=
  let score := F64.f0_0 in
  let score :=
    bump (negb (Str.is_empty text) && Nat.ltb 10 (String.length (Str.strip text)))
         score F64.f0_2 in
  let text_length := String.length (Str.strip text) in
  let score := bump (Nat.ltb 100 text_length) score F64.f0_1 in
  let score := bump (Nat.ltb 500 text_length) score F64.f0_1 in
  let summary := dict_get llm_result "summary" (PyStr "") in
  rbind (if truthy summary
         then rbind (py_strip summary) (fun stripped =>
              Ok (bump (Nat.ltb 20 (String.length stripped)) score F64.f0_2))
         else Ok score) (fun score =>
  let score := bump (truthy (dict_get llm_result "title" PyNone)) score F64.f0_1 in
  let topics := dict_get llm_result "topics" (PyList []) in
  rbind (py_len topics) (fun topics_len =>
  let score := bump_count topics_len score in
  let score := bump_count (List.length keywords) score in
  let sentiment := dict_get llm_result "sentiment" (PyStr "neutral") in
  let score := bump (py_ne_str sentiment "neutral") score F64.f0_1 in
  Ok (F64.py_min (F64.py_max score F64.f0_0) F64.f1_0))).

(* ================================================================== *)
(** ** [analyze_text_complete] *)

(** The [try]/[except] of lines 253-262: the analyzer output and the method
    that produced it. *)
Definition run_analyzers (w : World) (text : string) : M (dict * string) :=
  try_except
    (LLMAnalyzer.init w ;;;
     llm_result <- LLMAnalyzer.analyze_text w text ;;
     ret (llm_result, "openai"))
    (fun e =>
       emit (Print ("OpenAI unavailable (" ++ exn_str e ++ "), using mock analyzer")) ;;;
       ret (MockAnalyzer.analyze_text w text, "mock")).

(** The adjustment of lines 270-272. *)
Definition adjust_confidence (analysis_method : string) (confidence_score : F64.float)
  : F64.float :=
  if String.eqb analysis_method "mock"
  then F64.py_min (F64.mul confidence_score F64.f0_7) F64.f0_8
  else confidence_score.

(** The dictionary of lines 275-283. *)
Definition combine_results (llm_result : dict) (keywords : list string)
    (confidence_score : F64.float) (analysis_method : string) : dict :=
  [ ("summary", dict_get llm_result "summary" (PyStr ""));
    ("title", dict_get llm_result "title" PyNone);
    ("topics", dict_get llm_result "topics" (PyList []));
    ("sentiment", dict_get llm_result "sentiment" (PyStr "neutral"));
    ("keywords", PyList (map PyStr keywords));
    ("confidence_score", PyFloat confidence_score);
    ("analysis_method", PyStr analysis_method) ].

Definition analyze_text_complete (w : World) (text : string) : M dict :=
  if (Str.is_empty text || Str.is_empty (Str.strip text))%bool
  then raise (MkExn ValueError "Empty input text")
  else
    KeywordExtractor.init w ;;;
    analyzed <- run_analyzers w text ;;
    let (llm_result, analysis_method) := analyzed : dict * string in
    keywords <- lift (KeywordExtractor.extract_keywords w text 3) ;;
    confidence_score <- lift (calculate_confidence_score text llm_result keywords) ;;
    let confidence_score := adjust_confidence analysis_method confidence_score in
    ret (combine_results llm_result keywords confidence_score analysis_method).

(* ================================================================== *)
(** ** Reading an analysis, and the notions used to state its properties *)

Definition result_keys : list string :=
  [ "summary"; "title"; "topics"; "sentiment"; "keywords";
    "confidence_score"; "analysis_method" ].

Definition confidence_of (r : dict) : pyval := dict_get r "confidence_score" PyNone.
Definition method_of (r : dict) : pyval := dict_get r "analysis_method" PyNone.

(** [0.0 <= x <= 1.0] *)
Definition in_unit_interval (x : F64.float) : bool :=
  (F64.leb F64.f0_0 x && F64.leb x F64.f1_0)%bool.

(** [min(max(x, 0.0), 1.0)] *)
Definition clamp (x : F64.float) : F64.float :=
  F64.py_min (F64.py_max x F64.f0_0) F64.f1_0.

Definition is_str (v : pyval) : bool :=
  match v with
  | PyStr _ => true
  | _ => false
  end.

Definition is_none (v : pyval) : bool :=
  match v with
  | PyNone => true
  | _ => false
  end.

Definition has_len (v : pyval) : bool :=
  match v with
  | PyStr _ | PyList _ | PyDict _ => true
  | _ => false
  end.

(** An analyzer output on which every operation of the scorer is defined:
    the summary is a string or a false value, the topics have a length. *)
Definition scorable (d : dict) : bool :=
  let summary := dict_get d "summary" (PyStr "") in
  ((negb (truthy summary) || is_str summary)
   && has_len (dict_get d "topics" (PyList [])))%bool.

(** The quantities the score is made of. *)
Definition trimmed_length (text : string) : nat := String.length (Str.strip text).

Definition summary_length (d : dict) : nat :=
  match dict_get d "summary" (PyStr "") with
  | PyStr s => String.length (Str.strip s)
  | _ => 0
  end.

Definition topics_length (d : dict) : nat :=
  match dict_get d "topics" (PyList []) with
  | PyStr s => String.length s
  | PyList l => List.length l
  | PyDict kv => List.length kv
  | _ => 0
  end.

Definition sentiment_of (d : dict) : pyval := dict_get d "sentiment" (PyStr "neutral").

Definition contribution (condition : bool) (amount : F64.float) : F64.float :=
  if condition then amount else F64.f0_0.

(** [+0.10] for a length of at least 3, else [+0.05] for a length of 2. *)
Definition count_contribution (n : nat) : F64.float :=
  if Nat.leb 3 n then F64.f0_1
  else if Nat.eqb n 2 then F64.f0_05
  else F64.f0_0.

(** The sum of the eight contributions, in the order of the table, for a
    given reading [title_counts] of "a title is present". *)
Definition contribution_sum (title_counts : bool)
    (text : string) (d : dict) (keywords : list string) : F64.float :=
  let s := F64.f0_0 in
  let s := F64.add s (contribution (Nat.ltb 10 (trimmed_length text)) F64.f0_2) in
  let s := F64.add s (contribution (Nat.ltb 100 (trimmed_length text)) F64.f0_1) in
  let s := F64.add s (contribution (Nat.ltb 500 (trimmed_length text)) F64.f0_1) in
  let s := F64.add s (contribution (Nat.ltb 20 (summary_length d)) F64.f0_2) in
  let s := F64.add s (contribution title_counts F64.f0_1) in
  let s := F64.add s (count_contribution (topics_length d)) in
  let s := F64.add s (count_contribution (List.length keywords)) in
  F64.add s (contribution (py_ne_str (sentiment_of d) "neutral") F64.f0_1).

(** The score as the specification words it: the title counts as soon as it
    is not null. *)
Definition score_as_specified (text : string) (d : dict) (keywords : list string)
  : F64.float :=
  clamp (contribution_sum (negb (is_none (dict_get d "title" PyNone))) text d keywords).

(** The score with the title counted when it is a true value (not null and
    not empty). *)
Definition score_as_coded (text : string) (d : dict) (keywords : list string)
  : F64.float :=
  clamp (contribution_sum (truthy (dict_get d "title" PyNone)) text d keywords).

(** The number of places of [text] at which [word] occurs. *)
Fixpoint occurrences (word text : string) : nat :=
  (if String.prefix word text then 1 else 0) +
  match text with
  | EmptyString => 0
  | String _ text' => occurrences word text'
  end.

Definition total_occurrences (words : list string) (text : string) : nat :=
  list_sum (map (fun word => occurrences word text) words).

(** The sentiment as the specification words it: occurrences of the listed
    words are counted, case-insensitively. *)
Definition sentiment_by_occurrences (text : string) : string :=
  let text_lower := Str.lower text in
  let positive :=
    total_occurrences (MockAnalyzer.sentiment_keywords "positive") text_lower in
  let negative :=
    total_occurrences (MockAnalyzer.sentiment_keywords "negative") text_lower in
  if Nat.ltb negative positive then "positive"
  else if Nat.ltb positive negative then "negative"
  else "neutral".

(** No character of [s] is whitespace. *)
Fixpoint no_space (s : string) : Prop :=
  match s with
  | EmptyString => True
  | String c s' => Str.isspace c = false /\ no_space s'
  end.

(** Every character of [s] is whitespace. *)
Fixpoint all_space (s : string) : Prop :=
  match s with
  | EmptyString => True
  | String c s' => Str.isspace c = true /\ all_space s'
  end.

(** [s] is empty or begins with a character that satisfies [p]. *)
Definition begins_with (p : ascii -> bool) (s : string) : Prop :=
  match s with
  | EmptyString => True
  | String c _ => p c = true
  end.

(** [s] is empty or ends with a character that satisfies [p]. *)
Fixpoint ends_with (p : ascii -> bool) (s : string) : Prop :=
  match s with
  | EmptyString => True
  | String c EmptyString => p c = true
  | String _ s' => ends_with p s'
  end.

Definition not_word (c : ascii) : bool := negb (Str.isword c).
Definition not_space (c : ascii) : bool := negb (Str.isspace c).

(** [x] is a match of the pattern [\b[a-zA-Z]{3,}\b] in [s]: at least three
    letters between two word boundaries. *)
Definition word_match (s x : string) : Prop :=
  exists before after : string,
    s = (before ++ x ++ after)%string /\
    Str.all_alpha x = true /\ 3 <= String.length x /\
    ends_with not_word before /\ begins_with not_word after.

(** What the scanner has read so far, [done], agrees with its state. *)
Definition scan_agrees (st : Re.scan) (done : string) : Prop :=
  match st with
  | Re.Outside => ends_with not_word done
  | Re.Letters run =>
      exists before : string,
        done = (before ++ run)%string /\ ends_with not_word before /\
        Str.all_alpha run = true
  | Re.Spoiled => True
  end.

(** [sub] occurs somewhere in [s]. *)
Definition substring_of (sub s : string) : Prop :=
  exists before after : string, s = (before ++ sub ++ after)%string.

(** The number of occurrences of [x] in a list of tokens. *)
Definition frequency (x : string) (l : list string) : nat :=
  count_occ string_dec l x.

(** [r] is ordered by non-increasing frequency, the frequency being taken
    in the list of tokens [l]. *)
Definition by_decreasing_frequency (l : list string) (r : list string) : Prop :=
  StronglySorted (fun x y => frequency y l <= frequency x l) r.

(* ================================================================== *)
(** ** Sample collaborators, for the closed examples *)

Module Samples.

Definition quote : string := String (ascii_of_N 34) EmptyString.

Definition quoted (s : string) : string := quote ++ s ++ quote.

Definition field (key value : string) : string := quoted key ++ ": " ++ value.

(** The text of a JSON object with the four keys of the prompt. *)
Definition object_text (summary title topics sentiment : string) : string :=
  "{" ++ field "summary" summary ++ ", " ++ field "title" title ++ ", "
      ++ field "topics" topics ++ ", " ++ field "sentiment" sentiment ++ "}".

Definition fails {A} (what : string) : result A :=
  Raise (MkExn (LibraryError what) (what ++ " raised")).

(** The [LookupError] of NLTK for a resource that is not installed. *)
Definition not_found {A} (resource : string) : result A :=
  Raise (MkExn LookupError ("Resource " ++ resource ++ " not found."))%string.

(** An excerpt of the English stopword list of NLTK. *)
Definition some_stopwords : list string :=
  [ "i"; "me"; "my"; "we"; "our"; "you"; "he"; "she"; "it"; "its"; "they";
    "this"; "that"; "these"; "those"; "am"; "is"; "are"; "was"; "were";
    "be"; "been"; "have"; "has"; "had"; "do"; "does"; "did"; "a"; "an";
    "the"; "and"; "but"; "if"; "or"; "as"; "of"; "at"; "by"; "for";
    "with"; "about"; "to"; "from"; "in"; "out"; "on"; "off"; "not" ].

(** A process with no credential and no network, in which of the NLTK data
    only the stopword corpus is installed: the tokenizer and the tagger
    raise. *)
Definition offline : World :=
  {| OPENAI_API_KEY := None;
     openai_client := Ok tt;
     chat_completion := fun _ => fails "APIConnectionError";
     json_loads := fun _ => fails "JSONDecodeError";
     word_tokenize := fun _ => not_found "punkt";
     pos_tag := fun _ => not_found "averaged_perceptron_tagger";
     stopwords_english := Installed some_stopwords;
     randbelow := fun _ => 1 |}.

(** The same process without the stopword corpus either. *)
Definition no_corpus : World :=
  {| OPENAI_API_KEY := None;
     openai_client := Ok tt;
     chat_completion := fun _ => fails "APIConnectionError";
     json_loads := fun _ => fails "JSONDecodeError";
     word_tokenize := fun _ => not_found "punkt";
     pos_tag := fun _ => not_found "averaged_perceptron_tagger";
     stopwords_english := Missing "Resource stopwords not found.";
     randbelow := fun _ => 1 |}.

(** [json.loads] known on one text only. *)
Definition loads_only (known : string) (value : dict) (s : string) : result dict :=
  if String.eqb s known then Ok value else fails "JSONDecodeError".

(** A configured process whose service answers [reply] to every text.  The
    tokenizer splits at whitespace and the tagger calls every token a
    noun. *)
Definition online (reply : string) (loads : string -> result dict) : World :=
  {| OPENAI_API_KEY := Some "sk-live-0000";
     openai_client := Ok tt;
     chat_completion := fun _ => Ok (Some reply);
     json_loads := loads;
     word_tokenize := fun s => Ok (Str.split s);
     pos_tag := fun tokens => Ok (map (fun t => (t, "NN")) tokens);
     stopwords_english := Installed some_stopwords;
     randbelow := fun _ => 1 |}.

(** A well-formed reply: a summary, the title T, three topics, a positive
    sentiment. *)
Definition full_reply : string :=
  object_text (quoted "The text repeats three Greek letters many times.")
              (quoted "T")
              ("[" ++ quoted "a" ++ ", " ++ quoted "b" ++ ", " ++ quoted "c" ++ "]")
              (quoted "positive").

Definition full_reply_value : dict :=
  [ ("summary", PyStr "The text repeats three Greek letters many times.");
    ("title", PyStr "T");
    ("topics", PyList [PyStr "a"; PyStr "b"; PyStr "c"]);
    ("sentiment", PyStr "positive") ].

Definition world_full_reply : World :=
  online full_reply (loads_only full_reply full_reply_value).

(** A reply that is a JSON object whose topics are null. *)
Definition null_topics_reply : string :=
  object_text (quoted "A short note about the weather.") "null" "null"
              (quoted "neutral").

Definition null_topics_value : dict :=
  [ ("summary", PyStr "A short note about the weather.");
    ("title", PyNone);
    ("topics", PyNone);
    ("sentiment", PyStr "neutral") ].

Definition world_null_topics : World :=
  online null_topics_reply (loads_only null_topics_reply null_topics_value).

(** A reply in plain words that holds a brace pair but no JSON. *)
Definition braces_reply : string :=
  "Summary: the text greets the world {no structured data available}".

Definition world_braces_reply : World :=
  online braces_reply (fun _ => fails "JSONDecodeError").

(** A reply in plain words without any brace. *)
Definition plain_reply : string := "  The text greets the world.  ".

Definition world_plain_reply : World :=
  online plain_reply (fun _ => fails "JSONDecodeError").

(** An analyzer output with an empty title. *)
Definition empty_title_output : dict :=
  [ ("summary", PyStr "A short note about the weather.");
    ("title", PyStr "");
    ("topics", PyList [PyStr "weather"; PyStr "rain"; PyStr "wind"]);
    ("sentiment", PyStr "neutral") ].

(** A text of 600 characters. *)
Definition text600 : string :=
  String.concat " " (repeat "alpha beta gamma" 35) ++ " delta".

End Samples.

(** The score as a function of the eight tests of the scorer. *)
Definition score_from_flags (long10 long100 long500 good_summary has_title : bool)
    (topics_len keywords_len : nat) (polar : bool) : F64.float :=
  let score := bump long10 F64.f0_0 F64.f0_2 in
  let score := bump long100 score F64.f0_1 in
  let score := bump long500 score F64.f0_1 in
  let score := bump good_summary score F64.f0_2 in
  let score := bump has_title score F64.f0_1 in
  let score := bump_count topics_len score in
  let score := bump_count keywords_len score in
  let score := bump polar score F64.f0_1 in
  F64.py_min (F64.py_max score F64.f0_0) F64.f1_0.

(** The discount of the fallback path (line 272). *)
Definition mock_discount (score : F64.float) : F64.float :=
  adjust_confidence "mock" score.

(** The two errors the code raises by itself. *)
Definition empty_input_error : exn := MkExn ValueError "Empty input text".

Definition configuration_error : exn :=
  MkExn ValueError
    "OpenAI API key not configured. Please set OPENAI_API_KEY in your environment.".

(** The keywords the orchestration works with. *)
Definition keywords_of (w : World) (text : string) : list string :=
  KeywordExtractor.top 3 (KeywordExtractor.candidates w text).

(** The analysis a call returns, or the empty dictionary when it raises. *)
Definition returned (m : M dict) : dict :=
  match outcome m with
  | Ok r => r
  | Raise _ => []
  end.

(* ================================================================== *)
(** ** Notions used to state the ranking of keywords *)

(** The distinct tokens of [l], in the order in which they are first met. *)
Fixpoint first_met (l : list string) : list string :=
  match l with
  | [] => []
  | x :: l' => x :: filter (fun y => negb (String.eqb y x)) (first_met l')
  end.

(** All the tokens a [Counter] ranks, most frequent first: what
    [most_common] cuts to its first [n] items. *)
Definition ranking (l : list string) : list string :=
  map fst (KeywordExtractor.sorted_desc (KeywordExtractor.Counter l)).

(** [str(n)] for a natural number. *)
Definition decimal (n : nat) : string := NilZero.string_of_uint (Nat.to_uint n).

(* ================================================================== *)
(** ** [serializers.py] *)

Module Serializers.

Definition ValidationError (message : string) : exn :=
  MkExn (LibraryError "ValidationError") message.

(** [not text or not text.strip()] *)
Definition blank (text : string) : bool :=
  (Str.is_empty text || Str.is_empty (Str.strip text))%bool.

(** [AnalyzeTextSerializer.validate_text] (lines 15-18). *)
Definition validate_text (value : string) : result string :=
  if blank value
  then Raise (ValidationError "Text cannot be empty")
  else Ok (Str.strip value).

(** The loop of [BatchAnalyzeSerializer.validate_texts] (lines 44-46). *)
Fixpoint check_texts (value : list string) : result unit :=
  match value with
  | [] => Ok tt
  | text :: rest =>
      if blank text
      then Raise (ValidationError "All texts must be non-empty")
      else check_texts rest
  end.

(** [BatchAnalyzeSerializer.validate_texts] (lines 40-48). *)
Definition validate_texts (value : list string) : result (list string) :=
  match value with
  | [] => Raise (ValidationError "At least one text must be provided")
  | _ => rbind (check_texts value) (fun _ => Ok value)
  end.

(** [SearchSerializer.validate] (lines 26-29): [any(data.values())]. *)
Definition validate (data : dict) : result dict :=
  if existsb truthy (map snd data)
  then Ok data
  else Raise (ValidationError "At least one search parameter must be provided").

End Serializers.

(* ================================================================== *)
(** ** [views.py] *)

Module Views.

(** [Response(data, status=...)] *)
Record Response := { data : pyval; status : nat }.

(** What a view does besides answering: the events of the analysis and the
    lines given to [logger.error]. *)
Inductive io :=
| Core (ev : event)
| Logged (line : string).

(** What the views take from Django and the REST framework.  The table of
    [TextAnalysis] is the list of its rows, oldest first. *)
Record Backend := {
  (** [TextAnalysis.objects.create] with the given fields on a table: the saved
      instance, or the error of the database. *)
  objects_create : list dict -> dict -> result dict;
  (** [TextAnalysisSerializer(instance).data] *)
  serializer_data : dict -> pyval;
  (** [serializer.errors] after a failed [is_valid()]. *)
  serializer_errors : exn -> pyval;
  (** The validation of the declared fields, before the [validate_...]
      methods of the repository run: the field [text] of
      [AnalyzeTextSerializer], the field [texts] of [BatchAnalyzeSerializer],
      the fields of [SearchSerializer]. *)
  text_field : pyval -> result string;
  texts_field : pyval -> result (list string);
  search_fields : pyval -> result dict;
  (** Whether a library exception class derives from [ValueError]. *)
  derives_from_ValueError : string -> bool;
  (** One lookup of the ORM on one row, such as [topics__icontains=value]. *)
  lookup_matches : string -> pyval -> dict -> bool;
  (** [.order_by('-created_at')] *)
  newest_first : list dict -> list dict
}.

(** [isinstance(e, ValueError)], the test of [except ValueError]. *)
Definition is_ValueError (b : Backend) (e : exn) : bool :=
  match exn_kind e with
  | ValueError => true
  | LibraryError name => derives_from_ValueError b name
  | _ => false
  end.

(** [d[key]] *)
Fixpoint dict_item (d : dict) (key : string) : result pyval :=
  match d with
  | [] => Raise (MkExn (LibraryError "KeyError") key)
  | (k, v) :: d' => if String.eqb k key then Ok v else dict_item d' key
  end.

(** The keyword arguments of [TextAnalysis.objects.create] (lines 53-62 and
    250-259). *)
Definition create_fields (text : string) (analysis_result : dict) : result dict :=
  rbind (dict_item analysis_result "summary") (fun summary =>
  rbind (dict_item analysis_result "title") (fun title =>
  rbind (dict_item analysis_result "topics") (fun topics =>
  rbind (dict_item analysis_result "sentiment") (fun sentiment =>
  rbind (dict_item analysis_result "keywords") (fun keywords =>
  rbind (dict_item analysis_result "confidence_score") (fun confidence_score =>
  rbind (dict_item analysis_result "analysis_method") (fun analysis_method =>
  Ok [ ("original_text", PyStr text);
       ("summary", summary);
       ("title", title);
       ("topics", topics);
       ("sentiment", sentiment);
       ("keywords", keywords);
       ("confidence_score", confidence_score);
       ("analysis_method", analysis_method) ]))))))).

(** The analysis of one text and the creation of its row (lines 50-62 and
    247-259): the events of the analysis, and the saved instance or the
    exception. *)
Definition analyze_and_save (w : World) (b : Backend) (table : list dict)
    (text : string) : list event * result dict :=
  let (t, r) := analyze_text_complete w text in
  (t, rbind r (fun analysis_result =>
      rbind (create_fields text analysis_result) (fun fields =>
      objects_create b table fields))).

(** [serializer.is_valid()] of the three request serializers. *)
Definition valid_text (b : Backend) (request_data : pyval) : result string :=
  rbind (text_field b request_data) Serializers.validate_text.

Definition valid_texts (b : Backend) (request_data : pyval) : result (list string) :=
  rbind (texts_field b request_data) Serializers.validate_texts.

Definition valid_search (b : Backend) (query_params : pyval) : result dict :=
  rbind (search_fields b query_params) Serializers.validate.

Definition error_body (message : string) : pyval :=
  PyDict [("error", PyStr message)].

(** The view [analyze_text] (lines 37-78): the table, what was done, and the
    response. *)
Definition analyze_text (w : World) (b : Backend) (table : list dict)
    (request_data : pyval) : list dict * list io * Response :=
  match valid_text b request_data with
  | Raise e => (table, [], {| data := serializer_errors b e; status := 400 |})
  | Ok text =>
      let (t, r) := analyze_and_save w b table text in
      match r with
      | Ok analysis =>
          (table ++ [analysis], map Core t,
           {| data := serializer_data b analysis; status := 201 |})
      | Raise e =>
          if is_ValueError b e
          then (table, map Core t,
                {| data := error_body (exn_str e); status := 400 |})
          else (table,
                map Core t ++ [Logged ("Error analyzing text: " ++ exn_str e)],
                {| data := error_body "Failed to analyze text. Please try again.";
                   status := 500 |})
      end
  end.

(** [text[:100] + '...' if len(text) > 100 else text] *)
Definition shortened (text : string) : string :=
  if Nat.ltb 100 (String.length text) then Str.take 100 text ++ "..." else text.

(** The variables of the loop of [batch_analyze_texts]. *)
Record Batch := {
  table : list dict;
  done : list io;
  analyses : list dict;
  errors : list pyval
}.

(** One entry of [errors] (lines 265-269). *)
Definition error_entry (i : nat) (text : string) (e : exn) : pyval :=
  PyDict [ ("index", PyInt (Z.of_nat i));
           ("text", PyStr (shortened text));
           ("error", PyStr (exn_str e)) ].

(** One turn of the loop (lines 245-269) for the text of index [i]. *)
Definition batch_step (w : World) (b : Backend) (i : nat) (text : string)
    (st : Batch) : Batch :=
  let (t, r) := analyze_and_save w b (table st) text in
  match r with
  | Ok analysis =>
      {| table := table st ++ [analysis];
         done := done st ++ map Core t;
         analyses := analyses st ++ [analysis];
         errors := errors st |}
  | Raise e =>
      {| table := table st;
         done := done st ++ map Core t
                 ++ [Logged ("Error analyzing text " ++ decimal (i + 1) ++ ": "
                             ++ exn_str e)];
         analyses := analyses st;
         errors := errors st ++ [error_entry i text e] |}
  end.

(** [for i, text in enumerate(texts)], from the index [i] on. *)
Fixpoint batch_loop (w : World) (b : Backend) (i : nat) (texts : list string)
    (st : Batch) : Batch :=
  match texts with
  | [] => st
  | text :: rest => batch_loop w b (S i) rest (batch_step w b i text st)
  end.

(** [response_data] (lines 274-283). *)
Definition batch_body (b : Backend) (texts : list string) (st : Batch) : dict :=
  [ ("analyses", PyList (map (serializer_data b) (analyses st)));
    ("total_processed", PyInt (Z.of_nat (List.length (analyses st))));
    ("total_requested", PyInt (Z.of_nat (List.length texts)));
    ("success_count", PyInt (Z.of_nat (List.length (analyses st))));
    ("error_count", PyInt (Z.of_nat (List.length (errors st)))) ]
  ++ match errors st with
     | [] => []
     | _ => [("errors", PyList (errors st))]
     end.

(** The view [batch_analyze_texts] (lines 231-285). *)
Definition batch_analyze_texts (w : World) (b : Backend) (rows : list dict)
    (request_data : pyval) : list dict * list io * Response :=
  match valid_texts b request_data with
  | Raise e => (rows, [], {| data := serializer_errors b e; status := 400 |})
  | Ok texts =>
      let st := batch_loop w b 0 texts
                  {| table := rows; done := []; analyses := []; errors := [] |} in
      (table st, done st,
       {| data := PyDict (batch_body b texts st); status := 201 |})
  end.

(** A [Q] object of the ORM: empty, one lookup, or two objects joined. *)
Inductive Q :=
| Q_empty
| Q_lookup (name : string) (value : pyval)
| Q_or (p q : Q)
| Q_and (p q : Q).

(** [p | q] and [p & q]: an empty object gives way to the other one. *)
Definition q_or (p q : Q) : Q :=
  match p, q with
  | Q_empty, _ => q
  | _, Q_empty => p
  | _, _ => Q_or p q
  end.

Definition q_and (p q : Q) : Q :=
  match p, q with
  | Q_empty, _ => q
  | _, Q_empty => p
  | _, _ => Q_and p q
  end.

(** The query of [search_analyses] (lines 143-152). *)
Definition search_query (topic keyword sentiment : pyval) : Q :=
  let query := Q_empty in
  let query :=
    if truthy topic then q_or query (Q_lookup "topics__icontains" topic)
    else query in
  let query :=
    if truthy keyword
    then q_or query (q_or (Q_lookup "keywords__icontains" keyword)
                          (Q_lookup "original_text__icontains" keyword))
    else query in
  if truthy sentiment then q_and query (Q_lookup "sentiment" sentiment)
  else query.

(** Whether a row is kept by [filter(query)]; the empty query keeps every
    row. *)
Fixpoint keeps (b : Backend) (query : Q) (row : dict) : bool :=
  match query with
  | Q_empty => true
  | Q_lookup name value => lookup_matches b name value row
  | Q_or p q => (keeps b p row || keeps b q row)%bool
  | Q_and p q => (keeps b p row && keeps b q row)%bool
  end.

(** The rows that [search_analyses] filters for validated parameters. *)
Definition search_rows (b : Backend) (rows : list dict) (validated : dict)
  : list dict :=
  let topic := dict_get validated "topic" PyNone in
  let keyword := dict_get validated "keyword" PyNone in
  let sentiment := dict_get validated "sentiment" PyNone in
  filter (keeps b (search_query topic keyword sentiment)) rows.

(** The view [search_analyses] (lines 129-159). *)
Definition search_analyses (b : Backend) (rows : list dict) (query_params : pyval)
  : Response :=
  match valid_search b query_params with
  | Raise e => {| data := serializer_errors b e; status := 400 |}
  | Ok validated =>
      {| data := PyList (map (serializer_data b)
                           (newest_first b (search_rows b rows validated)));
         status := 200 |}
  end.

End Views.

(** A backend for the closed examples, for request data whose texts are
    strings: the table accepts every row and numbers it, the fields of the
    requests are validated as the fields the serializers declare, a lookup
    compares the value with the field of the row. *)
Module ViewSamples.

Definition numbered (rows : list dict) (fields : dict) : dict :=
  ("id", PyInt (Z.of_nat (S (List.length rows)))) :: fields.

(** [key in data] followed by [data[key]]. *)
Fixpoint given (data : dict) (key : string) : option pyval :=
  match data with
  | [] => None
  | (k, v) :: data' => if String.eqb k key then Some v else given data' key
  end.

(** A [CharField] on a string: the value is trimmed, and refused when it is
    then empty or longer than the maximum, if there is one.  A number, which
    the field would turn into a string, is refused here like any other value
    that is not a string: no sample request holds one. *)
Definition char_field (max_length : option nat) (v : pyval) : result string :=
  match v with
  | PyStr s =>
      let value := Str.strip s in
      if Str.is_empty value
      then Raise (Serializers.ValidationError "This field may not be blank.")
      else
        match max_length with
        | Some n =>
            if Nat.ltb n (String.length value)
            then Raise (Serializers.ValidationError
                          ("Ensure this field has no more than " ++ decimal n
                           ++ " characters."))
            else Ok value
        | None => Ok value
        end
  | PyNone => Raise (Serializers.ValidationError "This field may not be null.")
  | _ => Raise (Serializers.ValidationError "Not a valid string.")
  end.

Definition not_a_dictionary {A} : result A :=
  Raise (Serializers.ValidationError "Invalid data. Expected a dictionary.").

(** The field [text] of [AnalyzeTextSerializer],
    [CharField(max_length=10000)]. *)
Definition as_text (request_data : pyval) : result string :=
  match request_data with
  | PyDict data =>
      match given data "text" with
      | Some v => char_field (Some (100 * 100)) v
      | None => Raise (Serializers.ValidationError "This field is required.")
      end
  | _ => not_a_dictionary
  end.

Fixpoint char_fields (max_length : option nat) (l : list pyval)
  : result (list string) :=
  match l with
  | [] => Ok []
  | v :: l' =>
      rbind (char_field max_length v) (fun value =>
      rbind (char_fields max_length l') (fun values => Ok (value :: values)))
  end.

(** The field [texts] of [BatchAnalyzeSerializer],
    [ListField(child=CharField(max_length=10000), min_length=1,
    max_length=10)]: every item goes through the child field, then the
    number of items is checked. *)
Definition as_texts (request_data : pyval) : result (list string) :=
  match request_data with
  | PyDict data =>
      match given data "texts" with
      | Some (PyList l) =>
          rbind (char_fields (Some (100 * 100)) l) (fun values =>
          if Nat.ltb (List.length values) 1
          then Raise (Serializers.ValidationError
                        "Ensure this field has at least 1 elements.")
          else if Nat.ltb 10 (List.length values)
          then Raise (Serializers.ValidationError
                        "Ensure this field has no more than 10 elements.")
          else Ok values)
      | Some _ => Raise (Serializers.ValidationError "Expected a list of items.")
      | None => Raise (Serializers.ValidationError "This field is required.")
      end
  | _ => not_a_dictionary
  end.

(** A field with [required=False]: absent from the validated data when it
    is absent from the request. *)
Definition optional (data : dict) (key : string) (field : pyval -> result string)
  : result dict :=
  match given data key with
  | Some v => rbind (field v) (fun value => Ok [(key, PyStr value)])
  | None => Ok []
  end.

(** [ChoiceField(choices=['positive', 'neutral', 'negative'])] *)
Definition sentiment_choice (v : pyval) : result string :=
  match v with
  | PyStr s =>
      if Str.mem s ["positive"; "neutral"; "negative"] then Ok s
      else Raise (Serializers.ValidationError
                    (Samples.quoted s ++ " is not a valid choice."))
  | _ => Raise (Serializers.ValidationError "Not a valid choice.")
  end.

(** The three fields of [SearchSerializer], in the order of their
    declaration. *)
Definition as_fields (query_params : pyval) : result dict :=
  match query_params with
  | PyDict data =>
      rbind (optional data "topic" (char_field None)) (fun topic =>
      rbind (optional data "keyword" (char_field None)) (fun keyword =>
      rbind (optional data "sentiment" sentiment_choice) (fun sentiment =>
      Ok (topic ++ keyword ++ sentiment))))
  | _ => not_a_dictionary
  end.

Definition field_equals (name : string) (value : pyval) (row : dict) : bool :=
  match value, dict_get row name PyNone with
  | PyStr v, PyStr f => String.eqb v f
  | _, _ => false
  end.

Definition backend : Views.Backend :=
  {| Views.objects_create := fun rows fields => Ok (numbered rows fields);
     Views.serializer_data := fun row => PyDict row;
     Views.serializer_errors := fun e => PyDict [("detail", PyStr (exn_str e))];
     Views.text_field := as_text;
     Views.texts_field := as_texts;
     Views.search_fields := as_fields;
     Views.derives_from_ValueError := fun name => String.eqb name "JSONDecodeError";
     Views.lookup_matches := field_equals;
     Views.newest_first := fun rows => rev rows |}.

End ViewSamples.

(* ================================================================== *)
(** ** Notions used to state the further properties *)

(** The line printed when the orchestration falls back (line 259). *)
Definition announcement (e : exn) : event :=
  Print ("OpenAI unavailable (" ++ exn_str e ++ "), using mock analyzer").

(** The text holds an opening brace followed, anywhere, by a closing
    brace. *)
Definition brace_pair (s : string) : Prop :=
  exists (before inside after : string) (o c : ascii),
    s = (before ++ String o (inside ++ String c after))%string /\
    Re.is_char 123 o = true /\ Re.is_char 125 c = true.

(** The number of requests among the events of a view. *)
Definition core_events (l : list Views.io) : list event :=
  flat_map (fun x => match x with
                     | Views.Core ev => [ev]
                     | Views.Logged _ => []
                     end) l.

(** More sample collaborators. *)
Module MoreSamples.

(** A reply that is a JSON object with a summary and a key of its own, and
    none of the other keys of the prompt. *)
Definition partial_reply : string :=
  "{" ++ Samples.field "summary" (Samples.quoted "Rain is expected in the north tomorrow.")
      ++ ", " ++ Samples.field "language" (Samples.quoted "en") ++ "}".

Definition partial_reply_value : dict :=
  [ ("summary", PyStr "Rain is expected in the north tomorrow.");
    ("language", PyStr "en") ].

Definition world_partial_reply : World :=
  Samples.online partial_reply (Samples.loads_only partial_reply partial_reply_value).

End MoreSamples.

(* ================================================================== *)
(** ** Notions used to state the conditions on one call *)

(** What the reply of the service to this text is parsed into, when it is
    parsed into anything, is scorable. *)
Definition parsed_reply_scorable (w : World) (text : string) : Prop :=
  forall reply j v,
    chat_completion w text = Ok (Some reply) ->
    Re.search_braces (Str.strip reply) = Some j ->
    json_loads w j = Ok v ->
    scorable v = true.

(** Worlds whose [json.loads] knows more than one text. *)
Module Parsers.

(** [json.loads] on the two sample replies that are JSON objects. *)
Definition loads_known (s : string) : result dict :=
  if String.eqb s Samples.full_reply then Ok Samples.full_reply_value
  else if String.eqb s Samples.null_topics_reply then Ok Samples.null_topics_value
  else Samples.fails "JSONDecodeError".

(** The service answers the well-formed reply. *)
Definition world_full_reply : World := Samples.online Samples.full_reply loads_known.

(** The service answers the reply whose topics are null. *)
Definition world_null_topics : World :=
  Samples.online Samples.null_topics_reply loads_known.

End Parsers.

(* ================================================================== *)
(** ** The title as the claim words it *)

(** The whitespace-separated words of a text: the text is made of the
    words, in their order, each of them not empty and free of whitespace,
    with whitespace before the first one, at least one whitespace character
    between two of them, and whitespace after the last one. *)
Inductive words_of : string -> list string -> Prop :=
| words_none (gap : string) :
    all_space gap -> words_of gap []
| words_last (gap word : string) :
    all_space gap -> word <> "" -> no_space word ->
    words_of (gap ++ word) [word]
| words_more (gap word : string) (c : ascii) (rest : string) (ws : list string) :
    all_space gap -> word <> "" -> no_space word ->
    Str.isspace c = true -> words_of rest ws ->
    words_of (gap ++ word ++ String c rest) (word :: ws).

(** The letters, by their ASCII codes: the small ones from 97 to 122, the
    capital ones from 65 to 90, a small letter being 32 above its capital. *)
Definition small_letter (c : ascii) : bool :=
  (Nat.leb 97 (nat_of_ascii c) && Nat.leb (nat_of_ascii c) 122)%bool.

Definition capital_letter (c : ascii) : bool :=
  (Nat.leb 65 (nat_of_ascii c) && Nat.leb (nat_of_ascii c) 90)%bool.

Definition letter (c : ascii) : bool := (small_letter c || capital_letter c)%bool.

Definition capital_of (c : ascii) : ascii :=
  if small_letter c then ascii_of_nat (nat_of_ascii c - 32) else c.

Definition small_of (c : ascii) : ascii :=
  if capital_letter c then ascii_of_nat (nat_of_ascii c + 32) else c.

(** The character of [s] at position [i] comes right after a letter. *)
Definition follows_letter (s : string) (i : nat) : bool :=
  match i with
  | O => false
  | S j =>
      match String.get j s with
      | Some previous => letter previous
      | None => false
      end
  end.

(** [t] is [s] title-cased: it has the length of [s], and at every position
    a letter that comes right after a letter is small, a letter that does
    not is capital, and a character that is not a letter is unchanged. *)
Definition title_cased (s t : string) : Prop :=
  String.length t = String.length s /\
  forall (i : nat) (c : ascii),
    String.get i s = Some c ->
    String.get i t = Some (if follows_letter s i then small_of c else capital_of c).

(** A world whose tagger reads the context of a word. *)
Module Taggers.

(** A word that follows "the" is tagged as a noun, "the" as a determiner,
    and any other word as a verb. *)
Fixpoint tag_after (previous : string) (tokens : list string)
  : list (string * string) :=
  match tokens with
  | [] => []
  | token :: rest =>
      (token,
       if String.eqb previous "the" then "NN"
       else if String.eqb token "the" then "DT"
       else "VB") :: tag_after token rest
  end.

(** A process without credential whose tokenizer splits at whitespace. *)
Definition world : World :=
  {| OPENAI_API_KEY := None;
     openai_client := Ok tt;
     chat_completion := fun _ => Samples.fails "APIConnectionError";
     json_loads := fun _ => Samples.fails "JSONDecodeError";
     word_tokenize := fun s => Ok (Str.split s);
     pos_tag := fun tokens => Ok (tag_after "" tokens);
     stopwords_english := Installed Samples.some_stopwords;
     randbelow := fun _ => 1 |}.

(** The word "run" occurs three times, once as a noun; the word "dog" occurs
    twice, as a noun. *)
Definition text : string :=
  "They run and we run but the run tired the dog and the dog slept".

End Taggers.

(* ================================================================== *)
(** * Properties *)

(** ** Literals and strings *)

(** The literals are the binary64 numbers nearest to their decimal
    notation, given here by mantissa and exponent. *)
Lemma literal_values :
  F64.f0_05 = S754_finite false 7205759403792794 (-57) /\
  F64.f0_1 = S754_finite false 7205759403792794 (-56) /\
  F64.f0_2 = S754_finite false 7205759403792794 (-55) /\
  F64.f0_7 = S754_finite false 6305039478318694 (-53) /\
  F64.f0_8 = S754_finite false 7205759403792794 (-53) /\
  F64.f1_0 = S754_finite false 4503599627370496 (-52) /\
  F64.f0_0 = S754_zero false.
Proof. repeat split; reflexivity. Qed.

Lemma is_empty_true (s : string) : Str.is_empty s = true <-> s = "".
Proof. destruct s; simpl; split; intros H; congruence. Qed.

(** [not text or not text.strip()] is just "empty after trimming". *)
Lemma empty_input_test (text : string) :
  (Str.is_empty text || Str.is_empty (Str.strip text))%bool = true
  <-> Str.strip text = "".
Proof.
  rewrite orb_true_iff, !is_empty_true. split.
  - intros [-> | H]; [reflexivity | exact H].
  - intros H. right. exact H.
Qed.

(** [text and len(text.strip()) > 10] is just the test on the length. *)
Lemma first_test (text : string) :
  (negb (Str.is_empty text) && Nat.ltb 10 (String.length (Str.strip text)))%bool
  = Nat.ltb 10 (trimmed_length text).
Proof.
  unfold trimmed_length. destruct text as [|c text]; reflexivity.
Qed.

(** ** The confidence scorer *)

(** The scorer computes [score_from_flags] of its eight tests whenever the
    analyzer output is scorable. *)
Lemma score_by_flags (text : string) (d : dict) (keywords : list string) :
  scorable d = true ->
  calculate_confidence_score text d keywords
  = Ok (score_from_flags
          (Nat.ltb 10 (trimmed_length text))
          (Nat.ltb 100 (trimmed_length text))
          (Nat.ltb 500 (trimmed_length text))
          (Nat.ltb 20 (summary_length d))
          (truthy (dict_get d "title" PyNone))
          (topics_length d) (List.length keywords)
          (py_ne_str (sentiment_of d) "neutral")).
Proof.
  unfold scorable, calculate_confidence_score, score_from_flags,
    summary_length, topics_length, sentiment_of.
  rewrite first_test. fold (trimmed_length text).
  intros H. apply andb_true_iff in H. destruct H as [Hsum Htop].
  destruct (dict_get d "summary" (PyStr "")) as [| b | z | f | s | l | kv] eqn:Es;
    simpl in Hsum;
    destruct (dict_get d "topics" (PyList [])) as [| b' | z' | f' | s' | l' | kv'] eqn:Et;
    simpl in Htop; try discriminate Htop; simpl;
    try reflexivity;
    try (rewrite orb_false_r in Hsum; apply negb_true_iff in Hsum;
         rewrite Hsum; reflexivity);
    try (rewrite orb_false_r in Hsum; apply negb_true_iff in Hsum;
         simpl in Hsum; rewrite Hsum; reflexivity).
  all: destruct s as [|c s]; simpl; reflexivity.
Qed.

Ltac each_count n := destruct n as [|[|[|n]]].

Ltac each_flag :=
  repeat match goal with
         | b : bool |- _ => destruct b
         end.

(** The result of the scorer is the clamped sum of the contributions. *)
Lemma flags_sum (b1 b2 b3 b4 b5 : bool) (nt nk : nat) (b8 : bool) :
  score_from_flags b1 b2 b3 b4 b5 nt nk b8
  = clamp
      (F64.add (F64.add (F64.add (F64.add (F64.add (F64.add (F64.add (F64.add
         F64.f0_0 (contribution b1 F64.f0_2)) (contribution b2 F64.f0_1))
         (contribution b3 F64.f0_1)) (contribution b4 F64.f0_2))
         (contribution b5 F64.f0_1)) (count_contribution nt))
         (count_contribution nk)) (contribution b8 F64.f0_1)).
Proof.
  each_count nt; each_count nk; each_flag; vm_compute; reflexivity.
Qed.

Lemma flags_in_unit_interval (b1 b2 b3 b4 b5 : bool) (nt nk : nat) (b8 : bool) :
  in_unit_interval (score_from_flags b1 b2 b3 b4 b5 nt nk b8) = true.
Proof.
  each_count nt; each_count nk; each_flag; vm_compute; reflexivity.
Qed.

(** After the discount of the fallback path the score is at most 0.7, hence
    below the cap 0.8, which never applies. *)
Lemma flags_discounted (b1 b2 b3 b4 b5 : bool) (nt nk : nat) (b8 : bool) :
  let base := score_from_flags b1 b2 b3 b4 b5 nt nk b8 in
  F64.leb (mock_discount base) F64.f0_7 = true /\
  F64.leb (mock_discount base) F64.f0_8 = true /\
  in_unit_interval (mock_discount base) = true /\
  mock_discount base = F64.mul base F64.f0_7.
Proof.
  each_count nt; each_count nk; each_flag; vm_compute; repeat split; reflexivity.
Qed.

(** The scorer raises exactly on the outputs that are not scorable. *)
Lemma score_raises (text : string) (d : dict) (keywords : list string) :
  scorable d = false ->
  exists e, calculate_confidence_score text d keywords = Raise e /\
            (exn_kind e = AttributeError \/ exn_kind e = TypeError).
Proof.
  unfold scorable, calculate_confidence_score. intros H.
  destruct (dict_get d "summary" (PyStr "")) as [| b | z | f | s | l | kv] eqn:Es;
    destruct (dict_get d "topics" (PyList [])) as [| b' | z' | f' | s' | l' | kv'] eqn:Et;
    simpl in H |- *; try discriminate H;
    repeat match goal with
           | |- context [rbind (if ?c then _ else _) _] =>
               destruct c eqn:?; simpl in H |- *; try discriminate H
           end;
    eexists; (split; [reflexivity | simpl; auto]).
Qed.

(** C1 (amended).  For every text, every scorable analyzer output and every
    keyword list, the scorer returns the sum, clamped to [0.0, 1.0], of:
    0.20 if the trimmed text is longer than 10 characters, 0.10 if it is
    longer than 100, 0.10 if it is longer than 500, 0.20 if the summary has a
    trimmed length over 20, 0.10 if the title is a true value (neither null
    nor empty), 0.10 for at least 3 topics (else 0.05 for 2), 0.10 for at
    least 3 keywords (else 0.05 for 2), 0.10 if the sentiment (neutral when
    absent) is not the string neutral.  On an output that is not scorable
    the scorer raises.  A text of 600 characters with a summary, the title
    T, three topics, a positive sentiment and three keywords scores 1.0. *)
Theorem confidence_score_is_clamped_sum :
  (forall text d keywords,
      scorable d = true ->
      calculate_confidence_score text d keywords
      = Ok (score_as_coded text d keywords)) /\
  (forall text d keywords,
      scorable d = false ->
      exists e, calculate_confidence_score text d keywords = Raise e) /\
  (forall text d keywords summary a b c,
      trimmed_length text = 600 ->
      dict_get d "summary" (PyStr "") = PyStr summary ->
      20 < String.length (Str.strip summary) ->
      dict_get d "title" PyNone = PyStr "T" ->
      dict_get d "topics" (PyList []) = PyList [a; b; c] ->
      dict_get d "sentiment" (PyStr "neutral") = PyStr "positive" ->
      List.length keywords = 3 ->
      calculate_confidence_score text d keywords = Ok F64.f1_0).
Proof.
  split; [| split].
  - intros text d keywords H.
    rewrite (score_by_flags text d keywords H).
    unfold score_as_coded, contribution_sum. rewrite flags_sum. reflexivity.
  - intros text d keywords H.
    destruct (score_raises text d keywords H) as [e [He _]]. exists e. exact He.
  - intros text d keywords summary a b c Hlen Hsum Hlong Htitle Htopics Hsent Hkw.
    assert (Hs : scorable d = true).
    { unfold scorable. rewrite Hsum, Htopics. simpl.
      rewrite orb_true_r. reflexivity. }
    rewrite (score_by_flags text d keywords Hs).
    unfold summary_length, topics_length, sentiment_of.
    rewrite Hlen, Hsum, Htitle, Htopics, Hsent, Hkw.
    apply Nat.ltb_lt in Hlong. rewrite Hlong. reflexivity.
Qed.

Lemma confidence_score_is_clamped_sum_witness :
  scorable Samples.full_reply_value = true /\
  trimmed_length Samples.text600 = 600 /\
  calculate_confidence_score Samples.text600 Samples.full_reply_value
    ["alpha"; "beta"; "gamma"]
  = Ok (score_as_coded Samples.text600 Samples.full_reply_value
          ["alpha"; "beta"; "gamma"]) /\
  calculate_confidence_score Samples.text600 Samples.full_reply_value
    ["alpha"; "beta"; "gamma"]
  = Ok F64.f1_0.
Proof.
  split; [reflexivity | split; [reflexivity | split]].
  - apply (proj1 confidence_score_is_clamped_sum). reflexivity.
  - apply (proj2 (proj2 confidence_score_is_clamped_sum))
      with (summary := "The text repeats three Greek letters many times.")
           (a := PyStr "a") (b := PyStr "b") (c := PyStr "c").
    + reflexivity.
    + reflexivity.
    + vm_compute. lia.
    + reflexivity.
    + reflexivity.
    + reflexivity.
    + reflexivity.
Defined.

(** C1 as worded fails on a title that is present, not null, and empty: the
    scorer gives 0.55 where counting every non-null title gives 0.65. *)
Lemma score_ignores_empty_title :
  dict_get Samples.empty_title_output "title" PyNone = PyStr "" /\
  calculate_confidence_score "A short note." Samples.empty_title_output
    ["weather"; "rain"]
  = Ok (S754_finite false 4953959590107546 (-53)) /\
  score_as_specified "A short note." Samples.empty_title_output ["weather"; "rain"]
  = S754_finite false 5854679515581645 (-53) /\
  calculate_confidence_score "A short note." Samples.empty_title_output
    ["weather"; "rain"]
  <> Ok (score_as_specified "A short note." Samples.empty_title_output
           ["weather"; "rain"]).
Proof.
  repeat split; try reflexivity.
  vm_compute. intros H. discriminate H.
Qed.

(** ** The two analyzers and the keyword extractor inside the orchestration *)

Lemma init_unconfigured (w : World) :
  LLMAnalyzer.unconfigured w = true ->
  LLMAnalyzer.init w = ([], Raise configuration_error).
Proof. unfold LLMAnalyzer.init. intros ->. reflexivity. Qed.

Lemma init_configured (w : World) :
  LLMAnalyzer.unconfigured w = false ->
  openai_client w = Ok tt ->
  LLMAnalyzer.init w = ([], Ok tt).
Proof. unfold LLMAnalyzer.init. intros -> ->. reflexivity. Qed.

(** The construction produces no event, whether it succeeds or raises. *)
Lemma init_cases (w : World) :
  LLMAnalyzer.init w = ([], Ok tt) \/
  exists e, LLMAnalyzer.init w = ([], Raise e).
Proof.
  unfold LLMAnalyzer.init. destruct (LLMAnalyzer.unconfigured w).
  - right. eexists. reflexivity.
  - destruct (openai_client w) as [[] | e]; [left | right; exists e]; reflexivity.
Qed.

Lemma mock_scorable (w : World) (text : string) :
  scorable (MockAnalyzer.analyze_text w text) = true.
Proof.
  unfold scorable, MockAnalyzer.analyze_text. simpl.
  rewrite orb_true_r. reflexivity.
Qed.

(** The [try]/[except] around the analyzers always yields an output: the
    one of the primary analyzer, or the one of the mock analyzer. *)
Lemma run_analyzers_cases (w : World) (text : string) :
  (exists d,
      outcome (run_analyzers w text) = Ok (d, "openai") /\
      LLMAnalyzer.init w = ([], Ok tt) /\
      outcome (LLMAnalyzer.analyze_text w text) = Ok d) \/
  (outcome (run_analyzers w text) = Ok (MockAnalyzer.analyze_text w text, "mock") /\
   ((exists e, LLMAnalyzer.init w = ([], Raise e)) \/
    exists e, outcome (LLMAnalyzer.analyze_text w text) = Raise e)).
Proof.
  unfold run_analyzers.
  destruct (init_cases w) as [Hc | [e Hc]]; rewrite Hc; simpl.
  - destruct (LLMAnalyzer.analyze_text w text) as [t [d | e]] eqn:Ha; simpl.
    + left. exists d. auto.
    + right. split; [reflexivity | right; exists e; reflexivity].
  - right. split; [reflexivity | left; exists e; reflexivity].
Qed.

(** The extractor never raises: it returns the top of the candidates. *)
Lemma extract_keywords_ok (w : World) (text : string) (n : Z) :
  KeywordExtractor.extract_keywords w text n
  = Ok (KeywordExtractor.top n (KeywordExtractor.candidates w text)).
Proof.
  unfold KeywordExtractor.extract_keywords, KeywordExtractor.candidates.
  destruct (KeywordExtractor.nouns w text) as [l | e]; reflexivity.
Qed.

(** The construction of the keyword extractor produces no event; it
    succeeds, or raises the [LookupError] of the missing corpus. *)
Lemma extractor_cases (w : World) :
  KeywordExtractor.init w = ([], Ok tt) \/
  exists message,
    stopwords_english w = Missing message /\
    KeywordExtractor.init w = ([], Raise (MkExn LookupError message)).
Proof.
  unfold KeywordExtractor.init. destruct (stopwords_english w) as [l | message].
  - left. reflexivity.
  - right. exists message. split; reflexivity.
Qed.

(** Without the stopword corpus the orchestration raises at once, before
    any analyzer is tried. *)
Lemma orchestration_no_extractor (w : World) (text : string) (e : exn) :
  Str.strip text <> "" ->
  KeywordExtractor.init w = ([], Raise e) ->
  analyze_text_complete w text = ([], Raise e).
Proof.
  intros Hne Hk. unfold analyze_text_complete.
  destruct (Str.is_empty text || Str.is_empty (Str.strip text))%bool eqn:Hempty.
  - apply empty_input_test in Hempty. contradiction.
  - rewrite Hk. reflexivity.
Qed.

(** What the orchestration returns on a text that is not empty after
    trimming, once the keyword extractor is built. *)
Lemma orchestration_outcome (w : World) (text : string) :
  Str.strip text <> "" ->
  KeywordExtractor.init w = ([], Ok tt) ->
  outcome (analyze_text_complete w text)
  = match outcome (run_analyzers w text) with
    | Ok (d, m) =>
        let keywords := keywords_of w text in
        match calculate_confidence_score text d keywords with
        | Ok base => Ok (combine_results d keywords (adjust_confidence m base) m)
        | Raise e => Raise e
        end
    | Raise e => Raise e
    end.
Proof.
  intros Hne Hk. unfold analyze_text_complete.
  destruct (Str.is_empty text || Str.is_empty (Str.strip text))%bool eqn:Hempty.
  - apply empty_input_test in Hempty. contradiction.
  - rewrite Hk. simpl.
    destruct (run_analyzers w text) as [t [[d m] | e]]; simpl; [| reflexivity].
    rewrite extract_keywords_ok. simpl.
    destruct (calculate_confidence_score text d _) as [base | e]; reflexivity.
Qed.

Lemma orchestration_trace (w : World) (text : string) :
  Str.strip text <> "" ->
  KeywordExtractor.init w = ([], Ok tt) ->
  trace (analyze_text_complete w text) = trace (run_analyzers w text).
Proof.
  intros Hne Hk. unfold analyze_text_complete.
  destruct (Str.is_empty text || Str.is_empty (Str.strip text))%bool eqn:Hempty.
  - apply empty_input_test in Hempty. contradiction.
  - rewrite Hk. simpl.
    destruct (run_analyzers w text) as [t [[d m] | e]]; simpl; [| reflexivity].
    rewrite extract_keywords_ok. simpl.
    destruct (calculate_confidence_score text d _) as [base | e]; simpl;
      rewrite ?app_nil_r; reflexivity.
Qed.

Lemma orchestration_empty (w : World) (text : string) :
  Str.strip text = "" ->
  analyze_text_complete w text = ([], Raise empty_input_error).
Proof.
  intros He. unfold analyze_text_complete.
  apply empty_input_test in He. rewrite He. reflexivity.
Qed.

Lemma score_ok_flags (text : string) (d : dict) (keywords : list string)
    (base : F64.float) :
  calculate_confidence_score text d keywords = Ok base ->
  exists b1 b2 b3 b4 b5 nt nk b8,
    base = score_from_flags b1 b2 b3 b4 b5 nt nk b8.
Proof.
  intros H. destruct (scorable d) eqn:Hs.
  - rewrite (score_by_flags text d keywords Hs) in H. inversion H.
    do 8 eexists. reflexivity.
  - destruct (score_raises text d keywords Hs) as [e [He _]]. congruence.
Qed.

(** The orchestration returns only for a text that is not empty after
    trimming and with a keyword extractor that was built. *)
Lemma returned_extractor (w : World) (text : string) (r : dict) :
  outcome (analyze_text_complete w text) = Ok r ->
  Str.strip text <> "" /\ KeywordExtractor.init w = ([], Ok tt).
Proof.
  intros H.
  assert (Hne : Str.strip text <> "").
  { intros He. rewrite (orchestration_empty w text He) in H. discriminate H. }
  split; [exact Hne |].
  destruct (extractor_cases w) as [Hk | [message [_ Hk]]]; [exact Hk |].
  rewrite (orchestration_no_extractor w text _ Hne Hk) in H. discriminate H.
Qed.

(** Whatever the orchestration returns was assembled from an analyzer output,
    the extracted keywords and the adjusted score. *)
Lemma orchestration_inv (w : World) (text : string) (r : dict) :
  outcome (analyze_text_complete w text) = Ok r ->
  Str.strip text <> "" /\
  exists d m base,
    outcome (run_analyzers w text) = Ok (d, m) /\
    calculate_confidence_score text d (keywords_of w text) = Ok base /\
    r = combine_results d (keywords_of w text) (adjust_confidence m base) m.
Proof.
  intros H.
  destruct (returned_extractor w text r H) as [Hne Hk].
  split; [exact Hne |].
  rewrite (orchestration_outcome w text Hne Hk) in H.
  destruct (outcome (run_analyzers w text)) as [[d m] | e]; [| discriminate H].
  simpl in H.
  destruct (calculate_confidence_score text d (keywords_of w text)) as [base | e] eqn:Hb;
    [| discriminate H].
  inversion H. exists d, m, base. auto.
Qed.

Lemma run_analyzers_method (w : World) (text : string) (d : dict) (m : string) :
  outcome (run_analyzers w text) = Ok (d, m) ->
  m = "openai" \/ (m = "mock" /\ d = MockAnalyzer.analyze_text w text).
Proof.
  intros H. destruct (run_analyzers_cases w text) as [[d' [H1 _]] | [H1 _]];
    rewrite H1 in H; inversion H; auto.
Qed.

(** On the fallback path the orchestration returns, once the keyword
    extractor is built. *)
Lemma fallback_returns (w : World) (text : string) :
  Str.strip text <> "" ->
  KeywordExtractor.init w = ([], Ok tt) ->
  outcome (run_analyzers w text) = Ok (MockAnalyzer.analyze_text w text, "mock") ->
  exists base,
    calculate_confidence_score text (MockAnalyzer.analyze_text w text)
      (keywords_of w text) = Ok base /\
    outcome (analyze_text_complete w text)
    = Ok (combine_results (MockAnalyzer.analyze_text w text) (keywords_of w text)
            (mock_discount base) "mock").
Proof.
  intros Hne Hk Hrun.
  rewrite (orchestration_outcome w text Hne Hk), Hrun. simpl.
  rewrite (score_by_flags _ _ _ (mock_scorable w text)).
  eexists. split; reflexivity.
Qed.

(** C2.  For every text that is not empty after trimming, the result the
    orchestration returns has a confidence score between 0.0 and 1.0, on the
    primary path (method openai) and on the fallback path (method mock). *)
Theorem confidence_score_in_unit_interval (w : World) (text : string) (r : dict) :
  Str.strip text <> "" ->
  outcome (analyze_text_complete w text) = Ok r ->
  exists c,
    confidence_of r = PyFloat c /\
    in_unit_interval c = true /\
    (method_of r = PyStr "openai" \/ method_of r = PyStr "mock").
Proof.
  intros _ H.
  destruct (orchestration_inv w text r H) as [_ [d [m [base [Hrun [Hbase ->]]]]]].
  destruct (score_ok_flags _ _ _ _ Hbase)
    as [b1 [b2 [b3 [b4 [b5 [nt [nk [b8 ->]]]]]]]].
  exists (adjust_confidence m (score_from_flags b1 b2 b3 b4 b5 nt nk b8)).
  split; [reflexivity |].
  destruct (run_analyzers_method w text d m Hrun) as [-> | [-> _]].
  - split; [apply flags_in_unit_interval | left; reflexivity].
  - split; [apply (flags_discounted b1 b2 b3 b4 b5 nt nk b8) | right; reflexivity].
Qed.

Lemma confidence_score_in_unit_interval_witness :
  (exists c,
      confidence_of (returned (analyze_text_complete Samples.offline
                                 "excellent breakthrough in medicine")) = PyFloat c /\
      in_unit_interval c = true /\
      (method_of (returned (analyze_text_complete Samples.offline
                              "excellent breakthrough in medicine")) = PyStr "openai" \/
       method_of (returned (analyze_text_complete Samples.offline
                              "excellent breakthrough in medicine")) = PyStr "mock")) /\
  (exists c,
      confidence_of (returned (analyze_text_complete Samples.world_full_reply
                                 Samples.text600)) = PyFloat c /\
      in_unit_interval c = true /\
      (method_of (returned (analyze_text_complete Samples.world_full_reply
                              Samples.text600)) = PyStr "openai" \/
       method_of (returned (analyze_text_complete Samples.world_full_reply
                              Samples.text600)) = PyStr "mock")).
Proof.
  split.
  - apply (confidence_score_in_unit_interval Samples.offline
             "excellent breakthrough in medicine").
    + vm_compute. discriminate.
    + vm_compute. reflexivity.
  - apply (confidence_score_in_unit_interval Samples.world_full_reply Samples.text600).
    + vm_compute. discriminate.
    + vm_compute. reflexivity.
Defined.

(** C3.  For every result whose analysis method is the fallback one (mock),
    the confidence score is the score of the scorer multiplied by 0.7 and
    then capped at 0.8, and it is at most 0.8. *)
Theorem fallback_confidence_is_discounted (w : World) (text : string) (r : dict) :
  outcome (analyze_text_complete w text) = Ok r ->
  method_of r = PyStr "mock" ->
  exists d keywords base,
    outcome (run_analyzers w text) = Ok (d, "mock") /\
    KeywordExtractor.extract_keywords w text 3 = Ok keywords /\
    calculate_confidence_score text d keywords = Ok base /\
    confidence_of r = PyFloat (F64.py_min (F64.mul base F64.f0_7) F64.f0_8) /\
    F64.leb (F64.py_min (F64.mul base F64.f0_7) F64.f0_8) F64.f0_8 = true.
Proof.
  intros H Hm.
  destruct (orchestration_inv w text r H) as [_ [d [m [base [Hrun [Hbase ->]]]]]].
  unfold method_of in Hm. simpl in Hm. inversion Hm. subst m.
  exists d, (keywords_of w text), base.
  split; [exact Hrun |].
  split; [apply extract_keywords_ok |].
  split; [exact Hbase |].
  split; [reflexivity |].
  destruct (score_ok_flags _ _ _ _ Hbase)
    as [b1 [b2 [b3 [b4 [b5 [nt [nk [b8 ->]]]]]]]].
  apply (flags_discounted b1 b2 b3 b4 b5 nt nk b8).
Qed.

Lemma fallback_confidence_is_discounted_witness :
  exists d keywords base,
    outcome (run_analyzers Samples.offline "excellent breakthrough in medicine")
    = Ok (d, "mock") /\
    KeywordExtractor.extract_keywords Samples.offline
      "excellent breakthrough in medicine" 3 = Ok keywords /\
    calculate_confidence_score "excellent breakthrough in medicine" d keywords
    = Ok base /\
    confidence_of (returned (analyze_text_complete Samples.offline
                               "excellent breakthrough in medicine"))
    = PyFloat (F64.py_min (F64.mul base F64.f0_7) F64.f0_8) /\
    F64.leb (F64.py_min (F64.mul base F64.f0_7) F64.f0_8) F64.f0_8 = true.
Proof.
  apply (fallback_confidence_is_discounted Samples.offline
           "excellent breakthrough in medicine").
  - vm_compute. reflexivity.
  - vm_compute. reflexivity.
Defined.

(** C10.  For every text that is not empty after trimming, a result of the
    fallback path has a confidence score of at most 0.7: the score of the
    scorer is at most 1.0 before it is multiplied by 0.7, so that the cap at
    0.8 never applies. *)
Theorem fallback_confidence_at_most_0_7 (w : World) (text : string) (r : dict) :
  Str.strip text <> "" ->
  outcome (analyze_text_complete w text) = Ok r ->
  method_of r = PyStr "mock" ->
  exists base,
    calculate_confidence_score text (MockAnalyzer.analyze_text w text)
      (keywords_of w text) = Ok base /\
    F64.leb base F64.f1_0 = true /\
    confidence_of r = PyFloat (F64.mul base F64.f0_7) /\
    F64.leb (F64.mul base F64.f0_7) F64.f0_7 = true.
Proof.
  intros _ H Hm.
  destruct (orchestration_inv w text r H) as [_ [d [m [base [Hrun [Hbase ->]]]]]].
  unfold method_of in Hm. simpl in Hm. inversion Hm. subst m.
  destruct (run_analyzers_method w text d "mock" Hrun) as [Hd | [_ ->]];
    [discriminate Hd |].
  exists base. split; [exact Hbase |].
  destruct (score_ok_flags _ _ _ _ Hbase)
    as [b1 [b2 [b3 [b4 [b5 [nt [nk [b8 ->]]]]]]]].
  destruct (flags_discounted b1 b2 b3 b4 b5 nt nk b8) as [H07 [_ [_ Hmul]]].
  pose proof (flags_in_unit_interval b1 b2 b3 b4 b5 nt nk b8) as Hunit.
  apply andb_true_iff in Hunit. destruct Hunit as [_ Hle1].
  split; [exact Hle1 |].
  unfold confidence_of. simpl. fold (mock_discount (score_from_flags b1 b2 b3 b4 b5 nt nk b8)).
  rewrite Hmul in *. split; [reflexivity | exact H07].
Qed.

Lemma fallback_confidence_at_most_0_7_witness :
  exists base,
    calculate_confidence_score "excellent breakthrough in medicine"
      (MockAnalyzer.analyze_text Samples.offline "excellent breakthrough in medicine")
      (keywords_of Samples.offline "excellent breakthrough in medicine") = Ok base /\
    F64.leb base F64.f1_0 = true /\
    confidence_of (returned (analyze_text_complete Samples.offline
                               "excellent breakthrough in medicine"))
    = PyFloat (F64.mul base F64.f0_7) /\
    F64.leb (F64.mul base F64.f0_7) F64.f0_7 = true.
Proof.
  apply (fallback_confidence_at_most_0_7 Samples.offline
           "excellent breakthrough in medicine").
  - vm_compute. discriminate.
  - vm_compute. reflexivity.
  - vm_compute. reflexivity.
Defined.

(** ** Failures of the orchestration *)

Lemma raw_text_scorable (content : string) :
  scorable (LLMAnalyzer.raw_text_result content) = true.
Proof.
  unfold scorable, LLMAnalyzer.raw_text_result. simpl.
  rewrite orb_true_r. reflexivity.
Qed.

(** An output of the primary analyzer is either built from the whole reply
    or parsed by [json.loads] from the brace pair of the reply. *)
Lemma primary_output (w : World) (text : string) (d : dict) :
  outcome (LLMAnalyzer.analyze_text w text) = Ok d ->
  exists reply,
    chat_completion w text = Ok (Some reply) /\
    ((Re.search_braces (Str.strip reply) = None /\
      d = LLMAnalyzer.raw_text_result (Str.strip reply)) \/
     (exists j, Re.search_braces (Str.strip reply) = Some j /\
                json_loads w j = Ok d)).
Proof.
  unfold LLMAnalyzer.analyze_text.
  destruct (chat_completion w text) as [[reply |] | e] eqn:Hc; simpl;
    try discriminate.
  destruct (Re.search_braces (Str.strip reply)) as [j |] eqn:Hs; simpl.
  - destruct (json_loads w j) as [d' | e] eqn:Hj; simpl; try discriminate.
    intros H. inversion H. subst d'.
    exists reply. split; [reflexivity |]. right. exists j. auto.
  - intros H. inversion H.
    exists reply. split; [reflexivity |]. left. auto.
Qed.

(** The primary analyzer raises one exception only, the one it wraps every
    failure in. *)
Lemma primary_failure (w : World) (text : string) (e : exn) :
  outcome (LLMAnalyzer.analyze_text w text) = Raise e ->
  exn_kind e = Exception /\
  exists cause, e = MkExn Exception ("OpenAI API error: " ++ exn_str cause).
Proof.
  unfold LLMAnalyzer.analyze_text.
  destruct (chat_completion w text) as [[reply |] | e0] eqn:Hc; simpl.
  - destruct (Re.search_braces (Str.strip reply)) as [j |] eqn:Hs; simpl.
    + destruct (json_loads w j) as [d' | e1] eqn:Hj; simpl; try discriminate.
      intros H. inversion H. split; [reflexivity |]. exists e1. reflexivity.
    + discriminate.
  - intros H. inversion H. split; [reflexivity |].
    exists (MkExn AttributeError "'NoneType' object has no attribute 'strip'").
    reflexivity.
  - intros H. inversion H. split; [reflexivity |]. exists e0. reflexivity.
Qed.

(** On a text that is not empty after trimming the orchestration returns a
    result with the seven keys when the analyzer output is scorable, and lets
    the error of the scorer through when it is not. *)
Lemma orchestration_returns_or_scorer_error (w : World) (text : string) :
  Str.strip text <> "" ->
  KeywordExtractor.init w = ([], Ok tt) ->
  exists d m,
    outcome (run_analyzers w text) = Ok (d, m) /\
    ((scorable d = true /\
      exists base,
        outcome (analyze_text_complete w text)
        = Ok (combine_results d (keywords_of w text) (adjust_confidence m base) m)) \/
     (scorable d = false /\
      exists e,
        outcome (analyze_text_complete w text) = Raise e /\
        (exn_kind e = AttributeError \/ exn_kind e = TypeError))).
Proof.
  intros Hne Hk.
  assert (Hrun : exists d m, outcome (run_analyzers w text) = Ok (d, m)).
  { destruct (run_analyzers_cases w text) as [[d [H _]] | [H _]]; eauto. }
  destruct Hrun as [d [m Hrun]]. exists d, m. split; [exact Hrun |].
  rewrite (orchestration_outcome w text Hne Hk), Hrun. simpl.
  destruct (scorable d) eqn:Hs.
  - left. split; [reflexivity |].
    rewrite (score_by_flags _ _ _ Hs). eexists. reflexivity.
  - right. split; [reflexivity |].
    destruct (score_raises text d (keywords_of w text) Hs) as [e [He Hkind]].
    rewrite He. exists e. auto.
Qed.

(** When the object parsed from the reply of this call, if any, is
    scorable, so is the analyzer output. *)
Lemma analyzer_output_scorable (w : World) (text : string) (d : dict) (m : string) :
  parsed_reply_scorable w text ->
  outcome (run_analyzers w text) = Ok (d, m) ->
  scorable d = true.
Proof.
  intros Hw Hrun.
  destruct (run_analyzers_cases w text) as [[d' [H [_ Hp]]] | [H _]];
    rewrite H in Hrun; inversion Hrun; subst.
  - destruct (primary_output w text d Hp) as [reply [Hc [[_ ->] | [j [Hs Hj]]]]].
    + apply raw_text_scorable.
    + exact (Hw reply j d Hc Hs Hj).
  - apply mock_scorable.
Qed.

(** An analyzer output that is not scorable was parsed from the reply of
    this call. *)
Lemma unscorable_output_is_parsed (w : World) (text : string) (d : dict) (m : string) :
  outcome (run_analyzers w text) = Ok (d, m) ->
  scorable d = false ->
  m = "openai" /\
  exists reply j,
    chat_completion w text = Ok (Some reply) /\
    Re.search_braces (Str.strip reply) = Some j /\
    json_loads w j = Ok d.
Proof.
  intros Hrun Hs.
  destruct (run_analyzers_cases w text) as [[d' [H [_ Hp]]] | [H _]];
    rewrite H in Hrun; inversion Hrun; subst.
  - split; [reflexivity |].
    destruct (primary_output w text d Hp) as [reply [Hc [[_ ->] | [j [Hj Hl]]]]].
    + rewrite raw_text_scorable in Hs. discriminate Hs.
    + exists reply, j. auto.
  - rewrite mock_scorable in Hs. discriminate Hs.
Qed.

(** The orchestration raises its empty-input error on the texts that are
    empty after trimming and on no other text. *)
Lemma empty_input_error_iff (w : World) (text : string) :
  outcome (analyze_text_complete w text) = Raise empty_input_error
  <-> Str.strip text = "".
Proof.
  split.
  - intros H. destruct (string_dec (Str.strip text) "") as [He | Hne]; [exact He |].
    exfalso.
    destruct (extractor_cases w) as [Hk | [message [_ Hk]]].
    + destruct (orchestration_returns_or_scorer_error w text Hne Hk)
        as [d [m [_ [[_ [base Hok]] | [_ [e [He Hkind]]]]]]].
      * rewrite Hok in H. discriminate H.
      * rewrite He in H. inversion H. subst e.
        destruct Hkind as [Hkind | Hkind]; discriminate Hkind.
    + rewrite (orchestration_no_extractor w text _ Hne Hk) in H. discriminate H.
  - intros He. rewrite (orchestration_empty w text He). reflexivity.
Qed.

(** C4 (amended).  The orchestration fails with the empty-input error if and
    only if the text is empty after trimming.  For every other text, once
    the keyword extractor is built, it returns a result with the seven keys
    summary, title, topics, sentiment, keywords, confidence_score and
    analysis_method, provided the object parsed from the reply of the
    service to this text, if there is one, is scorable (its summary is a
    string or a false value, its topics have a length); the only failure
    that can cross the boundary otherwise is the AttributeError or TypeError
    that the scorer raises on the object parsed from the reply, which is then
    not scorable.  A failure of a text that is not empty after trimming has
    no other origin than the scorer or the construction of the keyword
    extractor.  Whatever is returned has the seven keys: there is no partial
    result. *)
Theorem orchestration_fails_only_on_empty_input (w : World) (text : string) :
  (outcome (analyze_text_complete w text) = Raise empty_input_error
   <-> Str.strip text = "") /\
  (Str.strip text <> "" ->
   KeywordExtractor.init w = ([], Ok tt) ->
   parsed_reply_scorable w text ->
   exists r,
     outcome (analyze_text_complete w text) = Ok r /\
     map fst r = result_keys /\
     (method_of r = PyStr "openai" \/ method_of r = PyStr "mock")) /\
  (Str.strip text <> "" ->
   KeywordExtractor.init w = ([], Ok tt) ->
   forall e,
     outcome (analyze_text_complete w text) = Raise e ->
     (exn_kind e = AttributeError \/ exn_kind e = TypeError) /\
     exists reply j v,
       chat_completion w text = Ok (Some reply) /\
       Re.search_braces (Str.strip reply) = Some j /\
       json_loads w j = Ok v /\
       scorable v = false /\
       calculate_confidence_score text v (keywords_of w text) = Raise e) /\
  (Str.strip text <> "" ->
   forall e,
     outcome (analyze_text_complete w text) = Raise e ->
     (KeywordExtractor.init w = ([], Raise e) /\ exn_kind e = LookupError) \/
     (KeywordExtractor.init w = ([], Ok tt) /\
      (exn_kind e = AttributeError \/ exn_kind e = TypeError))) /\
  (forall r, outcome (analyze_text_complete w text) = Ok r ->
             map fst r = result_keys).
Proof.
  split; [apply empty_input_error_iff | split; [| split; [| split]]].
  - intros Hne Hk Hw.
    destruct (orchestration_returns_or_scorer_error w text Hne Hk)
      as [d [m [Hrun [[_ [base Hok]] | [Hs _]]]]].
    + eexists. split; [exact Hok |]. split; [reflexivity |].
      destruct (run_analyzers_method w text d m Hrun) as [-> | [-> _]]; auto.
    + rewrite (analyzer_output_scorable w text d m Hw Hrun) in Hs. discriminate Hs.
  - intros Hne Hk e H.
    destruct (orchestration_returns_or_scorer_error w text Hne Hk)
      as [d [m [Hrun [[_ [base Hok]] | [Hs [e' [He Hkind]]]]]]].
    + rewrite Hok in H. discriminate H.
    + rewrite He in H. inversion H. subst e'. split; [exact Hkind |].
      destruct (unscorable_output_is_parsed w text d m Hrun Hs)
        as [_ [reply [j [Hc [Hj Hl]]]]].
      exists reply, j, d. repeat (split; [assumption |]).
      rewrite (orchestration_outcome w text Hne Hk), Hrun in He. simpl in He.
      destruct (calculate_confidence_score text d (keywords_of w text)) as [base | e0];
        [discriminate He | inversion He; reflexivity].
  - intros Hne e H.
    destruct (extractor_cases w) as [Hk | [message [_ Hk]]].
    + right. split; [exact Hk |].
      destruct (orchestration_returns_or_scorer_error w text Hne Hk)
        as [d [m [_ [[_ [base Hok]] | [_ [e' [He Hkind]]]]]]].
      * rewrite Hok in H. discriminate H.
      * rewrite He in H. inversion H. subst e'. exact Hkind.
    + left. rewrite (orchestration_no_extractor w text _ Hne Hk) in H.
      inversion H. subst e. split; [exact Hk | reflexivity].
  - intros r H.
    destruct (orchestration_inv w text r H) as [_ [d [m [base [_ [_ ->]]]]]].
    reflexivity.
Qed.

Lemma orchestration_fails_only_on_empty_input_witness :
  Str.strip Samples.text600 <> "" /\
  KeywordExtractor.init Parsers.world_full_reply = ([], Ok tt) /\
  parsed_reply_scorable Parsers.world_full_reply Samples.text600 /\
  exists r,
    outcome (analyze_text_complete Parsers.world_full_reply Samples.text600) = Ok r /\
    map fst r = result_keys /\
    (method_of r = PyStr "openai" \/ method_of r = PyStr "mock").
Proof.
  assert (Hne : Str.strip Samples.text600 <> "") by (vm_compute; discriminate).
  assert (Hw : parsed_reply_scorable Parsers.world_full_reply Samples.text600).
  { intros reply j v Hc Hs Hj. simpl in Hc. inversion Hc. subst reply.
    vm_compute in Hs. inversion Hs. subst j.
    vm_compute in Hj. inversion Hj. reflexivity. }
  split; [exact Hne |]. split; [reflexivity |]. split; [exact Hw |].
  exact (proj1 (proj2 (orchestration_fails_only_on_empty_input
                         Parsers.world_full_reply Samples.text600)) Hne eq_refl Hw).
Defined.

(** C4 as worded fails when the service replies with a JSON object whose
    topics are null: the text is not empty after trimming, the keyword
    extractor is built, and the TypeError of [len] crosses the boundary
    after one request. *)
Lemma null_topics_reply_crosses_boundary :
  Str.strip "hello world" <> "" /\
  KeywordExtractor.init Samples.world_null_topics = ([], Ok tt) /\
  Re.search_braces (Str.strip Samples.null_topics_reply) = Some Samples.null_topics_reply /\
  json_loads Samples.world_null_topics Samples.null_topics_reply
  = Ok Samples.null_topics_value /\
  analyze_text_complete Samples.world_null_topics "hello world"
  = ([Request "hello world"],
     Raise (MkExn TypeError "object of type 'NoneType' has no len()")) /\
  MkExn TypeError "object of type 'NoneType' has no len()" <> empty_input_error.
Proof.
  split; [vm_compute; discriminate |].
  split; [reflexivity |].
  split; [vm_compute; reflexivity |].
  split; [vm_compute; reflexivity |].
  split; [vm_compute; reflexivity |].
  discriminate.
Qed.

(** ** The unconfigured primary analyzer *)

Lemma unconfigured_iff (w : World) :
  LLMAnalyzer.unconfigured w = true <->
  OPENAI_API_KEY w = None \/ OPENAI_API_KEY w = Some "" \/
  OPENAI_API_KEY w = Some LLMAnalyzer.placeholder.
Proof.
  unfold LLMAnalyzer.unconfigured.
  destruct (OPENAI_API_KEY w) as [key |].
  - rewrite orb_true_iff, is_empty_true, String.eqb_eq. split.
    + intros [-> | ->]; auto.
    + intros [H | [H | H]]; inversion H; auto.
  - split; auto.
Qed.

Lemma run_analyzers_unconfigured (w : World) (text : string) :
  LLMAnalyzer.unconfigured w = true ->
  run_analyzers w text
  = ([Print ("OpenAI unavailable (" ++ exn_str configuration_error
             ++ "), using mock analyzer")],
     Ok (MockAnalyzer.analyze_text w text, "mock")).
Proof.
  intros H. unfold run_analyzers. rewrite (init_unconfigured w H). reflexivity.
Qed.

(** If the credential is absent (None or empty) or is the placeholder, the
    construction of the primary analyzer fails with the configuration error
    without any event, hence before any request; and once the keyword
    extractor is built, for every text that is not empty after trimming the
    orchestration returns a result whose method is the fallback one (mock),
    without raising and without any request to the service. *)
Lemma unconfigured_primary_falls_back (w : World) (text : string) :
  OPENAI_API_KEY w = None \/ OPENAI_API_KEY w = Some "" \/
  OPENAI_API_KEY w = Some LLMAnalyzer.placeholder ->
  LLMAnalyzer.init w = ([], Raise configuration_error) /\
  (Str.strip text <> "" ->
   KeywordExtractor.init w = ([], Ok tt) ->
   exists r,
     outcome (analyze_text_complete w text) = Ok r /\
     method_of r = PyStr "mock" /\
     map fst r = result_keys /\
     requests (trace (analyze_text_complete w text)) = 0).
Proof.
  intros Hkey. apply unconfigured_iff in Hkey.
  split; [apply init_unconfigured; exact Hkey |].
  intros Hne Hk.
  pose proof (run_analyzers_unconfigured w text Hkey) as Hrun.
  assert (Hout : outcome (run_analyzers w text)
                 = Ok (MockAnalyzer.analyze_text w text, "mock"))
    by (rewrite Hrun; reflexivity).
  destruct (fallback_returns w text Hne Hk Hout) as [base [_ Hok]].
  eexists. split; [exact Hok |].
  split; [reflexivity |]. split; [reflexivity |].
  rewrite (orchestration_trace w text Hne Hk), Hrun. reflexivity.
Qed.

(** The construction of the keyword extractor (line 250) stands before the
    [try]: when the stopword corpus is missing, its [LookupError] leaves the
    orchestration for every text that is not empty after trimming, whatever
    the credential, and no analyzer is tried. *)
Lemma missing_corpus_is_raised (w : World) (text message : string) :
  Str.strip text <> "" ->
  stopwords_english w = Missing message ->
  analyze_text_complete w text = ([], Raise (MkExn LookupError message)).
Proof.
  intros Hne Hm. apply (orchestration_no_extractor w text _ Hne).
  unfold KeywordExtractor.init. rewrite Hm. reflexivity.
Qed.

(** C5, the code in a process without credential and without the stopword
    corpus.  The construction of the primary analyzer fails with the
    configuration error before any request, as the claim says; but the
    orchestration does not fall back: the [LookupError] of the keyword
    extractor, which is built before the [try], reaches the caller, and
    nothing was tried.  The same process with the corpus installed returns
    the result of the fallback. *)
Theorem missing_corpus_breaks_the_fallback :
  OPENAI_API_KEY Samples.no_corpus = None /\
  LLMAnalyzer.init Samples.no_corpus = ([], Raise configuration_error) /\
  Str.strip "hello world" <> "" /\
  (exists e,
      analyze_text_complete Samples.no_corpus "hello world" = ([], Raise e) /\
      exn_kind e = LookupError) /\
  (exists r,
      analyze_text_complete Samples.offline "hello world"
      = ([Print ("OpenAI unavailable (" ++ exn_str configuration_error
                 ++ "), using mock analyzer")], Ok r) /\
      method_of r = PyStr "mock").
Proof.
  split; [reflexivity |].
  split; [reflexivity |].
  split; [vm_compute; discriminate |].
  split.
  - eexists. split.
    + apply missing_corpus_is_raised; [vm_compute; discriminate | reflexivity].
    + reflexivity.
  - eexists. split; vm_compute; reflexivity.
Qed.

(** ** Replies of the service *)

(** A reply without a brace pair is kept whole, trimmed, as the summary, and
    the orchestration stays on the primary path. *)
Lemma reply_without_braces_degrades (w : World) (text reply : string) :
  LLMAnalyzer.init w = ([], Ok tt) ->
  chat_completion w text = Ok (Some reply) ->
  Re.search_braces (Str.strip reply) = None ->
  outcome (LLMAnalyzer.analyze_text w text)
  = Ok (LLMAnalyzer.raw_text_result (Str.strip reply)) /\
  (Str.strip text <> "" ->
   KeywordExtractor.init w = ([], Ok tt) ->
   exists r,
     outcome (analyze_text_complete w text) = Ok r /\
     dict_get r "summary" PyNone = PyStr (Str.strip reply) /\
     dict_get r "title" (PyStr "") = PyNone /\
     dict_get r "topics" PyNone = PyList [PyStr "general"] /\
     dict_get r "sentiment" PyNone = PyStr "neutral" /\
     method_of r = PyStr "openai").
Proof.
  intros Hc Hreply Hs.
  assert (Ha : LLMAnalyzer.analyze_text w text
               = ([Request text], Ok (LLMAnalyzer.raw_text_result (Str.strip reply)))).
  { unfold LLMAnalyzer.analyze_text. rewrite Hreply. simpl. rewrite Hs. reflexivity. }
  split; [rewrite Ha; reflexivity |].
  intros Hne Hk.
  rewrite (orchestration_outcome w text Hne Hk).
  unfold run_analyzers. rewrite Hc, Ha. simpl.
  rewrite (score_by_flags _ _ _ (raw_text_scorable (Str.strip reply))).
  eexists. split; [reflexivity |]. repeat split; reflexivity.
Qed.

(** A reply with a brace pair that [json.loads] rejects makes the primary
    analyzer raise, and the orchestration falls back to the mock analyzer. *)
Lemma reply_with_rejected_braces_raises (w : World) (text reply j : string) (e : exn) :
  LLMAnalyzer.init w = ([], Ok tt) ->
  chat_completion w text = Ok (Some reply) ->
  Re.search_braces (Str.strip reply) = Some j ->
  json_loads w j = Raise e ->
  outcome (LLMAnalyzer.analyze_text w text)
  = Raise (MkExn Exception ("OpenAI API error: " ++ exn_str e)) /\
  outcome (run_analyzers w text) = Ok (MockAnalyzer.analyze_text w text, "mock").
Proof.
  intros Hc Hreply Hs Hj.
  assert (Ha : LLMAnalyzer.analyze_text w text
               = ([Request text],
                  Raise (MkExn Exception ("OpenAI API error: " ++ exn_str e)))).
  { unfold LLMAnalyzer.analyze_text. rewrite Hreply. simpl. rewrite Hs. simpl.
    rewrite Hj. reflexivity. }
  split; [rewrite Ha; reflexivity |].
  unfold run_analyzers. rewrite Hc, Ha. reflexivity.
Qed.

(** C7, the code at a reply that holds braces but no JSON.  The pattern finds
    the brace pair, [json.loads] rejects it, the primary analyzer raises
    instead of keeping the reply as the summary, and the orchestration
    records the mock method. *)
Theorem reply_with_braces_but_no_json_falls_back :
  Re.search_braces (Str.strip Samples.braces_reply)
  = Some "{no structured data available}" /\
  outcome (LLMAnalyzer.analyze_text Samples.world_braces_reply "hello world")
  = Raise (MkExn Exception "OpenAI API error: JSONDecodeError raised") /\
  method_of (returned (analyze_text_complete Samples.world_braces_reply "hello world"))
  = PyStr "mock" /\
  dict_get (returned (analyze_text_complete Samples.world_braces_reply "hello world"))
    "summary" PyNone
  <> PyStr (Str.strip Samples.braces_reply).
Proof.
  split; [vm_compute; reflexivity |].
  split; [vm_compute; reflexivity |].
  split; [vm_compute; reflexivity |].
  vm_compute. intros H. discriminate H.
Qed.

(** ** The sentiment of the mock analyzer *)

Lemma prefix_spec (p s : string) :
  String.prefix p s = true <-> exists rest : string, s = (p ++ rest)%string.
Proof.
  revert s. induction p as [| c p IH]; intros s.
  - split; [intros _; exists s; reflexivity | intros _; destruct s; reflexivity].
  - destruct s as [| c' s]; simpl.
    + split; [discriminate | intros [rest H]; discriminate H].
    + destruct (Ascii.ascii_dec c c') as [-> | Hneq].
      * rewrite IH. split; intros [rest H]; exists rest.
        -- rewrite H. reflexivity.
        -- inversion H. reflexivity.
      * split; [discriminate | intros [rest H]; simpl in H; congruence].
Qed.

(** [sub in s] holds exactly when [sub] occurs somewhere in [s]. *)
Lemma contains_spec (sub s : string) :
  Str.contains sub s = true <-> substring_of sub s.
Proof.
  unfold substring_of. induction s as [| c s IH].
  - cbn [Str.contains]. rewrite orb_false_r, prefix_spec. split.
    + intros [rest H]. exists "", rest. exact H.
    + intros [before [after H]].
      destruct before as [| c' before]; [| discriminate H].
      exists after. exact H.
  - cbn [Str.contains]. rewrite orb_true_iff, prefix_spec, IH. split.
    + intros [[rest H] | [before [after H]]].
      * exists "", rest. exact H.
      * exists (String c before), after. rewrite H. reflexivity.
    + intros [before [after H]]. destruct before as [| c' before].
      * left. exists after. exact H.
      * right. inversion H. exists before, after. reflexivity.
Qed.

(** C8 (amended).  For every text the sentiment of the fallback analyzer is
    obtained by counting, for the fixed positive list and the fixed negative
    list, how many words of the list occur at least once in the lower-cased
    text (substring match, each word counted once however often it occurs):
    positive if the positive count exceeds the negative one, negative if the
    negative count exceeds the positive one, neutral otherwise.  The match is
    insensitive to the case of the text, and the text "excellent breakthrough
    in medicine" has one positive hit, no negative hit and the sentiment
    positive. *)
Theorem mock_sentiment_counts_listed_words :
  (forall (w : World) (text : string),
      let positive :=
        List.length (filter (fun word => Str.contains word (Str.lower text))
                       (MockAnalyzer.sentiment_keywords "positive")) in
      let negative :=
        List.length (filter (fun word => Str.contains word (Str.lower text))
                       (MockAnalyzer.sentiment_keywords "negative")) in
      dict_get (MockAnalyzer.analyze_text w text) "sentiment" PyNone
      = PyStr (if Nat.ltb negative positive then "positive"
               else if Nat.ltb positive negative then "negative"
               else "neutral")) /\
  (forall word text, Str.contains word text = true <-> substring_of word text) /\
  (forall text1 text2,
      Str.lower text1 = Str.lower text2 ->
      MockAnalyzer.make_sentiment text1 = MockAnalyzer.make_sentiment text2) /\
  (MockAnalyzer.count_hits (MockAnalyzer.sentiment_keywords "positive")
     (Str.lower "excellent breakthrough in medicine") = 1 /\
   MockAnalyzer.count_hits (MockAnalyzer.sentiment_keywords "negative")
     (Str.lower "excellent breakthrough in medicine") = 0 /\
   MockAnalyzer.make_sentiment "excellent breakthrough in medicine" = "positive").
Proof.
  split; [| split; [| split]].
  - intros w text. reflexivity.
  - exact contains_spec.
  - intros text1 text2 H. unfold MockAnalyzer.make_sentiment. rewrite H. reflexivity.
  - repeat split; vm_compute; reflexivity.
Qed.

Lemma mock_sentiment_counts_listed_words_witness :
  Str.lower "A GREAT day" = Str.lower "a great DAY" /\
  MockAnalyzer.make_sentiment "A GREAT day" = MockAnalyzer.make_sentiment "a great DAY".
Proof.
  split; [reflexivity |].
  apply (proj1 (proj2 (proj2 mock_sentiment_counts_listed_words))).
  reflexivity.
Defined.


(** C8 as worded fails on a text in which a listed word occurs twice: two
    occurrences of a positive word against one occurrence of a negative word
    count as one word against one word, and the sentiment is neutral. *)
Lemma sentiment_counts_each_word_once :
  total_occurrences (MockAnalyzer.sentiment_keywords "positive")
    (Str.lower "great great awful") = 2 /\
  total_occurrences (MockAnalyzer.sentiment_keywords "negative")
    (Str.lower "great great awful") = 1 /\
  sentiment_by_occurrences "great great awful" = "positive" /\
  dict_get (MockAnalyzer.analyze_text Samples.offline "great great awful")
    "sentiment" PyNone = PyStr "neutral".
Proof.
  repeat split; vm_compute; reflexivity.
Qed.

(** ** Strings: append, slices, words *)

Lemma append_nil_r (s : string) : (s ++ "")%string = s.
Proof. induction s as [| c s IH]; simpl; [| rewrite IH]; reflexivity. Qed.

Lemma append_assoc (s t u : string) :
  ((s ++ t) ++ u)%string = (s ++ t ++ u)%string.
Proof. induction s as [| c s IH]; simpl; [| rewrite IH]; reflexivity. Qed.

Lemma length_append (s t : string) :
  String.length (s ++ t) = String.length s + String.length t.
Proof. induction s as [| c s IH]; simpl; [| rewrite IH]; reflexivity. Qed.

Lemma length_take (n : nat) (s : string) :
  String.length (Str.take n s) = Nat.min n (String.length s).
Proof.
  revert s. induction n as [| n IH]; intros s; [reflexivity |].
  destruct s as [| c s]; simpl; [| rewrite IH]; reflexivity.
Qed.

(** A slice is a prefix of the string it is taken from. *)
Lemma take_prefix (n : nat) (s : string) :
  exists rest : string, s = (Str.take n s ++ rest)%string.
Proof.
  revert s. induction n as [| n IH]; intros s.
  - exists s. reflexivity.
  - destruct s as [| c s].
    + exists "". reflexivity.
    + destruct (IH s) as [rest H]. exists rest. simpl. rewrite <- H. reflexivity.
Qed.

Lemma length_title_from (b : bool) (s : string) :
  String.length (Str.title_from b s) = String.length s.
Proof.
  revert b. induction s as [| c s IH]; intros b; simpl; [| rewrite IH]; reflexivity.
Qed.

Lemma no_space_append (s t : string) :
  no_space (s ++ t) <-> no_space s /\ no_space t.
Proof.
  induction s as [| c s IH]; simpl; [tauto | rewrite IH; tauto].
Qed.

(** Reading a word [u] moves it from the text to the run being read. *)
Lemma split_from_word (u word s : string) :
  no_space u ->
  Str.split_from word (u ++ s) = Str.split_from (word ++ u) s.
Proof.
  revert word. induction u as [| c u IH]; intros word Hu; simpl.
  - rewrite append_nil_r. reflexivity.
  - destruct Hu as [Hc Hu]. rewrite Hc, (IH _ Hu), append_assoc. reflexivity.
Qed.

Lemma split_from_words (s word x : string) :
  no_space word ->
  In x (Str.split_from word s) -> x <> "" /\ no_space x.
Proof.
  revert word. induction s as [| c s IH]; intros word Hw; simpl.
  - destruct word as [| c' word']; simpl; [tauto |].
    intros [<- | []]. split; [discriminate | exact Hw].
  - destruct (Str.isspace c) eqn:Hc.
    + destruct word as [| c' word']; simpl.
      * apply (IH "" I).
      * intros [<- | H]; [split; [discriminate | exact Hw] | apply (IH "" I H)].
    + apply IH. apply no_space_append. simpl. auto.
Qed.

(** [split] is determined by four equations: nothing in the empty text, a
    leading whitespace character is skipped, a word in front of a whitespace
    character is the first word, a word alone is the only word. *)
Lemma split_equations :
  Str.split "" = [] /\
  (forall c s, Str.isspace c = true -> Str.split (String c s) = Str.split s) /\
  (forall u c s,
      u <> "" -> no_space u -> Str.isspace c = true ->
      Str.split (u ++ String c s) = u :: Str.split s) /\
  (forall u, u <> "" -> no_space u -> Str.split u = [u]).
Proof.
  unfold Str.split. split; [reflexivity |]. split; [| split].
  - intros c s Hc. simpl. rewrite Hc. reflexivity.
  - intros u c s Hne Hu Hc. rewrite (split_from_word u "" _ Hu). simpl.
    rewrite Hc. destruct u; [contradiction | reflexivity].
  - intros u Hne Hu. rewrite <- (append_nil_r u) at 1.
    rewrite (split_from_word u "" "" Hu). simpl.
    destruct u; [contradiction | reflexivity].
Qed.

Lemma in_firstn {A} (n : nat) (l : list A) (x : A) :
  In x (firstn n l) -> In x l.
Proof.
  intros H. rewrite <- (firstn_skipn n l). apply in_or_app. left. exact H.
Qed.

(** ** The title of the mock analyzer *)

(** [split] agrees with the wording of the words. *)
Lemma all_space_append (s t : string) :
  all_space (s ++ t) <-> all_space s /\ all_space t.
Proof.
  induction s as [| c s IH]; simpl; [tauto | rewrite IH; tauto].
Qed.

Lemma split_gap (gap s : string) :
  all_space gap -> Str.split (gap ++ s) = Str.split s.
Proof.
  induction gap as [| c gap IH]; simpl; [reflexivity |].
  intros [Hc Hg]. rewrite (proj1 (proj2 split_equations) c _ Hc). exact (IH Hg).
Qed.

(** The words of a text are those that [split] returns, and no others. *)
Lemma words_of_unique (s : string) (ws : list string) :
  words_of s ws -> ws = Str.split s.
Proof.
  induction 1 as [gap Hg | gap word Hg Hne Hw | gap word c rest ws Hg Hne Hw Hc _ IH].
  - rewrite <- (append_nil_r gap), (split_gap gap "" Hg). reflexivity.
  - rewrite (split_gap gap word Hg).
    symmetry. exact (proj2 (proj2 (proj2 split_equations)) word Hne Hw).
  - rewrite (split_gap gap _ Hg).
    rewrite (proj1 (proj2 (proj2 split_equations)) word c rest Hne Hw Hc).
    rewrite <- IH. reflexivity.
Qed.

Lemma words_of_gap (gap s : string) (ws : list string) :
  all_space gap -> words_of s ws -> words_of (gap ++ s) ws.
Proof.
  intros Hg H.
  destruct H as [gap' Hg' | gap' word Hg' Hne Hw | gap' word c rest ws Hg' Hne Hw Hc H].
  - apply words_none. apply all_space_append. auto.
  - rewrite <- append_assoc. apply words_last; auto. apply all_space_append. auto.
  - rewrite <- append_assoc. apply words_more; auto. apply all_space_append. auto.
Qed.

(** A text that begins with a character that is not whitespace begins with
    a word, which ends the text or is followed by whitespace. *)
Lemma first_word (c : ascii) (s : string) :
  Str.isspace c = false ->
  exists word rest,
    String c s = (word ++ rest)%string /\ word <> "" /\ no_space word /\
    String.length rest <= String.length s /\
    (rest = "" \/ exists c' rest', rest = String c' rest' /\ Str.isspace c' = true).
Proof.
  revert c. induction s as [| c0 s IH]; intros c Hc.
  - exists (String c ""), "".
    split; [reflexivity |]. split; [discriminate |].
    split; [simpl; auto |]. split; [simpl; lia | left; reflexivity].
  - destruct (Str.isspace c0) eqn:Hc0.
    + exists (String c ""), (String c0 s).
      split; [reflexivity |]. split; [discriminate |].
      split; [simpl; auto |]. split; [simpl; lia |].
      right. exists c0, s. auto.
    + destruct (IH c0 Hc0) as [word [rest [Hs [_ [Hw [Hl Hr]]]]]].
      exists (String c word), rest.
      split; [simpl; rewrite <- Hs; reflexivity |]. split; [discriminate |].
      split; [simpl; auto |]. split; [simpl; lia | exact Hr].
Qed.

Lemma words_of_split_bounded (n : nat) :
  forall s, String.length s <= n -> words_of s (Str.split s).
Proof.
  induction n as [| n IH]; intros s Hn.
  - destruct s; [| simpl in Hn; lia]. apply (words_none ""). exact I.
  - destruct s as [| c s]; [apply (words_none ""); exact I |].
    simpl in Hn. destruct (Str.isspace c) eqn:Hc.
    + rewrite (proj1 (proj2 split_equations) c s Hc).
      apply (words_of_gap (String c "") s); [simpl; auto |].
      apply IH. lia.
    + destruct (first_word c s Hc) as [word [rest [Hs [Hne [Hw [Hl Hr]]]]]].
      rewrite Hs. destruct Hr as [-> | [c' [rest' [-> Hc']]]].
      * rewrite append_nil_r.
        rewrite (proj2 (proj2 (proj2 split_equations)) word Hne Hw).
        apply (words_last "" word); auto. exact I.
      * rewrite (proj1 (proj2 (proj2 split_equations)) word c' rest' Hne Hw Hc').
        apply (words_more "" word c' rest'); auto; [exact I |].
        apply IH. simpl in Hl. lia.
Qed.

Lemma words_of_split (s : string) : words_of s (Str.split s).
Proof. apply (words_of_split_bounded (String.length s)). lia. Qed.

(** [title] agrees with the wording of title-casing. *)
Lemma letter_is_alpha (c : ascii) : Str.isalpha_char c = letter c.
Proof.
  destruct c as [[] [] [] [] [] [] [] []]; vm_compute; reflexivity.
Qed.

Lemma small_of_is_lower (c : ascii) : Str.lower_char c = small_of c.
Proof.
  destruct c as [[] [] [] [] [] [] [] []]; vm_compute; reflexivity.
Qed.

Lemma capital_of_is_upper (c : ascii) : Str.upper_char c = capital_of c.
Proof.
  destruct c as [[] [] [] [] [] [] [] []]; vm_compute; reflexivity.
Qed.

Lemma title_from_get (s : string) :
  forall (b : bool) (i : nat) (c : ascii),
    String.get i s = Some c ->
    String.get i (Str.title_from b s)
    = Some (if match i with
               | O => b
               | S _ => follows_letter s i
               end
            then small_of c else capital_of c).
Proof.
  induction s as [| c0 s IH]; intros b i c Hget; [discriminate Hget |].
  destruct i as [| i]; simpl in Hget |- *.
  - inversion Hget. subst c0.
    rewrite small_of_is_lower, capital_of_is_upper. reflexivity.
  - rewrite (IH (Str.isalpha_char c0) i c Hget).
    destruct i as [| i]; simpl.
    + rewrite letter_is_alpha. reflexivity.
    + reflexivity.
Qed.

Lemma title_is_title_cased (s : string) : title_cased s (Str.title s).
Proof.
  split; [apply length_title_from |].
  intros i c Hget. unfold Str.title. rewrite (title_from_get s false i c Hget).
  destruct i; reflexivity.
Qed.

Lemma get_beyond (s : string) (i : nat) :
  String.length s <= i -> String.get i s = None.
Proof.
  revert i. induction s as [| c s IH]; intros i Hi; [reflexivity |].
  destruct i as [| i]; simpl in Hi |- *; [lia | apply IH; lia].
Qed.

Lemma get_within (s : string) (i : nat) :
  i < String.length s -> exists c, String.get i s = Some c.
Proof.
  revert i. induction s as [| c s IH]; intros i Hi; simpl in Hi; [lia |].
  destruct i as [| i]; simpl; [eauto | apply IH; lia].
Qed.

(** A text has one title-cased form only. *)
Lemma title_cased_unique (s t t' : string) :
  title_cased s t -> title_cased s t' -> t = t'.
Proof.
  intros [Hl Hg] [Hl' Hg']. apply String.get_correct. intros i.
  destruct (Nat.lt_ge_cases i (String.length s)) as [Hi | Hi].
  - destruct (get_within s i Hi) as [c Hc].
    rewrite (Hg i c Hc), (Hg' i c Hc). reflexivity.
  - rewrite (get_beyond t i), (get_beyond t' i); [reflexivity | lia | lia].
Qed.

(** The title of the mock analyzer in the terms of the claim. *)
Lemma take_is_prefix_of_length (n : nat) (s : string) :
  n <= String.length s ->
  exists dropped : string,
    s = (Str.take n s ++ dropped)%string /\ String.length (Str.take n s) = n.
Proof.
  intros Hn. destruct (take_prefix n s) as [dropped H].
  exists dropped. split; [exact H |]. rewrite length_take. lia.
Qed.

(** C9.  For every text the title of the fallback analyzer is made of the
    first 5 whitespace-separated words of the text, joined by single spaces
    and title-cased: every letter that does not come right after a letter is
    capital, every other letter is small, and nothing else is changed.  When
    that string has more than 50 characters the title is its first 47
    characters followed by the three-character ellipsis marker, 50
    characters in all, and otherwise it is that string.  The words and the
    title-cased string are the only ones that fit their description. *)
Theorem mock_title_first_five_words (w : World) (text : string) :
  exists (all_words : list string) (full : string),
    words_of text all_words /\
    (forall ws, words_of text ws -> ws = all_words) /\
    title_cased (String.concat " " (firstn 5 all_words)) full /\
    (forall t, title_cased (String.concat " " (firstn 5 all_words)) t -> t = full) /\
    dict_get (MockAnalyzer.analyze_text w text) "title" PyNone
    = PyStr (MockAnalyzer.make_title text) /\
    (String.length full <= 50 -> MockAnalyzer.make_title text = full) /\
    (50 < String.length full ->
     exists kept dropped : string,
       full = (kept ++ dropped)%string /\
       String.length kept = 47 /\
       MockAnalyzer.make_title text = (kept ++ "...")%string) /\
    String.length (MockAnalyzer.make_title text) <= 50.
Proof.
  exists (Str.split text), (Str.title (Str.join " " (firstn 5 (Str.split text)))).
  set (full := Str.title (Str.join " " (firstn 5 (Str.split text)))).
  assert (Hfull : title_cased (String.concat " " (firstn 5 (Str.split text))) full)
    by apply title_is_title_cased.
  assert (Hcases :
            (String.length full <= 50 /\ MockAnalyzer.make_title text = full) \/
            (50 < String.length full /\
             MockAnalyzer.make_title text = (Str.take 47 full ++ "...")%string)).
  { unfold MockAnalyzer.make_title. fold full.
    destruct (Nat.ltb 50 (String.length full)) eqn:Hlt.
    - right. apply Nat.ltb_lt in Hlt. auto.
    - left. apply Nat.ltb_ge in Hlt. auto. }
  split; [apply words_of_split |].
  split; [intros ws Hws; apply words_of_unique; exact Hws |].
  split; [exact Hfull |].
  split; [intros t Ht; exact (title_cased_unique _ _ _ Ht Hfull) |].
  split; [reflexivity |].
  split.
  { intros Hle. destruct Hcases as [[_ H] | [H _]]; [exact H | lia]. }
  split.
  { intros Hgt. destruct Hcases as [[H _] | [_ H]]; [lia |].
    destruct (take_is_prefix_of_length 47 full) as [dropped [Hp Hl]]; [lia |].
    exists (Str.take 47 full), dropped. auto. }
  destruct Hcases as [[Hle ->] | [Hgt ->]]; [exact Hle |].
  rewrite length_append, length_take. change (String.length "...") with 3. lia.
Qed.

(** The theorem at two texts: the words and the title-cased string being
    determined by their description, the title is computed from them. *)
Lemma mock_title_first_five_words_witness :
  MockAnalyzer.make_title "the quick brown fox jumps over the lazy dog"
  = "The Quick Brown Fox Jumps" /\
  MockAnalyzer.make_title "internationalization standardization characterization of words"
  = "Internationalization Standardization Characteri...".
Proof.
  split.
  - destruct (mock_title_first_five_words Samples.offline
                "the quick brown fox jumps over the lazy dog")
      as [all_words [full [_ [Hwords [_ [Hfull [_ [Hshort _]]]]]]]].
    assert (Hw : all_words = ["the"; "quick"; "brown"; "fox"; "jumps"; "over";
                              "the"; "lazy"; "dog"]).
    { symmetry. apply Hwords.
      apply (words_more "" "the" " "); [exact I | discriminate | repeat split | reflexivity |].
      apply (words_more "" "quick" " "); [exact I | discriminate | repeat split | reflexivity |].
      apply (words_more "" "brown" " "); [exact I | discriminate | repeat split | reflexivity |].
      apply (words_more "" "fox" " "); [exact I | discriminate | repeat split | reflexivity |].
      apply (words_more "" "jumps" " "); [exact I | discriminate | repeat split | reflexivity |].
      apply (words_more "" "over" " "); [exact I | discriminate | repeat split | reflexivity |].
      apply (words_more "" "the" " "); [exact I | discriminate | repeat split | reflexivity |].
      apply (words_more "" "lazy" " "); [exact I | discriminate | repeat split | reflexivity |].
      apply (words_last "" "dog"); [exact I | discriminate | repeat split]. }
    subst all_words.
    assert (Hf : "The Quick Brown Fox Jumps" = full).
    { apply Hfull. split; [reflexivity |].
      intros i c Hget.
      do 25 (destruct i as [| i]; [inversion Hget; reflexivity |]).
      discriminate Hget. }
    subst full. apply Hshort. simpl. lia.
  - destruct (mock_title_first_five_words Samples.offline
                "internationalization standardization characterization of words")
      as [all_words [full [_ [Hwords [_ [Hfull [_ [_ [Hlong _]]]]]]]]].
    assert (Hw : all_words = ["internationalization"; "standardization";
                              "characterization"; "of"; "words"]).
    { symmetry. apply Hwords.
      apply (words_more "" "internationalization" " "); [exact I | discriminate | repeat split | reflexivity |].
      apply (words_more "" "standardization" " "); [exact I | discriminate | repeat split | reflexivity |].
      apply (words_more "" "characterization" " "); [exact I | discriminate | repeat split | reflexivity |].
      apply (words_more "" "of" " "); [exact I | discriminate | repeat split | reflexivity |].
      apply (words_last "" "words"); [exact I | discriminate | repeat split]. }
    subst all_words.
    assert (Hf : "Internationalization Standardization Characterization Of Words"
                 = full).
    { apply Hfull. split; [reflexivity |].
      intros i c Hget.
      do 62 (destruct i as [| i]; [inversion Hget; reflexivity |]).
      discriminate Hget. }
    subst full.
    destruct Hlong as [kept [dropped [Hsplit [Hlen ->]]]]; [simpl; lia |].
    assert (Hk : kept = "Internationalization Standardization Characteri").
    { clear - Hsplit Hlen.
      do 47 (destruct kept as [| ? kept]; [discriminate Hlen |];
             inversion Hsplit as [[Hc Hrest]]; clear Hsplit; rename Hrest into Hsplit;
             subst; simpl in Hlen).
      destruct kept; [reflexivity | discriminate Hlen]. }
    rewrite Hk. reflexivity.
Defined.

(** ** The keyword extractor *)

Section CounterFacts.

Import KeywordExtractor.

Lemma count_of_add (x y : string) (c : counts) :
  count_of (counter_add x c) y
  = if String.eqb x y then S (count_of c y) else count_of c y.
Proof.
  induction c as [| [k n] c IH]; simpl.
  - destruct (String.eqb x y); reflexivity.
  - destruct (String.eqb k x) eqn:Hkx; simpl.
    + apply String.eqb_eq in Hkx. subst k.
      destruct (String.eqb x y); reflexivity.
    + destruct (String.eqb k y) eqn:Hky; [| exact IH].
      apply String.eqb_eq in Hky. subst k. rewrite String.eqb_sym, Hkx.
      reflexivity.
Qed.

Lemma keys_add (x k : string) (c : counts) :
  In k (map fst (counter_add x c)) <-> k = x \/ In k (map fst c).
Proof.
  induction c as [| [k' n] c IH]; simpl.
  - intuition.
  - destruct (String.eqb k' x) eqn:Hkx; simpl.
    + apply String.eqb_eq in Hkx. subst k'. intuition.
    + rewrite IH. intuition.
Qed.

Lemma nodup_add (x : string) (c : counts) :
  NoDup (map fst c) -> NoDup (map fst (counter_add x c)).
Proof.
  induction c as [| [k n] c IH]; simpl; intros H.
  - constructor; [intros [] | constructor].
  - inversion H as [| ? ? Hnotin Hnodup]; subst.
    destruct (String.eqb k x) eqn:Hkx; simpl.
    + constructor; assumption.
    + constructor; [| exact (IH Hnodup)].
      rewrite keys_add. intros [-> | Hin]; [| contradiction].
      rewrite String.eqb_refl in Hkx. discriminate Hkx.
Qed.

(** Counting a list on top of a counter. *)
Lemma fold_counter (l : list string) (c : counts) :
  NoDup (map fst c) ->
  let c' := fold_left (fun c x => counter_add x c) l c in
  NoDup (map fst c') /\
  (forall y, count_of c' y = count_of c y + frequency y l) /\
  (forall k, In k (map fst c') <-> In k (map fst c) \/ In k l).
Proof.
  revert c. induction l as [| x l IH]; intros c Hc; simpl.
  - split; [exact Hc |]. split; [intros y; lia | intros k; tauto].
  - destruct (IH (counter_add x c) (nodup_add x c Hc)) as [Hn [Hcount Hkeys]].
    split; [exact Hn |]. split.
    + intros y. rewrite Hcount, count_of_add. unfold frequency. simpl.
      destruct (string_dec x y) as [-> | Hneq].
      * rewrite String.eqb_refl. lia.
      * apply String.eqb_neq in Hneq. rewrite Hneq. lia.
    + intros k. rewrite Hkeys, keys_add. intuition.
Qed.

(** With distinct keys, the count stored with a key is the one [count_of]
    reads. *)
Lemma count_of_item (c : counts) (k : string) (n : nat) :
  NoDup (map fst c) -> In (k, n) c -> count_of c k = n.
Proof.
  induction c as [| [k' n'] c IH]; simpl; intros Hn Hin; [contradiction |].
  inversion Hn as [| ? ? Hnotin Hnodup]; subst.
  destruct Hin as [Heq | Hin].
  - inversion Heq. subst. rewrite String.eqb_refl. reflexivity.
  - destruct (String.eqb k' k) eqn:Hk; [| exact (IH Hnodup Hin)].
    apply String.eqb_eq in Hk. subst k'.
    exfalso. apply Hnotin. apply (in_map fst) in Hin. exact Hin.
Qed.

(** [Counter(l)] has one item for each distinct token of [l], with its
    frequency. *)
Lemma Counter_spec (l : list string) :
  NoDup (map fst (Counter l)) /\
  (forall k n, In (k, n) (Counter l) -> n = frequency k l /\ In k l).
Proof.
  destruct (fold_counter l [] (NoDup_nil _)) as [Hn [Hcount Hkeys]].
  fold (Counter l) in Hn, Hcount, Hkeys.
  split; [exact Hn |].
  intros k n Hin. split.
  - rewrite <- (count_of_item _ _ _ Hn Hin). rewrite Hcount. reflexivity.
  - apply (in_map fst) in Hin. apply Hkeys in Hin.
    destruct Hin as [[] | Hin]. exact Hin.
Qed.

Lemma insert_desc_perm (x : string * nat) (l : counts) :
  Permutation (insert_desc x l) (x :: l).
Proof.
  induction l as [| y l IH]; simpl; [apply Permutation_refl |].
  destruct (Nat.ltb (snd x) (snd y)).
  - apply Permutation_trans with (y :: x :: l).
    + apply perm_skip. exact IH.
    + apply perm_swap.
  - apply Permutation_refl.
Qed.

Lemma sorted_desc_perm (c : counts) : Permutation (sorted_desc c) c.
Proof.
  induction c as [| x c IH]; simpl; [apply perm_nil |].
  apply Permutation_trans with (x :: sorted_desc c).
  - apply insert_desc_perm.
  - apply perm_skip. exact IH.
Qed.

Lemma insert_desc_sorted (x : string * nat) (l : counts) :
  StronglySorted count_ge l -> StronglySorted count_ge (insert_desc x l).
Proof.
  induction l as [| y l IH]; simpl; intros Hs.
  - constructor; constructor.
  - apply StronglySorted_inv in Hs. destruct Hs as [Hs Hall].
    destruct (Nat.ltb (snd x) (snd y)) eqn:Hlt.
    + apply Nat.ltb_lt in Hlt. constructor; [exact (IH Hs) |].
      apply Forall_forall. intros z Hz.
      apply (Permutation_in _ (insert_desc_perm x l)) in Hz.
      destruct Hz as [<- | Hz].
      * unfold count_ge. lia.
      * rewrite Forall_forall in Hall. exact (Hall z Hz).
    + apply Nat.ltb_ge in Hlt. constructor.
      * constructor; assumption.
      * constructor; [exact Hlt |].
        apply Forall_forall. intros z Hz. rewrite Forall_forall in Hall.
        specialize (Hall z Hz). unfold count_ge in *. lia.
Qed.

Lemma sorted_desc_sorted (c : counts) : StronglySorted count_ge (sorted_desc c).
Proof.
  induction c as [| x c IH]; simpl; [constructor |].
  apply insert_desc_sorted. exact IH.
Qed.

End CounterFacts.

Lemma firstn_sorted {A} (R : A -> A -> Prop) (n : nat) (l : list A) :
  StronglySorted R l -> StronglySorted R (firstn n l).
Proof.
  revert l. induction n as [| n IH]; intros l Hs; [constructor |].
  destruct l as [| a l]; [constructor |].
  apply StronglySorted_inv in Hs. destruct Hs as [Hs Hall].
  simpl. constructor; [exact (IH l Hs) |].
  apply Forall_forall. intros x Hx. rewrite Forall_forall in Hall.
  apply Hall. exact (in_firstn n l x Hx).
Qed.

Lemma firstn_nodup {A} (n : nat) (l : list A) : NoDup l -> NoDup (firstn n l).
Proof.
  intros H. rewrite <- (firstn_skipn n l) in H.
  exact (NoDup_app_remove_r _ _ H).
Qed.

(** Items sorted by count, each count being a frequency, have their keys
    sorted by frequency. *)
Lemma keys_by_frequency (l : list string) (items : KeywordExtractor.counts) :
  (forall k n, In (k, n) items -> n = frequency k l) ->
  StronglySorted KeywordExtractor.count_ge items ->
  by_decreasing_frequency l (map fst items).
Proof.
  unfold by_decreasing_frequency.
  induction items as [| [k n] items IH]; intros Hfreq Hs; simpl; [constructor |].
  apply StronglySorted_inv in Hs. destruct Hs as [Hs Hall].
  constructor.
  - apply IH; [| exact Hs]. intros k' n' Hin. apply Hfreq. right. exact Hin.
  - apply Forall_forall. intros k' Hk'. apply in_map_iff in Hk'.
    destruct Hk' as [[k'' n'] [Heq Hin]]. simpl in Heq. subst k''.
    rewrite Forall_forall in Hall. specialize (Hall _ Hin).
    unfold KeywordExtractor.count_ge in Hall. simpl in Hall.
    rewrite <- (Hfreq k n (or_introl eq_refl)).
    rewrite <- (Hfreq k' n' (or_intror Hin)). exact Hall.
Qed.

(** The top of a list of tokens: at most [n] of its distinct tokens, by
    non-increasing frequency. *)
Lemma top_spec (n : Z) (l : list string) :
  List.length (KeywordExtractor.top n l) <= Z.to_nat n /\
  NoDup (KeywordExtractor.top n l) /\
  (forall k, In k (KeywordExtractor.top n l) -> In k l) /\
  by_decreasing_frequency l (KeywordExtractor.top n l).
Proof.
  unfold KeywordExtractor.top, KeywordExtractor.most_common.
  destruct (Counter_spec l) as [Hnodup Hitems].
  pose proof (sorted_desc_perm (KeywordExtractor.Counter l)) as Hperm.
  pose proof (sorted_desc_sorted (KeywordExtractor.Counter l)) as Hsorted.
  set (sorted := KeywordExtractor.sorted_desc (KeywordExtractor.Counter l)) in *.
  assert (Hin : forall k m, In (k, m) (firstn (Z.to_nat n) sorted) ->
                            m = frequency k l /\ In k l).
  { intros k m H. apply Hitems. apply (Permutation_in _ Hperm).
    exact (in_firstn _ _ _ H). }
  split; [rewrite length_map; apply firstn_le_length |].
  split.
  { rewrite <- firstn_map. apply firstn_nodup.
    apply (Permutation_NoDup (Permutation_sym (Permutation_map fst Hperm))).
    exact Hnodup. }
  split.
  { intros k Hk. apply in_map_iff in Hk. destruct Hk as [[k' m] [Heq H]].
    simpl in Heq. subst k'. exact (proj2 (Hin k m H)). }
  apply keys_by_frequency.
  - intros k m H. exact (proj1 (Hin k m H)).
  - apply firstn_sorted. exact Hsorted.
Qed.

Lemma emit_length (run x : string) : In x (Re.emit run) -> 3 <= String.length x.
Proof.
  unfold Re.emit. destruct (Nat.leb 3 (String.length run)) eqn:H; simpl.
  - intros [<- | []]. apply Nat.leb_le. exact H.
  - intros [].
Qed.

(** Every word the pattern finds has at least three characters. *)
Lemma findall_length (st : Re.scan) (s x : string) :
  In x (Re.findall_from st s) -> 3 <= String.length x.
Proof.
  revert st. induction s as [| c s IH]; intros st; simpl.
  - destruct st; simpl; try tauto. apply emit_length.
  - destruct (Str.isalpha_char c).
    + destruct st; apply IH.
    + destruct (Str.isword c); [apply IH |].
      destruct st; try apply IH.
      intros H. apply in_app_or in H. destruct H as [H | H].
      * exact (emit_length _ _ H).
      * exact (IH _ H).
Qed.

(** What is counted, on either path, is neither a stopword nor shorter than
    three characters. *)
Lemma candidates_qualify (w : World) (text k : string) :
  In k (KeywordExtractor.candidates w text) ->
  Str.mem k (KeywordExtractor.stop_words w) = false /\ 2 < String.length k.
Proof.
  unfold KeywordExtractor.candidates, KeywordExtractor.nouns.
  destruct (word_tokenize w (Str.lower text)) as [tokens | e]; simpl.
  - destruct (pos_tag w tokens) as [tagged | e]; simpl.
    + intros H. apply in_map_iff in H. destruct H as [[word pos] [Heq H]].
      simpl in Heq. subst word. apply filter_In in H. destruct H as [_ H].
      unfold KeywordExtractor.is_keyword_noun in H.
      apply andb_true_iff in H. destruct H as [H Hstop].
      apply andb_true_iff in H. destruct H as [_ Hlen].
      apply negb_true_iff in Hstop. apply Nat.ltb_lt in Hlen. auto.
    + unfold KeywordExtractor.words. intros H. apply filter_In in H.
      destruct H as [H Hstop]. apply negb_true_iff in Hstop.
      apply findall_length in H. split; [exact Hstop | lia].
  - unfold KeywordExtractor.words. intros H. apply filter_In in H.
    destruct H as [H Hstop]. apply negb_true_iff in Hstop.
    apply findall_length in H. split; [exact Hstop | lia].
Qed.

(** C6 (amended).  For every text and every requested count the keyword
    extractor returns, without raising, at most count strings (none for a
    count below zero); none of them is a stopword, none has a length of 2 or
    less, they are distinct, and they are ordered by non-increasing
    frequency, the frequency of a token being its number of occurrences
    among the tokens kept from the text.  This holds on the part-of-speech
    path, where the result is the top of the nouns, and on the path of the
    regular expression, taken when tokenizing or tagging raises, where it is
    the top of the words. *)
Theorem extract_keywords_properties (w : World) (text : string) (count : Z) :
  exists keywords,
    KeywordExtractor.extract_keywords w text count = Ok keywords /\
    (Z.of_nat (List.length keywords) <= Z.max count 0)%Z /\
    (forall k, In k keywords ->
               Str.mem k (KeywordExtractor.stop_words w) = false /\
               2 < String.length k /\
               In k (KeywordExtractor.candidates w text)) /\
    NoDup keywords /\
    by_decreasing_frequency (KeywordExtractor.candidates w text) keywords /\
    ((exists nouns,
         KeywordExtractor.nouns w text = Ok nouns /\
         KeywordExtractor.candidates w text = nouns /\
         keywords = KeywordExtractor.top count nouns) \/
     (exists e,
         KeywordExtractor.nouns w text = Raise e /\
         KeywordExtractor.candidates w text = KeywordExtractor.words w text /\
         keywords = KeywordExtractor.top count (KeywordExtractor.words w text))).
Proof.
  exists (KeywordExtractor.top count (KeywordExtractor.candidates w text)).
  destruct (top_spec count (KeywordExtractor.candidates w text))
    as [Hlen [Hnodup [Hin Hsorted]]].
  split; [apply extract_keywords_ok |].
  split; [lia |].
  split.
  { intros k Hk. specialize (Hin k Hk).
    destruct (candidates_qualify w text k Hin) as [Hstop Hlong]. auto. }
  split; [exact Hnodup |].
  split; [exact Hsorted |].
  unfold KeywordExtractor.candidates.
  destruct (KeywordExtractor.nouns w text) as [l | e].
  - left. exists l. auto.
  - right. exists e. auto.
Qed.

Lemma extract_keywords_properties_witness :
  KeywordExtractor.extract_keywords Samples.offline "alpha beta alpha" 2
  = Ok ["alpha"; "beta"] /\
  Str.mem "alpha" (KeywordExtractor.stop_words Samples.offline) = false /\
  2 < String.length "alpha" /\
  In "alpha" (KeywordExtractor.candidates Samples.offline "alpha beta alpha").
Proof.
  destruct (extract_keywords_properties Samples.offline "alpha beta alpha" 2)
    as [keywords [Hextract [_ [Hqualify _]]]].
  assert (Hk : keywords = ["alpha"; "beta"]).
  { vm_compute in Hextract. inversion Hextract. reflexivity. }
  subst keywords. split; [reflexivity |].
  apply Hqualify. left. reflexivity.
Defined.


(** C6 as worded fails for the frequency in the input: a tagger that reads
    the context tags one of the three occurrences of "run" as a noun and
    both occurrences of "dog", so that "dog" is returned before "run",
    which is the more frequent token of the input. *)
Lemma keywords_are_not_ranked_by_input_frequency :
  word_tokenize Taggers.world (Str.lower Taggers.text)
  = Ok ["they"; "run"; "and"; "we"; "run"; "but"; "the"; "run"; "tired";
        "the"; "dog"; "and"; "the"; "dog"; "slept"] /\
  KeywordExtractor.nouns Taggers.world Taggers.text = Ok ["run"; "dog"; "dog"] /\
  KeywordExtractor.extract_keywords Taggers.world Taggers.text 3 = Ok ["dog"; "run"] /\
  frequency "dog" ["they"; "run"; "and"; "we"; "run"; "but"; "the"; "run"; "tired";
                   "the"; "dog"; "and"; "the"; "dog"; "slept"] = 2 /\
  frequency "run" ["they"; "run"; "and"; "we"; "run"; "but"; "the"; "run"; "tired";
                   "the"; "dog"; "and"; "the"; "dog"; "slept"] = 3 /\
  occurrences "dog" (Str.lower Taggers.text) = 2 /\
  occurrences "run" (Str.lower Taggers.text) = 3 /\
  ~ by_decreasing_frequency
      ["they"; "run"; "and"; "we"; "run"; "but"; "the"; "run"; "tired";
       "the"; "dog"; "and"; "the"; "dog"; "slept"]
      ["dog"; "run"].
Proof.
  do 7 (split; [vm_compute; reflexivity |]).
  intros H. inversion H as [| x l _ Hall]. subst.
  inversion Hall as [| y l' Hle _]. subst.
  vm_compute in Hle. lia.
Qed.

(** ** The pattern that looks for a JSON object *)

Lemma has_char_append (n : N) (s t : string) :
  Re.has_char n (s ++ t) = (Re.has_char n s || Re.has_char n t)%bool.
Proof.
  induction s as [| c s IH]; simpl; [reflexivity |].
  rewrite IH, orb_assoc. reflexivity.
Qed.

Lemma from_open_brace_some (s t : string) :
  Re.from_open_brace s = Some t ->
  exists before o rest,
    s = (before ++ t)%string /\ t = String o rest /\
    Re.is_char 123 o = true /\ Re.has_char 123 before = false.
Proof.
  induction s as [| c s IH]; simpl; [discriminate |].
  destruct (Re.is_char 123 c) eqn:Hc.
  - intros H. inversion H. exists "", c, s. auto.
  - intros H. destruct (IH H) as [before [o [rest [Hs [Ht [Ho Hb]]]]]].
    exists (String c before), o, rest. simpl. rewrite Hc, Hb, <- Hs. auto.
Qed.

Lemma upto_last_close_brace_none (s : string) :
  Re.upto_last_close_brace s = None <-> Re.has_char 125 s = false.
Proof.
  induction s as [| c s IH]; simpl; [tauto |].
  destruct (Re.upto_last_close_brace s) as [r |].
  - split; [discriminate |]. intros H. apply orb_false_iff in H.
    destruct H as [_ H]. apply IH in H. discriminate H.
  - destruct (Re.is_char 125 c); simpl; split; try discriminate; tauto.
Qed.

Lemma upto_last_close_brace_some (s r : string) :
  Re.upto_last_close_brace s = Some r ->
  exists body c after,
    r = (body ++ String c "")%string /\ Re.is_char 125 c = true /\
    s = (r ++ after)%string /\ Re.has_char 125 after = false.
Proof.
  revert r. induction s as [| a s IH]; intros r; simpl; [discriminate |].
  destruct (Re.upto_last_close_brace s) as [r' |] eqn:Hr.
  - intros H. inversion H. subst r.
    destruct (IH r' eq_refl) as [body [c [after [Hr' [Hc [Hs Ha]]]]]].
    exists (String a body), c, after. simpl. rewrite <- Hr', <- Hs. auto.
  - destruct (Re.is_char 125 a) eqn:Hc; [| discriminate].
    intros H. inversion H. subst r.
    exists "", a, s. simpl. split; [reflexivity |]. split; [exact Hc |].
    split; [reflexivity |]. apply upto_last_close_brace_none. exact Hr.
Qed.

(** What the pattern returns: the text from the first opening brace to the
    last closing brace after it. *)
Lemma search_braces_some (s j : string) :
  Re.search_braces s = Some j ->
  exists before o inside c after,
    s = (before ++ j ++ after)%string /\
    j = String o (inside ++ String c "") /\
    Re.is_char 123 o = true /\ Re.is_char 125 c = true /\
    Re.has_char 123 before = false /\ Re.has_char 125 after = false.
Proof.
  unfold Re.search_braces.
  destruct (Re.from_open_brace s) as [t |] eqn:Ht; [| discriminate].
  intros Hj.
  destruct (from_open_brace_some s t Ht) as [before [o [rest [Hs [Hto [Ho Hb]]]]]].
  destruct (upto_last_close_brace_some t j Hj) as [body [c [after [Hjb [Hc [Htj Ha]]]]]].
  destruct body as [| o' inside].
  - exfalso. rewrite Htj, Hjb in Hto. simpl in Hto. inversion Hto. subst c.
    unfold Re.is_char in Ho, Hc. apply N.eqb_eq in Ho, Hc. rewrite Ho in Hc.
    discriminate Hc.
  - rewrite Htj, Hjb in Hto. simpl in Hto. inversion Hto. subst o'.
    exists before, o, inside, c, after.
    rewrite Hs, Htj. repeat split; auto.
Qed.

(** The pattern finds something as soon as an opening brace is followed,
    anywhere, by a closing brace. *)
Lemma search_braces_found (before inside after : string) (o c : ascii) :
  Re.is_char 123 o = true -> Re.is_char 125 c = true ->
  exists j,
    Re.search_braces (before ++ String o (inside ++ String c after)) = Some j.
Proof.
  intros Ho Hc.
  assert (Hfound : forall t, Re.has_char 125 t = true ->
                             exists j, Re.upto_last_close_brace t = Some j).
  { intros t Ht. destruct (Re.upto_last_close_brace t) as [j |] eqn:Hj.
    - exists j. reflexivity.
    - apply upto_last_close_brace_none in Hj. congruence. }
  assert (Hhas : forall pre, Re.has_char 125
                   (pre ++ String o (inside ++ String c after)) = true).
  { intros pre. rewrite has_char_append. simpl. rewrite has_char_append. simpl.
    rewrite Hc. rewrite !orb_true_r. reflexivity. }
  unfold Re.search_braces.
  induction before as [| a before IH]; simpl.
  - rewrite Ho. apply Hfound. exact (Hhas "").
  - destruct (Re.is_char 123 a).
    + apply Hfound. exact (Hhas (String a before)).
    + exact IH.
Qed.

(** ** Worked examples *)

Example title_of_a_sentence :
  MockAnalyzer.make_title "the quick brown fox jumps over the lazy dog"
  = "The Quick Brown Fox Jumps".
Proof. vm_compute. reflexivity. Qed.

Example title_after_an_apostrophe :
  MockAnalyzer.make_title "  it's a 3rd-party   plug_in  " = "It'S A 3Rd-Party Plug_In".
Proof. vm_compute. reflexivity. Qed.

Example title_is_cut_at_fifty :
  MockAnalyzer.make_title
    "internationalization standardization characterization of words"
  = "Internationalization Standardization Characteri..." /\
  String.length (MockAnalyzer.make_title
    "internationalization standardization characterization of words") = 50.
Proof. split; vm_compute; reflexivity. Qed.

Example words_of_the_pattern :
  Re.findall_words "abc1 ab_cde xyz, hello-world it's foo9bar a1 bcd"
  = ["xyz"; "hello"; "world"; "bcd"].
Proof. vm_compute. reflexivity. Qed.

Example braces_of_a_reply :
  Re.search_braces "xx {a} b} c" = Some "{a} b}" /\
  Re.search_braces "} {" = None /\
  Re.search_braces "a{b" = None.
Proof. repeat split; vm_compute; reflexivity. Qed.

(** Ties keep the order in which the tokens were first met. *)
Example top_keeps_first_met_order :
  KeywordExtractor.top 2 ["c"; "a"; "a"; "b"; "b"; "b"; "c"; "c"] = ["c"; "b"] /\
  KeywordExtractor.top 5 ["x"; "y"; "z"; "y"; "z"] = ["y"; "z"; "x"] /\
  KeywordExtractor.top 0 ["x"; "y"] = [].
Proof. repeat split; vm_compute; reflexivity. Qed.

Example keywords_on_the_tagging_path :
  KeywordExtractor.extract_keywords Samples.world_full_reply
    "The cat and the dog saw the Cat in a hat" 3
  = Ok ["cat"; "dog"; "saw"].
Proof. vm_compute. reflexivity. Qed.

Example keywords_on_the_pattern_path :
  KeywordExtractor.extract_keywords Samples.offline
    "The cat and the dog saw the Cat in a hat, cat_1 too" 2
  = Ok ["cat"; "dog"].
Proof. vm_compute. reflexivity. Qed.

(** The scenarios of the specification. *)
Example scenario_empty_input :
  outcome (analyze_text_complete Samples.offline "") = Raise empty_input_error /\
  outcome (analyze_text_complete Samples.world_full_reply "   ")
  = Raise empty_input_error.
Proof. split; vm_compute; reflexivity. Qed.

Example scenario_fallback :
  outcome (analyze_text_complete Samples.offline "excellent breakthrough in medicine")
  = Ok [ ("summary",
          PyStr "This text discusses excellent breakthrough in medicine and provides brief information on the topic.");
         ("title", PyStr "Excellent Breakthrough In Medicine");
         ("topics", PyList [PyStr "health"; PyStr "wellness"; PyStr "medical"]);
         ("sentiment", PyStr "positive");
         ("keywords", PyList [PyStr "excellent"; PyStr "breakthrough"; PyStr "medicine"]);
         ("confidence_score", PyFloat (S754_finite false 5044031582654955 (-53)));
         ("analysis_method", PyStr "mock") ] /\
  F64.leb (S754_finite false 5044031582654955 (-53)) F64.f0_8 = true.
Proof. split; vm_compute; reflexivity. Qed.

Example scenario_full_reply :
  String.length Samples.text600 = 600 /\
  analyze_text_complete Samples.world_full_reply Samples.text600
  = ([Request Samples.text600],
     Ok [ ("summary", PyStr "The text repeats three Greek letters many times.");
          ("title", PyStr "T");
          ("topics", PyList [PyStr "a"; PyStr "b"; PyStr "c"]);
          ("sentiment", PyStr "positive");
          ("keywords", PyList [PyStr "alpha"; PyStr "beta"; PyStr "gamma"]);
          ("confidence_score", PyFloat F64.f1_0);
          ("analysis_method", PyStr "openai") ]).
Proof. split; vm_compute; reflexivity. Qed.

Example scenario_plain_reply :
  outcome (analyze_text_complete Samples.world_plain_reply "hello world")
  = Ok [ ("summary", PyStr "The text greets the world.");
         ("title", PyNone);
         ("topics", PyList [PyStr "general"]);
         ("sentiment", PyStr "neutral");
         ("keywords", PyList [PyStr "hello"; PyStr "world"]);
         ("confidence_score", PyFloat (S754_finite false 8106479329266893 (-54)));
         ("analysis_method", PyStr "openai") ].
Proof. vm_compute. reflexivity. Qed.

(** One orchestration sends at most one request: the primary analyzer is
    never tried again. *)
Lemma at_most_one_request (w : World) (text : string) :
  requests (trace (analyze_text_complete w text)) <= 1.
Proof.
  destruct (string_dec (Str.strip text) "") as [He | Hne].
  - rewrite (orchestration_empty w text He). unfold requests, trace. simpl. lia.
  - destruct (extractor_cases w) as [Hk | [message [_ Hk]]].
    + rewrite (orchestration_trace w text Hne Hk). unfold run_analyzers.
      destruct (init_cases w) as [Hc | [e Hc]]; rewrite Hc; simpl.
      * unfold LLMAnalyzer.analyze_text.
        destruct (chat_completion w text) as [[reply |] | e]; simpl;
          try (unfold requests, trace; simpl; lia).
        destruct (Re.search_braces (Str.strip reply)) as [j |]; simpl;
          try (unfold requests, trace; simpl; lia).
        destruct (json_loads w j) as [d | e]; simpl;
          unfold requests, trace; simpl; lia.
      * unfold requests, trace. simpl. lia.
    + rewrite (orchestration_no_extractor w text _ Hne Hk).
      unfold requests, trace. simpl. lia.
Qed.

(** ** The pattern that looks for words *)

Lemma alpha_is_word (c : ascii) : Str.isalpha_char c = true -> Str.isword c = true.
Proof. unfold Str.isword. intros ->. reflexivity. Qed.

Lemma ends_with_snoc (p : ascii -> bool) (s : string) (c : ascii) :
  ends_with p (s ++ String c "") <-> p c = true.
Proof.
  induction s as [| a s IH]; simpl; [tauto |].
  destruct (s ++ String c "")%string eqn:E; [| exact IH].
  destruct s; discriminate E.
Qed.

Lemma all_alpha_append (s t : string) :
  Str.all_alpha (s ++ t) = (Str.all_alpha s && Str.all_alpha t)%bool.
Proof.
  induction s as [| c s IH]; simpl; [reflexivity |].
  rewrite IH, andb_assoc. reflexivity.
Qed.

Lemma ends_with_cases (p : ascii -> bool) (s : string) :
  ends_with p s ->
  s = "" \/ exists (before : string) (c : ascii),
              s = (before ++ String c "")%string /\ p c = true.
Proof.
  induction s as [| a s IH]; [auto |].
  intros H. right. destruct s as [| b s].
  - exists "", a. auto.
  - destruct (IH H) as [E | [before [c [E Hc]]]]; [discriminate E |].
    exists (String a before), c. simpl. rewrite <- E. auto.
Qed.

(** Every word the scanner returns is a match of the pattern. *)
Lemma findall_sound (s : string) :
  forall st done x,
    scan_agrees st done ->
    In x (Re.findall_from st s) -> word_match (done ++ s) x.
Proof.
  induction s as [| c s IH]; intros st done x Hst Hin.
  - destruct st as [| run |]; simpl in Hin; try contradiction.
    unfold Re.emit in Hin.
    destruct (Nat.leb 3 (String.length run)) eqn:Hlen; [| contradiction].
    destruct Hin as [<- | []]. apply Nat.leb_le in Hlen.
    destruct Hst as [before [Hdone [Hb Ha]]].
    exists before, "". rewrite Hdone, !append_nil_r. simpl. auto.
  - assert (Hnext : forall st',
               scan_agrees st' (done ++ String c "") ->
               In x (Re.findall_from st' s) ->
               word_match (done ++ String c s) x).
    { intros st' Hst' Hin'. specialize (IH st' _ x Hst' Hin').
      rewrite append_assoc in IH. exact IH. }
    simpl in Hin. destruct (Str.isalpha_char c) eqn:Halpha.
    + destruct st as [| run |]; (eapply Hnext; [| exact Hin]).
      * simpl. exists done. simpl. rewrite Halpha. auto.
      * destruct Hst as [before [Hdone [Hb Ha]]]. simpl.
        exists before. rewrite Hdone, append_assoc, all_alpha_append, Ha.
        simpl. rewrite Halpha. auto.
      * exact I.
    + destruct (Str.isword c) eqn:Hword.
      * apply (Hnext Re.Spoiled I Hin).
      * assert (Hout : scan_agrees Re.Outside (done ++ String c "")).
        { simpl. apply ends_with_snoc. unfold not_word. rewrite Hword. reflexivity. }
        destruct st as [| run |]; try exact (Hnext _ Hout Hin).
        apply in_app_or in Hin. destruct Hin as [Hin | Hin];
          [| exact (Hnext _ Hout Hin)].
        unfold Re.emit in Hin.
        destruct (Nat.leb 3 (String.length run)) eqn:Hlen; [| contradiction].
        destruct Hin as [<- | []]. apply Nat.leb_le in Hlen.
        destruct Hst as [before [Hdone [Hb Ha]]].
        exists before, (String c s). rewrite Hdone, append_assoc.
        repeat split; auto. simpl. unfold not_word. rewrite Hword. reflexivity.
Qed.

(** Reading up to a character that is not a word character leaves the
    scanner outside any run. *)
Lemma findall_skips (before : string) (c : ascii) :
  not_word c = true ->
  forall st rest,
  exists out,
    Re.findall_from st ((before ++ String c "") ++ rest)
    = out ++ Re.findall_from Re.Outside rest.
Proof.
  intros Hc. unfold not_word in Hc. apply negb_true_iff in Hc.
  assert (Ha : Str.isalpha_char c = false).
  { destruct (Str.isalpha_char c) eqn:E; [| reflexivity].
    rewrite (alpha_is_word c E) in Hc. discriminate Hc. }
  induction before as [| a before IH]; intros st rest; simpl.
  - rewrite Ha, Hc. destruct st as [| run |].
    + exists []. reflexivity.
    + exists (Re.emit run). reflexivity.
    + exists []. reflexivity.
  - destruct (Str.isalpha_char a).
    + destruct st as [| run |]; apply IH.
    + destruct (Str.isword a); [apply IH |].
      destruct st as [| run |]; try apply IH.
      destruct (IH Re.Outside rest) as [out Hout].
      exists (Re.emit run ++ out). rewrite Hout, app_assoc. reflexivity.
Qed.

(** Reading letters extends the run of letters. *)
Lemma findall_letters (x : string) :
  Str.all_alpha x = true ->
  forall run rest,
    Re.findall_from (Re.Letters run) (x ++ rest)
    = Re.findall_from (Re.Letters (run ++ x)) rest.
Proof.
  induction x as [| c x IH]; intros Hx run rest; simpl.
  - rewrite append_nil_r. reflexivity.
  - simpl in Hx. apply andb_true_iff in Hx. destruct Hx as [Hc Hx].
    rewrite Hc, (IH Hx), append_assoc. reflexivity.
Qed.

(** A run of at least three letters is returned when it ends at a word
    boundary. *)
Lemma findall_emits (x after : string) :
  3 <= String.length x -> begins_with not_word after ->
  In x (Re.findall_from (Re.Letters x) after).
Proof.
  intros Hlen Hafter.
  assert (He : Re.emit x = [x]).
  { unfold Re.emit. apply Nat.leb_le in Hlen. rewrite Hlen. reflexivity. }
  destruct after as [| c after]; simpl.
  - rewrite He. left. reflexivity.
  - simpl in Hafter. unfold not_word in Hafter. apply negb_true_iff in Hafter.
    destruct (Str.isalpha_char c) eqn:E.
    + rewrite (alpha_is_word c E) in Hafter. discriminate Hafter.
    + rewrite Hafter, He. left. reflexivity.
Qed.

(** The scanner returns exactly the matches of the pattern. *)
Lemma findall_words_spec (s x : string) :
  In x (Re.findall_words s) <-> word_match s x.
Proof.
  split.
  - intros H. exact (findall_sound s Re.Outside "" x I H).
  - intros [before [after [Hs [Halpha [Hlen [Hb Ha]]]]]]. subst s.
    unfold Re.findall_words.
    assert (Hx : In x (Re.findall_from Re.Outside (x ++ after))).
    { destruct x as [| c x]; [simpl in Hlen; lia |].
      simpl in Halpha. apply andb_true_iff in Halpha. destruct Halpha as [Hc Hx].
      simpl. rewrite Hc. rewrite (findall_letters x Hx). simpl.
      apply findall_emits; assumption. }
    destruct (ends_with_cases _ _ Hb) as [-> | [pre [c [-> Hc]]]]; [exact Hx |].
    destruct (findall_skips pre c Hc Re.Outside (x ++ after)) as [out Hout].
    rewrite Hout. apply in_or_app. right. exact Hx.
Qed.

(** ** Trimming *)

Lemma lstrip_spec (s : string) :
  exists lead : string,
    s = (lead ++ Str.lstrip s)%string /\ all_space lead /\
    begins_with not_space (Str.lstrip s).
Proof.
  induction s as [| c s IH]; simpl.
  - exists "". simpl. auto.
  - destruct (Str.isspace c) eqn:Hc.
    + destruct IH as [lead [Hs [Hl Hb]]].
      exists (String c lead). simpl. rewrite <- Hs. auto.
    + exists "". simpl. unfold not_space. rewrite Hc. auto.
Qed.

Lemma rstrip_spec (s : string) :
  exists trail : string,
    s = (Str.rstrip s ++ trail)%string /\ all_space trail /\
    ends_with not_space (Str.rstrip s) /\
    (begins_with not_space s -> begins_with not_space (Str.rstrip s)).
Proof.
  induction s as [| c s IH]; simpl.
  - exists "". simpl. auto.
  - destruct IH as [trail [Hs [Ht [He _]]]].
    destruct (Str.isspace c) eqn:Hc; simpl.
    + destruct (Str.rstrip s) as [| a r] eqn:Hr; simpl.
      * exists (String c s). simpl. rewrite Hs. simpl.
        unfold not_space. rewrite Hc. repeat split; auto.
      * exists trail. simpl. rewrite Hs at 1. simpl.
        unfold not_space. rewrite Hc. repeat split; auto.
    + exists trail. rewrite Hs at 1.
      unfold not_space. rewrite Hc.
      destruct (Str.rstrip s) as [| a r] eqn:Hr; simpl; repeat split; auto.
Qed.

(** [strip] removes a whitespace prefix and a whitespace suffix, and what is
    left neither begins nor ends with whitespace. *)
Lemma strip_spec (s : string) :
  exists lead trail : string,
    s = (lead ++ Str.strip s ++ trail)%string /\
    all_space lead /\ all_space trail /\
    begins_with not_space (Str.strip s) /\ ends_with not_space (Str.strip s).
Proof.
  unfold Str.strip.
  destruct (lstrip_spec s) as [lead [Hs [Hl Hb]]].
  destruct (rstrip_spec (Str.lstrip s)) as [trail [Ht [Htr [He Hkeep]]]].
  exists lead, trail.
  split; [rewrite <- Ht; exact Hs |].
  split; [exact Hl |]. split; [exact Htr |].
  split; [exact (Hkeep Hb) | exact He].
Qed.

(** On the path of the regular expression the candidates are the matches of
    the pattern in the lower-cased text that are not stopwords. *)
Lemma words_spec (w : World) (text k : string) :
  In k (KeywordExtractor.words w text) <->
  word_match (Str.lower text) k /\
  Str.mem k (KeywordExtractor.stop_words w) = false.
Proof.
  unfold KeywordExtractor.words. rewrite filter_In, findall_words_spec.
  rewrite negb_true_iff. tauto.
Qed.

(* ================================================================== *)
(** * Further properties of [utils.py] *)

(** ** Requests and printed lines *)

(** The primary analyzer sends its request whatever happens next. *)
Lemma primary_trace (w : World) (text : string) :
  trace (LLMAnalyzer.analyze_text w text) = [Request text].
Proof.
  unfold LLMAnalyzer.analyze_text.
  destruct (chat_completion w text) as [[reply |] | e]; simpl; try reflexivity.
  destruct (Re.search_braces (Str.strip reply)) as [j |]; simpl; try reflexivity.
  destruct (json_loads w j) as [d | e]; reflexivity.
Qed.

(** The three ways the [try]/[except] around the analyzers can go, with
    their events. *)
Lemma run_analyzers_shapes (w : World) (text : string) :
  (exists d,
      LLMAnalyzer.init w = ([], Ok tt) /\
      outcome (LLMAnalyzer.analyze_text w text) = Ok d /\
      run_analyzers w text = ([Request text], Ok (d, "openai"))) \/
  (exists e,
      LLMAnalyzer.init w = ([], Raise e) /\
      run_analyzers w text
      = ([announcement e], Ok (MockAnalyzer.analyze_text w text, "mock"))) \/
  (exists e,
      LLMAnalyzer.init w = ([], Ok tt) /\
      outcome (LLMAnalyzer.analyze_text w text) = Raise e /\
      run_analyzers w text
      = ([Request text; announcement e],
         Ok (MockAnalyzer.analyze_text w text, "mock"))).
Proof.
  unfold run_analyzers.
  destruct (init_cases w) as [Hc | [e Hc]]; rewrite Hc; simpl.
  - pose proof (primary_trace w text) as Ht.
    destruct (LLMAnalyzer.analyze_text w text) as [t [d | e]]; simpl in Ht; subst t;
      simpl.
    + left. exists d. auto.
    + right. right. exists e. auto.
  - right. left. exists e. auto.
Qed.

(** X1.  One call of the orchestration sends no request when the text is
    empty after trimming, when the keyword extractor cannot be built or when
    the construction of the primary analyzer fails, and exactly one request,
    for the text itself and before anything is printed, in every other case:
    the primary analyzer is never tried twice. *)
Theorem requests_of_one_call (w : World) (text : string) :
  (Str.strip text = "" -> trace (analyze_text_complete w text) = []) /\
  (Str.strip text <> "" ->
   (exists e, KeywordExtractor.init w = ([], Raise e)) ->
   trace (analyze_text_complete w text) = []) /\
  (Str.strip text <> "" ->
   (exists e, LLMAnalyzer.init w = ([], Raise e)) ->
   requests (trace (analyze_text_complete w text)) = 0) /\
  (Str.strip text <> "" ->
   KeywordExtractor.init w = ([], Ok tt) ->
   LLMAnalyzer.init w = ([], Ok tt) ->
   requests (trace (analyze_text_complete w text)) = 1 /\
   exists rest, trace (analyze_text_complete w text) = Request text :: rest).
Proof.
  split; [| split; [| split]].
  - intros He. rewrite (orchestration_empty w text He). reflexivity.
  - intros Hne [e Hk]. rewrite (orchestration_no_extractor w text e Hne Hk).
    reflexivity.
  - intros Hne [e He].
    destruct (extractor_cases w) as [Hk | [message [_ Hk]]].
    + rewrite (orchestration_trace w text Hne Hk).
      destruct (run_analyzers_shapes w text)
        as [[d [Hi _]] | [[e' [_ Hr]] | [e' [Hi _]]]];
        try (rewrite He in Hi; discriminate Hi).
      rewrite Hr. reflexivity.
    + rewrite (orchestration_no_extractor w text _ Hne Hk). reflexivity.
  - intros Hne Hk Hi. rewrite (orchestration_trace w text Hne Hk).
    destruct (run_analyzers_shapes w text)
      as [[d [_ [_ Hr]]] | [[e' [Hi' _]] | [e' [_ [_ Hr]]]]];
      try (rewrite Hi in Hi'; discriminate Hi'); rewrite Hr;
      (split; [reflexivity | eexists; reflexivity]).
Qed.

Lemma requests_of_one_call_witness :
  trace (analyze_text_complete Samples.no_corpus "hello world") = [] /\
  requests (trace (analyze_text_complete Samples.offline "hello world")) = 0 /\
  requests (trace (analyze_text_complete Samples.world_braces_reply "hello world")) = 1.
Proof.
  split; [| split].
  - apply (proj1 (proj2 (requests_of_one_call Samples.no_corpus "hello world"))).
    + vm_compute. discriminate.
    + eexists. reflexivity.
  - apply (proj1 (proj2 (proj2 (requests_of_one_call Samples.offline "hello world")))).
    + vm_compute. discriminate.
    + eexists. reflexivity.
  - apply (proj2 (proj2 (proj2
             (requests_of_one_call Samples.world_braces_reply "hello world")))).
    + vm_compute. discriminate.
    + reflexivity.
    + reflexivity.
Defined.

(** X2.  A returned result that records the method mock comes with the
    printed line "OpenAI unavailable (...), using mock analyzer", which holds
    between the brackets the text of the exception that caused the fallback:
    the one of the construction of the primary analyzer or the one of its
    call.  Nothing is printed for a result of the primary path. *)
Theorem fallback_is_announced (w : World) (text : string) (r : dict) :
  outcome (analyze_text_complete w text) = Ok r ->
  (method_of r = PyStr "mock" ->
   exists e,
     (LLMAnalyzer.init w = ([], Raise e) \/
      outcome (LLMAnalyzer.analyze_text w text) = Raise e) /\
     In (announcement e) (trace (analyze_text_complete w text))) /\
  (forall line,
      In (Print line) (trace (analyze_text_complete w text)) ->
      method_of r = PyStr "mock").
Proof.
  intros H.
  destruct (returned_extractor w text r H) as [_ Hk].
  destruct (orchestration_inv w text r H) as [Hne [d [m [base [Hrun [_ ->]]]]]].
  rewrite (orchestration_trace w text Hne Hk).
  unfold method_of. simpl.
  destruct (run_analyzers_shapes w text)
    as [[d' [_ [_ Hr]]] | [[e [Hi Hr]] | [e [_ [Hp Hr]]]]];
    rewrite Hr in Hrun |- *; simpl in Hrun; inversion Hrun; subst; simpl.
  - split; [discriminate |].
    intros line [Hl | []]. discriminate Hl.
  - split; [| reflexivity]. intros _. exists e. auto.
  - split; [| reflexivity]. intros _. exists e. auto.
Qed.

Lemma fallback_is_announced_witness :
  exists e,
    (LLMAnalyzer.init Samples.world_braces_reply = ([], Raise e) \/
     outcome (LLMAnalyzer.analyze_text Samples.world_braces_reply "hello world")
     = Raise e) /\
    In (announcement e)
       (trace (analyze_text_complete Samples.world_braces_reply "hello world")).
Proof.
  apply (proj1 (fallback_is_announced Samples.world_braces_reply "hello world"
                  (returned (analyze_text_complete Samples.world_braces_reply
                               "hello world"))
                  ltac:(vm_compute; reflexivity))).
  vm_compute. reflexivity.
Defined.

(** ** The primary analyzer *)

(** X3.  Whatever goes wrong inside the primary analyzer reaches its caller
    as a plain [Exception] whose text is "OpenAI API error: " followed by the
    text of the original exception, after the request was sent: the error of
    the service call, with its class lost, and the missing content of a reply
    alike. *)
Theorem primary_analyzer_failure_is_wrapped (w : World) (text : string) :
  (forall cause,
      chat_completion w text = Raise cause ->
      LLMAnalyzer.analyze_text w text
      = ([Request text],
         Raise (MkExn Exception ("OpenAI API error: " ++ exn_str cause)))) /\
  (chat_completion w text = Ok None ->
   LLMAnalyzer.analyze_text w text
   = ([Request text],
      Raise (MkExn Exception
               "OpenAI API error: 'NoneType' object has no attribute 'strip'"))) /\
  (forall e,
      outcome (LLMAnalyzer.analyze_text w text) = Raise e ->
      exn_kind e = Exception /\
      exists cause, exn_str e = ("OpenAI API error: " ++ exn_str cause)%string).
Proof.
  split; [| split].
  - intros cause H. unfold LLMAnalyzer.analyze_text. rewrite H. reflexivity.
  - intros H. unfold LLMAnalyzer.analyze_text. rewrite H. reflexivity.
  - intros e H. destruct (primary_failure w text e H) as [Hk [cause ->]].
    split; [reflexivity |]. exists cause. reflexivity.
Qed.

Lemma primary_analyzer_failure_is_wrapped_witness :
  LLMAnalyzer.analyze_text Samples.offline "hello world"
  = ([Request "hello world"],
     Raise (MkExn Exception "OpenAI API error: APIConnectionError raised")).
Proof.
  apply (proj1 (primary_analyzer_failure_is_wrapped Samples.offline "hello world")
           (MkExn (LibraryError "APIConnectionError") "APIConnectionError raised")).
  reflexivity.
Defined.

Lemma search_braces_none (s : string) :
  Re.search_braces s = None <-> ~ brace_pair s.
Proof.
  split.
  - intros H [before [inside [after [o [c [Hs [Ho Hc]]]]]]].
    destruct (search_braces_found before inside after o c Ho Hc) as [j Hj].
    rewrite <- Hs in Hj. congruence.
  - intros H. destruct (Re.search_braces s) as [j |] eqn:Hj; [| reflexivity].
    exfalso. apply H.
    destruct (search_braces_some s j Hj)
      as [before [o [inside [c [after [Hs [Hjj [Ho [Hc _]]]]]]]]].
    exists before, inside, after, o, c. subst j. rewrite Hs. simpl.
    rewrite append_assoc. simpl. auto.
Qed.

(** X4.  The primary analyzer reads a reply as follows.  When the trimmed
    reply holds no opening brace followed by a closing brace, the analysis is
    the trimmed reply as the summary, with a null title, the one topic
    "general" and a neutral sentiment.  Otherwise the text handed to
    [json.loads] runs from the first opening brace to the last closing brace
    of the trimmed reply, whatever lies between them, and the analysis is
    what [json.loads] returns for it, or the wrapped error when it raises. *)
Theorem reply_parsing (w : World) (text reply : string) :
  chat_completion w text = Ok (Some reply) ->
  (~ brace_pair (Str.strip reply) ->
   outcome (LLMAnalyzer.analyze_text w text)
   = Ok (LLMAnalyzer.raw_text_result (Str.strip reply))) /\
  (brace_pair (Str.strip reply) ->
   exists before o inside c after,
     Str.strip reply = (before ++ String o (inside ++ String c "") ++ after)%string /\
     Re.is_char 123 o = true /\ Re.is_char 125 c = true /\
     Re.has_char 123 before = false /\ Re.has_char 125 after = false /\
     outcome (LLMAnalyzer.analyze_text w text)
     = match json_loads w (String o (inside ++ String c "")) with
       | Ok d => Ok d
       | Raise e => Raise (MkExn Exception ("OpenAI API error: " ++ exn_str e))
       end).
Proof.
  intros Hreply. unfold LLMAnalyzer.analyze_text. rewrite Hreply. simpl. split.
  - intros H. apply search_braces_none in H. rewrite H. reflexivity.
  - intros H.
    destruct (Re.search_braces (Str.strip reply)) as [j |] eqn:Hj.
    + destruct (search_braces_some _ j Hj)
        as [before [o [inside [c [after [Hs [Hjj [Ho [Hc [Hb Ha]]]]]]]]]].
      exists before, o, inside, c, after. subst j.
      repeat (split; [assumption |]). simpl.
      destruct (json_loads w (String o (inside ++ String c ""))); reflexivity.
    + apply search_braces_none in Hj. contradiction.
Qed.

Lemma reply_parsing_witness :
  outcome (LLMAnalyzer.analyze_text Samples.world_plain_reply "hello world")
  = Ok (LLMAnalyzer.raw_text_result "The text greets the world.") /\
  exists before o inside c after,
    Str.strip Samples.full_reply
    = (before ++ String o (inside ++ String c "") ++ after)%string /\
    Re.is_char 123 o = true /\ Re.is_char 125 c = true /\
    Re.has_char 123 before = false /\ Re.has_char 125 after = false /\
    outcome (LLMAnalyzer.analyze_text Samples.world_full_reply "hello world")
    = match json_loads Samples.world_full_reply (String o (inside ++ String c "")) with
      | Ok d => Ok d
      | Raise e => Raise (MkExn Exception ("OpenAI API error: " ++ exn_str e))
      end.
Proof.
  split.
  - apply (proj1 (reply_parsing Samples.world_plain_reply "hello world"
                    Samples.plain_reply eq_refl)).
    apply search_braces_none. vm_compute. reflexivity.
  - apply (proj2 (reply_parsing Samples.world_full_reply "hello world"
                    Samples.full_reply eq_refl)).
    assert (H : Re.search_braces (Str.strip Samples.full_reply) <> None)
      by (vm_compute; discriminate).
    destruct (Re.search_braces (Str.strip Samples.full_reply)) as [j |] eqn:Hj;
      [| contradiction].
    destruct (search_braces_some _ j Hj)
      as [before [o [inside [c [after [Hs [Hjj [Ho [Hc _]]]]]]]]].
    exists before, inside, after, o, c. subst j. rewrite Hs. simpl.
    rewrite append_assoc. simpl. auto.
Defined.

(** X5.  A parsed reply enters the result key by key: the summary, the
    title, the topics and the sentiment of the result are those of the parsed
    object, and a key the object lacks is given its default, the empty
    string, null, the empty list and "neutral".  Provided the object is
    scorable the result is returned as a primary one, with the seven keys
    only, whatever other keys the object holds.  The keyword extractor and
    the primary analyzer are supposed built. *)
Theorem parsed_reply_defaults (w : World) (text reply j : string) (d : dict) :
  Str.strip text <> "" ->
  KeywordExtractor.init w = ([], Ok tt) ->
  LLMAnalyzer.init w = ([], Ok tt) ->
  chat_completion w text = Ok (Some reply) ->
  Re.search_braces (Str.strip reply) = Some j ->
  json_loads w j = Ok d ->
  scorable d = true ->
  exists r,
    outcome (analyze_text_complete w text) = Ok r /\
    map fst r = result_keys /\
    dict_get r "summary" PyNone = dict_get d "summary" (PyStr "") /\
    dict_get r "title" (PyStr "") = dict_get d "title" PyNone /\
    dict_get r "topics" PyNone = dict_get d "topics" (PyList []) /\
    dict_get r "sentiment" PyNone = dict_get d "sentiment" (PyStr "neutral") /\
    confidence_of r = PyFloat (score_as_coded text d (keywords_of w text)) /\
    method_of r = PyStr "openai".
Proof.
  intros Hne Hk Hinit Hreply Hs Hj Hd.
  assert (Ha : LLMAnalyzer.analyze_text w text = ([Request text], Ok d)).
  { unfold LLMAnalyzer.analyze_text. rewrite Hreply. simpl. rewrite Hs. simpl.
    rewrite Hj. reflexivity. }
  rewrite (orchestration_outcome w text Hne Hk).
  unfold run_analyzers. rewrite Hinit, Ha. simpl.
  rewrite (score_by_flags _ _ _ Hd).
  eexists. split; [reflexivity |].
  repeat (split; [reflexivity |]). split; [| reflexivity].
  unfold confidence_of, score_as_coded, contribution_sum. simpl.
  rewrite flags_sum. reflexivity.
Qed.

Lemma parsed_reply_defaults_witness :
  exists r,
    outcome (analyze_text_complete MoreSamples.world_partial_reply
               "Rain tomorrow in the north") = Ok r /\
    map fst r = result_keys /\
    dict_get r "summary" PyNone = PyStr "Rain is expected in the north tomorrow." /\
    dict_get r "title" (PyStr "") = PyNone /\
    dict_get r "topics" PyNone = PyList [] /\
    dict_get r "sentiment" PyNone = PyStr "neutral" /\
    confidence_of r
    = PyFloat (score_as_coded "Rain tomorrow in the north"
                 MoreSamples.partial_reply_value
                 (keywords_of MoreSamples.world_partial_reply
                    "Rain tomorrow in the north")) /\
    method_of r = PyStr "openai".
Proof.
  apply (parsed_reply_defaults MoreSamples.world_partial_reply
           "Rain tomorrow in the north" MoreSamples.partial_reply
           MoreSamples.partial_reply MoreSamples.partial_reply_value).
  - vm_compute. discriminate.
  - reflexivity.
  - reflexivity.
  - reflexivity.
  - vm_compute. reflexivity.
  - vm_compute. reflexivity.
  - reflexivity.
Defined.

(** ** The mock analyzer *)

Lemma lstrip_fixed (s : string) : begins_with not_space s -> Str.lstrip s = s.
Proof.
  destruct s as [| c s]; simpl; [reflexivity |].
  unfold not_space. intros H. apply negb_true_iff in H. rewrite H. reflexivity.
Qed.

Lemma rstrip_fixed (s : string) : ends_with not_space s -> Str.rstrip s = s.
Proof.
  induction s as [| c s IH]; [reflexivity |].
  intros H. simpl. destruct s as [| c' s].
  - simpl in H |- *. unfold not_space in H. apply negb_true_iff in H.
    rewrite H. reflexivity.
  - rewrite (IH H). simpl. rewrite andb_false_r. reflexivity.
Qed.

(** A text that neither begins nor ends with whitespace is its own
    trimming. *)
Lemma strip_fixed (s : string) :
  begins_with not_space s -> ends_with not_space s -> Str.strip s = s.
Proof.
  intros Hb He. unfold Str.strip. rewrite (lstrip_fixed s Hb).
  apply rstrip_fixed. exact He.
Qed.

Lemma strip_idempotent (s : string) : Str.strip (Str.strip s) = Str.strip s.
Proof.
  destruct (strip_spec s) as [lead [trail [_ [_ [_ [Hb He]]]]]].
  apply strip_fixed; assumption.
Qed.

Lemma ends_with_append (p : ascii -> bool) (s t : string) :
  t <> "" -> (ends_with p (s ++ t) <-> ends_with p t).
Proof.
  intros Ht. induction s as [| a s IH]; simpl; [tauto |].
  destruct (s ++ t)%string eqn:E; [| exact IH].
  destruct s; simpl in E; [contradiction | discriminate E].
Qed.

(** A run that is being read always ends up among the words. *)
Lemma split_from_nonempty (s word : string) :
  word <> "" -> Str.split_from word s <> [].
Proof.
  revert word. induction s as [| c s IH]; intros word Hw; simpl.
  - destruct word; [contradiction | discriminate].
  - destruct (Str.isspace c).
    + destruct word; [contradiction | discriminate].
    + apply IH. destruct word; discriminate.
Qed.

Lemma split_nil_all_space (s : string) : Str.split s = [] -> all_space s.
Proof.
  unfold Str.split. induction s as [| c s IH]; simpl; [auto |].
  destruct (Str.isspace c) eqn:Hc.
  - intros H. split; [reflexivity | exact (IH H)].
  - intros H. exfalso. revert H. apply split_from_nonempty. discriminate.
Qed.

Lemma all_space_lstrip (s : string) : all_space s -> Str.lstrip s = "".
Proof.
  induction s as [| c s IH]; simpl; [reflexivity |].
  intros [Hc Hs]. rewrite Hc. exact (IH Hs).
Qed.

(** A text that is not empty after trimming has a first word. *)
Lemma split_nonempty (text : string) :
  Str.strip text <> "" ->
  exists word rest, Str.split text = word :: rest /\ word <> "".
Proof.
  intros Hne. destruct (Str.split text) as [| word rest] eqn:Hs.
  - exfalso. apply Hne. unfold Str.strip.
    rewrite (all_space_lstrip text (split_nil_all_space text Hs)). reflexivity.
  - exists word, rest. split; [reflexivity |].
    assert (Hin : In word (Str.split text)) by (rewrite Hs; left; reflexivity).
    exact (proj1 (split_from_words text "" word I Hin)).
Qed.

Lemma shortened_title_nonempty (full : string) :
  full <> "" ->
  (if Nat.ltb 50 (String.length full)
   then (Str.take 47 full ++ "...")%string else full) <> "".
Proof.
  intros H. destruct (Nat.ltb 50 (String.length full)); [| exact H].
  destruct (Str.take 47 full); simpl; discriminate.
Qed.

(** The mock title of a text that is not empty after trimming is not
    empty. *)
Lemma mock_title_nonempty (text : string) :
  Str.strip text <> "" -> MockAnalyzer.make_title text <> "".
Proof.
  intros Hne. destruct (split_nonempty text Hne) as [word [rest [Hs Hw]]].
  unfold MockAnalyzer.make_title. apply shortened_title_nonempty.
  rewrite Hs, firstn_cons. generalize (firstn 4 rest). intros l.
  intros H. apply (f_equal String.length) in H.
  unfold Str.title in H. rewrite length_title_from in H.
  unfold Str.join in H. destruct word as [| c word]; [contradiction |].
  destruct l; simpl in H; discriminate H.
Qed.

Lemma length_lower (s : string) : String.length (Str.lower s) = String.length s.
Proof. induction s as [| c s IH]; simpl; [| rewrite IH]; reflexivity. Qed.

Lemma mock_title_length (text : string) :
  String.length (MockAnalyzer.make_title text) <= 50.
Proof.
  unfold MockAnalyzer.make_title.
  set (full := Str.title (Str.join " " (firstn 5 (Str.split text)))).
  destruct (Nat.ltb 50 (String.length full)) eqn:H.
  - rewrite length_append, length_take. change (String.length "...") with 3. lia.
  - apply Nat.ltb_ge in H. exact H.
Qed.

(** The summary of the mock analyzer is trimmed, holds the lower-cased title
    and has at least 65 characters besides it. *)
Lemma mock_summary_shape (text title : string) :
  Str.strip (MockAnalyzer.make_summary text title) = MockAnalyzer.make_summary text title /\
  substring_of (Str.lower title) (MockAnalyzer.make_summary text title) /\
  String.length title + 65 <= String.length (MockAnalyzer.make_summary text title).
Proof.
  unfold MockAnalyzer.make_summary.
  destruct (Nat.ltb (String.length text) 50);
    [| destruct (Nat.ltb (String.length text) 200)].
  all: split; [apply strip_fixed;
               [reflexivity
               | apply ends_with_append; [destruct (Str.lower title); discriminate |];
                 apply ends_with_append; [discriminate | reflexivity]]
              | split; [eexists; eexists; reflexivity
                       | rewrite !length_append, length_lower; simpl; lia]].
Qed.

Lemma mock_topics_in_catalog (w : World) :
  In (MockAnalyzer.random_choice w MockAnalyzer.sample_topics)
     MockAnalyzer.sample_topics /\
  List.length (MockAnalyzer.random_choice w MockAnalyzer.sample_topics) = 3.
Proof.
  assert (Hin : In (MockAnalyzer.random_choice w MockAnalyzer.sample_topics)
                   MockAnalyzer.sample_topics).
  { unfold MockAnalyzer.random_choice. apply nth_In.
    apply Nat.mod_upper_bound. discriminate. }
  split; [exact Hin |].
  revert Hin. generalize (MockAnalyzer.random_choice w MockAnalyzer.sample_topics).
  intros t Hin. simpl in Hin.
  repeat (destruct Hin as [<- | Hin]; [reflexivity |]). contradiction.
Qed.

(** X6.  Whatever the text, the mock analyzer returns a summary, a title, a
    list of topics and a sentiment of the following shape: the topics are one
    of the ten triples of the catalog, whatever index the random source
    gives; the sentiment is positive, negative or neutral; the title has at
    most 50 characters; the summary is trimmed, holds the lower-cased title
    and has at least 65 characters more than the title. *)
Theorem mock_output_shape (w : World) (text : string) :
  exists summary title topics sentiment,
    MockAnalyzer.analyze_text w text
    = [ ("summary", PyStr summary); ("title", PyStr title);
        ("topics", PyList (map PyStr topics)); ("sentiment", PyStr sentiment) ] /\
    In topics MockAnalyzer.sample_topics /\ List.length topics = 3 /\
    (sentiment = "positive" \/ sentiment = "negative" \/ sentiment = "neutral") /\
    String.length title <= 50 /\
    Str.strip summary = summary /\
    substring_of (Str.lower title) summary /\
    String.length title + 65 <= String.length summary.
Proof.
  exists (MockAnalyzer.make_summary text (MockAnalyzer.make_title text)),
         (MockAnalyzer.make_title text),
         (MockAnalyzer.random_choice w MockAnalyzer.sample_topics),
         (MockAnalyzer.make_sentiment text).
  split; [reflexivity |].
  split; [apply mock_topics_in_catalog |].
  split; [apply mock_topics_in_catalog |].
  split.
  { unfold MockAnalyzer.make_sentiment.
    destruct (Nat.ltb _ _); [auto |]. destruct (Nat.ltb _ _); auto. }
  split; [apply mock_title_length |].
  apply mock_summary_shape.
Qed.

(** The score of a mock analysis of a text that is not empty after trimming:
    the summary, the title and the three topics always count. *)
Lemma mock_score (w : World) (text : string) (keywords : list string) :
  Str.strip text <> "" ->
  calculate_confidence_score text (MockAnalyzer.analyze_text w text) keywords
  = Ok (score_from_flags
          (Nat.ltb 10 (trimmed_length text))
          (Nat.ltb 100 (trimmed_length text))
          (Nat.ltb 500 (trimmed_length text))
          true true 3 (List.length keywords)
          (py_ne_str (PyStr (MockAnalyzer.make_sentiment text)) "neutral")).
Proof.
  intros Hne. rewrite (score_by_flags _ _ _ (mock_scorable w text)).
  unfold summary_length, topics_length, sentiment_of. simpl.
  destruct (mock_summary_shape text (MockAnalyzer.make_title text)) as [Hs [_ Hl]].
  rewrite Hs.
  assert (H20 : Nat.ltb 20 (String.length
                  (MockAnalyzer.make_summary text (MockAnalyzer.make_title text)))
                = true) by (apply Nat.ltb_lt; lia).
  rewrite H20.
  assert (Ht : negb (Str.is_empty (MockAnalyzer.make_title text)) = true).
  { destruct (MockAnalyzer.make_title text) eqn:E;
      [exfalso; exact (mock_title_nonempty text Hne E) | reflexivity]. }
  rewrite Ht, length_map, (proj2 (mock_topics_in_catalog w)). reflexivity.
Qed.

Lemma mock_output_shape_example :
  MockAnalyzer.analyze_text Samples.offline ""
  = [ ("summary",
       PyStr "This text discusses  and provides brief information on the topic.");
      ("title", PyStr "");
      ("topics", PyList [PyStr "health"; PyStr "wellness"; PyStr "medical"]);
      ("sentiment", PyStr "neutral") ].
Proof. vm_compute. reflexivity. Qed.

Lemma flags_mock_lower (b1 b2 b3 : bool) (nk : nat) (b8 : bool) :
  let base := score_from_flags b1 b2 b3 true true 3 nk b8 in
  F64.leb (F64.literal 4 10) base = true /\
  F64.leb (F64.mul (F64.literal 4 10) F64.f0_7) (mock_discount base) = true /\
  F64.leb (F64.literal 27 100) (mock_discount base) = true.
Proof.
  each_count nk; each_flag; vm_compute; repeat split; reflexivity.
Qed.

(** X7.  A result of the fallback path for a text that is not empty after
    trimming never has a low score: the mock analyzer always supplies a
    summary of more than 20 characters, a title that is not empty and three
    topics, so that the score of the scorer is at least 0.4 and the
    confidence score, which is 0.7 times that, is above 0.27. *)
Theorem fallback_confidence_at_least (w : World) (text : string) (r : dict) :
  Str.strip text <> "" ->
  outcome (analyze_text_complete w text) = Ok r ->
  method_of r = PyStr "mock" ->
  exists base c,
    calculate_confidence_score text (MockAnalyzer.analyze_text w text)
      (keywords_of w text) = Ok base /\
    F64.leb (F64.literal 4 10) base = true /\
    confidence_of r = PyFloat c /\
    F64.leb (F64.mul (F64.literal 4 10) F64.f0_7) c = true /\
    F64.leb (F64.literal 27 100) c = true.
Proof.
  intros Hne H Hm.
  destruct (orchestration_inv w text r H) as [_ [d [m [base [Hrun [Hbase ->]]]]]].
  unfold method_of in Hm. simpl in Hm. inversion Hm. subst m.
  destruct (run_analyzers_method w text d "mock" Hrun) as [Hd | [_ ->]];
    [discriminate Hd |].
  rewrite (mock_score w text _ Hne) in Hbase. inversion Hbase as [Hb]. clear Hbase.
  pose proof (flags_mock_lower
                (Nat.ltb 10 (trimmed_length text)) (Nat.ltb 100 (trimmed_length text))
                (Nat.ltb 500 (trimmed_length text)) (List.length (keywords_of w text))
                (py_ne_str (PyStr (MockAnalyzer.make_sentiment text)) "neutral"))
    as [H1 [H2 H3]].
  eexists. eexists. split; [apply (mock_score w text _ Hne) |].
  split; [exact H1 |].
  split; [reflexivity |].
  split; [exact H2 | exact H3].
Qed.

Lemma fallback_confidence_at_least_witness :
  exists base c,
    calculate_confidence_score "hi"
      (MockAnalyzer.analyze_text Samples.offline "hi")
      (keywords_of Samples.offline "hi") = Ok base /\
    F64.leb (F64.literal 4 10) base = true /\
    confidence_of (returned (analyze_text_complete Samples.offline "hi")) = PyFloat c /\
    F64.leb (F64.mul (F64.literal 4 10) F64.f0_7) c = true /\
    F64.leb (F64.literal 27 100) c = true.
Proof.
  apply (fallback_confidence_at_least Samples.offline "hi").
  - vm_compute. discriminate.
  - vm_compute. reflexivity.
  - vm_compute. reflexivity.
Defined.

(** ** The scorer *)

(** X8.  The scorer raises in two cases only.  A summary that is a true value
    without being a string makes it raise an AttributeError, whatever the
    topics are; with any other summary, topics that have no length (null, a
    boolean, a number) make it raise a TypeError.  Missing keys, a null or
    empty summary, and any title or sentiment never make it raise. *)
Theorem scorer_errors (text : string) (d : dict) (keywords : list string) :
  let summary := dict_get d "summary" (PyStr "") in
  let topics := dict_get d "topics" (PyList []) in
  (truthy summary = true -> is_str summary = false ->
   exists e, calculate_confidence_score text d keywords = Raise e /\
             exn_kind e = AttributeError) /\
  ((truthy summary = false \/ is_str summary = true) -> has_len topics = false ->
   exists e, calculate_confidence_score text d keywords = Raise e /\
             exn_kind e = TypeError) /\
  ((truthy summary = false \/ is_str summary = true) -> has_len topics = true ->
   exists score, calculate_confidence_score text d keywords = Ok score).
Proof.
  intros summary topics. unfold calculate_confidence_score.
  fold summary. fold topics.
  split; [| split].
  - intros Ht Hs. rewrite Ht.
    destruct summary; simpl in Hs |- *; try discriminate Hs;
      eexists; split; reflexivity.
  - intros Hsum Htop.
    destruct (truthy summary) eqn:Ht.
    + destruct Hsum as [Hsum | Hsum]; [discriminate Hsum |].
      destruct summary; simpl in Hsum; try discriminate Hsum. simpl.
      destruct topics; simpl in Htop |- *; try discriminate Htop;
        eexists; split; reflexivity.
    + simpl. destruct topics; simpl in Htop |- *; try discriminate Htop;
        eexists; split; reflexivity.
  - intros Hsum Htop.
    destruct (truthy summary) eqn:Ht.
    + destruct Hsum as [Hsum | Hsum]; [discriminate Hsum |].
      destruct summary; simpl in Hsum; try discriminate Hsum. simpl.
      destruct topics; simpl in Htop |- *; try discriminate Htop;
        eexists; reflexivity.
    + simpl. destruct topics; simpl in Htop |- *; try discriminate Htop;
        eexists; reflexivity.
Qed.

Lemma scorer_errors_witness :
  (exists e,
      calculate_confidence_score "hello world"
        [("summary", PyInt 5); ("topics", PyNone)] [] = Raise e /\
      exn_kind e = AttributeError) /\
  (exists e,
      calculate_confidence_score "hello world" Samples.null_topics_value [] = Raise e /\
      exn_kind e = TypeError) /\
  (exists score,
      calculate_confidence_score "hello world" [("summary", PyNone)] [] = Ok score).
Proof.
  split; [| split].
  - apply (proj1 (scorer_errors "hello world"
                    [("summary", PyInt 5); ("topics", PyNone)] []));
      reflexivity.
  - apply (proj1 (proj2 (scorer_errors "hello world" Samples.null_topics_value [])));
      [right |]; reflexivity.
  - apply (proj2 (proj2 (scorer_errors "hello world" [("summary", PyNone)] [])));
      [left |]; reflexivity.
Defined.

Lemma flags_monotone_in_keywords (b1 b2 b3 b4 b5 : bool) (nt nk1 nk2 : nat)
    (b8 : bool) :
  nk1 <= nk2 ->
  F64.leb (score_from_flags b1 b2 b3 b4 b5 nt nk1 b8)
          (score_from_flags b1 b2 b3 b4 b5 nt nk2 b8) = true.
Proof.
  intros H. each_count nk1; each_count nk2; try lia; clear H;
    each_count nt; each_flag; vm_compute; reflexivity.
Qed.

(** X9.  With the same text and the same scorable analyzer output, a longer
    list of keywords never gets a lower score than a shorter one. *)
Theorem more_keywords_never_lower_the_score
    (text : string) (d : dict) (shorter longer : list string) :
  scorable d = true ->
  List.length shorter <= List.length longer ->
  exists s1 s2,
    calculate_confidence_score text d shorter = Ok s1 /\
    calculate_confidence_score text d longer = Ok s2 /\
    F64.leb s1 s2 = true.
Proof.
  intros Hd Hlen. rewrite !(score_by_flags _ _ _ Hd).
  eexists. eexists. split; [reflexivity |]. split; [reflexivity |].
  apply flags_monotone_in_keywords. exact Hlen.
Qed.

Lemma more_keywords_never_lower_the_score_witness :
  exists s1 s2,
    calculate_confidence_score "hello world" Samples.full_reply_value ["hello"] = Ok s1 /\
    calculate_confidence_score "hello world" Samples.full_reply_value
      ["hello"; "world"] = Ok s2 /\
    F64.leb s1 s2 = true.
Proof.
  apply (more_keywords_never_lower_the_score "hello world" Samples.full_reply_value
           ["hello"] ["hello"; "world"]).
  - reflexivity.
  - simpl. lia.
Defined.

(** ** The ranking of keywords *)

Lemma filter_swap {A} (p q : A -> bool) (l : list A) :
  filter p (filter q l) = filter q (filter p l).
Proof.
  induction l as [| a l IH]; simpl; [reflexivity |].
  destruct (p a) eqn:Hp, (q a) eqn:Hq; simpl; rewrite ?Hp, ?Hq, IH; reflexivity.
Qed.

Lemma filter_without (p : string -> bool) (a : string) (l : list string) :
  p a = false ->
  filter p (filter (fun y => negb (String.eqb y a)) l) = filter p l.
Proof.
  intros Hp. induction l as [| x l IH]; simpl; [reflexivity |].
  destruct (String.eqb x a) eqn:E; simpl.
  - apply String.eqb_eq in E. subst x. rewrite Hp. exact IH.
  - rewrite IH. reflexivity.
Qed.

(** Taking the distinct tokens and filtering can be done in either order. *)
Lemma first_met_filter (p : string -> bool) (l : list string) :
  first_met (filter p l) = filter p (first_met l).
Proof.
  induction l as [| a l IH]; simpl; [reflexivity |].
  destruct (p a) eqn:Hp; simpl.
  - rewrite IH. f_equal. apply filter_swap.
  - rewrite IH. symmetry. apply filter_without. exact Hp.
Qed.

Lemma first_met_in (l : list string) (x : string) :
  In x (first_met l) <-> In x l.
Proof.
  induction l as [| a l IH]; simpl; [tauto |].
  rewrite filter_In, IH. split.
  - intros [H | [H _]]; auto.
  - intros [H | H]; [auto |].
    destruct (String.eqb x a) eqn:E.
    + apply String.eqb_eq in E. auto.
    + right. auto.
Qed.

Lemma first_met_nodup (l : list string) : NoDup (first_met l).
Proof.
  induction l as [| a l IH]; simpl; constructor.
  - rewrite filter_In, String.eqb_refl. intros [_ H]. discriminate H.
  - apply NoDup_filter. exact IH.
Qed.

Lemma keys_counter_add (x : string) (c : KeywordExtractor.counts) :
  map fst (KeywordExtractor.counter_add x c)
  = if Str.mem x (map fst c) then map fst c else map fst c ++ [x].
Proof.
  unfold Str.mem. induction c as [| [k n] c IH]; simpl; [reflexivity |].
  rewrite (String.eqb_sym x k).
  destruct (String.eqb k x); simpl; [reflexivity |].
  rewrite IH. destruct (existsb (String.eqb x) (map fst c)); reflexivity.
Qed.

Lemma filter_not_mem_snoc (keys : list string) (x : string) (l : list string) :
  filter (fun y => negb (Str.mem y (keys ++ [x]))) l
  = filter (fun y => negb (String.eqb y x))
      (filter (fun y => negb (Str.mem y keys)) l).
Proof.
  unfold Str.mem. induction l as [| y l IH]; simpl; [reflexivity |].
  rewrite existsb_app. simpl. rewrite orb_false_r.
  destruct (existsb (String.eqb y) keys); simpl; [exact IH |].
  destruct (String.eqb y x); simpl; rewrite IH; reflexivity.
Qed.

(** The keys of a counter that goes on counting [l]: its old keys, then the
    new tokens of [l] in the order in which they are first met. *)
Lemma keys_fold (l : list string) (c : KeywordExtractor.counts) :
  map fst (fold_left (fun c x => KeywordExtractor.counter_add x c) l c)
  = map fst c ++ first_met (filter (fun y => negb (Str.mem y (map fst c))) l).
Proof.
  revert c. induction l as [| x l IH]; intros c; simpl.
  - rewrite app_nil_r. reflexivity.
  - rewrite IH, keys_counter_add.
    destruct (Str.mem x (map fst c)) eqn:Hx; simpl; [reflexivity |].
    rewrite <- app_assoc. simpl. do 2 f_equal.
    rewrite filter_not_mem_snoc. apply first_met_filter.
Qed.

(** The keys of [Counter(l)] are the distinct tokens of [l] in the order in
    which they are first met. *)
Lemma Counter_keys (l : list string) :
  map fst (KeywordExtractor.Counter l) = first_met l.
Proof.
  unfold KeywordExtractor.Counter. rewrite keys_fold. simpl.
  rewrite filter_true. reflexivity.
Qed.

(** The sort is stable: the items of one count keep their order. *)
Lemma insert_desc_stable (v : nat) (x : string * nat) (l : KeywordExtractor.counts) :
  filter (fun it => Nat.eqb (snd it) v) (KeywordExtractor.insert_desc x l)
  = filter (fun it => Nat.eqb (snd it) v) (x :: l).
Proof.
  induction l as [| y l IH]; [reflexivity |].
  cbn [KeywordExtractor.insert_desc].
  destruct (Nat.ltb (snd x) (snd y)) eqn:Hlt; [| reflexivity].
  apply Nat.ltb_lt in Hlt. cbn [filter] in IH |- *. rewrite IH.
  destruct (Nat.eqb (snd y) v) eqn:Hy, (Nat.eqb (snd x) v) eqn:Hx; try reflexivity.
  apply Nat.eqb_eq in Hy, Hx. lia.
Qed.

Lemma sorted_desc_stable (v : nat) (c : KeywordExtractor.counts) :
  filter (fun it => Nat.eqb (snd it) v) (KeywordExtractor.sorted_desc c)
  = filter (fun it => Nat.eqb (snd it) v) c.
Proof.
  induction c as [| x c IH]; [reflexivity |].
  cbn [KeywordExtractor.sorted_desc fold_right].
  fold (KeywordExtractor.sorted_desc c).
  rewrite insert_desc_stable. cbn [filter]. rewrite IH. reflexivity.
Qed.

(** Filtering items by their count is filtering their keys by frequency,
    when every count is the frequency of its key. *)
Lemma keys_of_one_count (l : list string) (v : nat) (items : KeywordExtractor.counts) :
  (forall k n, In (k, n) items -> n = frequency k l) ->
  map fst (filter (fun it => Nat.eqb (snd it) v) items)
  = filter (fun k => Nat.eqb (frequency k l) v) (map fst items).
Proof.
  induction items as [| [k n] items IH]; intros H; [reflexivity |].
  cbn [filter map fst snd].
  rewrite <- (H k n (or_introl eq_refl)).
  rewrite <- IH by (intros k' n' Hin; apply H; right; exact Hin).
  destruct (Nat.eqb n v); reflexivity.
Qed.

(** The extractor returns the first items of the ranking. *)
Lemma top_is_ranking_prefix (n : Z) (l : list string) :
  KeywordExtractor.top n l = firstn (Z.to_nat n) (ranking l).
Proof.
  unfold KeywordExtractor.top, KeywordExtractor.most_common, ranking.
  symmetry. apply firstn_map.
Qed.

Lemma ranking_facts (l : list string) :
  List.length (ranking l) = List.length (first_met l) /\
  (forall x, In x (ranking l) <-> In x l) /\
  by_decreasing_frequency l (ranking l) /\
  (forall v,
      filter (fun k => Nat.eqb (frequency k l) v) (ranking l)
      = filter (fun k => Nat.eqb (frequency k l) v) (first_met l)).
Proof.
  destruct (Counter_spec l) as [Hnodup Hitems].
  pose proof (sorted_desc_perm (KeywordExtractor.Counter l)) as Hperm.
  assert (Hkeys : Permutation (ranking l) (first_met l)).
  { unfold ranking. rewrite <- Counter_keys. apply Permutation_map. exact Hperm. }
  assert (Hfreq : forall k n,
             In (k, n) (KeywordExtractor.sorted_desc (KeywordExtractor.Counter l)) ->
             n = frequency k l).
  { intros k n H. apply (Permutation_in _ Hperm) in H.
    exact (proj1 (Hitems k n H)). }
  split; [exact (Permutation_length Hkeys) |].
  split.
  { intros x. split; intros H.
    - apply first_met_in. exact (Permutation_in _ Hkeys H).
    - apply first_met_in in H.
      exact (Permutation_in _ (Permutation_sym Hkeys) H). }
  split.
  { unfold ranking. apply keys_by_frequency; [exact Hfreq |].
    apply sorted_desc_sorted. }
  intros v. unfold ranking.
  rewrite <- (keys_of_one_count l v _ Hfreq), sorted_desc_stable.
  rewrite (keys_of_one_count l v _ (fun k n H => proj1 (Hitems k n H))).
  rewrite Counter_keys. reflexivity.
Qed.

Lemma sorted_app_inv {A} (R : A -> A -> Prop) (a b : list A) :
  StronglySorted R (a ++ b) -> forall x y, In x a -> In y b -> R x y.
Proof.
  induction a as [| h a IH]; simpl; intros Hs x y Hx Hy; [contradiction |].
  apply StronglySorted_inv in Hs. destruct Hs as [Hs Hall].
  destruct Hx as [<- | Hx].
  - rewrite Forall_forall in Hall. apply Hall. apply in_or_app. right. exact Hy.
  - exact (IH Hs x y Hx Hy).
Qed.

(** X10.  The extractor returns exactly as many keywords as asked for, or all
    the distinct candidates when there are fewer of them: it returns fewer
    than [count] keywords only when the text has fewer than [count] distinct
    qualifying tokens. *)
Theorem keyword_count_is_exact (w : World) (text : string) (count : Z) :
  exists keywords,
    KeywordExtractor.extract_keywords w text count = Ok keywords /\
    List.length keywords
    = Nat.min (Z.to_nat count)
              (List.length (first_met (KeywordExtractor.candidates w text))) /\
    NoDup (first_met (KeywordExtractor.candidates w text)) /\
    (forall x, In x (first_met (KeywordExtractor.candidates w text))
               <-> In x (KeywordExtractor.candidates w text)).
Proof.
  exists (KeywordExtractor.top count (KeywordExtractor.candidates w text)).
  split; [apply extract_keywords_ok |].
  split.
  { rewrite top_is_ranking_prefix, length_firstn.
    rewrite (proj1 (ranking_facts _)). reflexivity. }
  split; [apply first_met_nodup | apply first_met_in].
Qed.

(** X11.  The keywords returned are the most frequent candidates: a
    candidate that is not returned is never more frequent, among the
    candidates, than a keyword that is. *)
Theorem keywords_are_the_most_frequent (w : World) (text : string) (count : Z) :
  exists keywords,
    KeywordExtractor.extract_keywords w text count = Ok keywords /\
    forall k x,
      In k keywords ->
      In x (KeywordExtractor.candidates w text) ->
      ~ In x keywords ->
      frequency x (KeywordExtractor.candidates w text)
      <= frequency k (KeywordExtractor.candidates w text).
Proof.
  set (l := KeywordExtractor.candidates w text).
  exists (KeywordExtractor.top count l).
  split; [apply extract_keywords_ok |].
  intros k x Hk Hx Hnot.
  rewrite top_is_ranking_prefix in Hk, Hnot.
  destruct (ranking_facts l) as [_ [Hin [Hsorted _]]].
  apply Hin in Hx. rewrite <- (firstn_skipn (Z.to_nat count) (ranking l)) in Hx.
  apply in_app_or in Hx. destruct Hx as [Hx | Hx]; [contradiction |].
  unfold by_decreasing_frequency in Hsorted.
  rewrite <- (firstn_skipn (Z.to_nat count) (ranking l)) in Hsorted.
  exact (sorted_app_inv _ _ _ Hsorted k x Hk Hx).
Qed.

(** X12.  Ties are broken by the order of first appearance: the keywords are
    the first [count] tokens of a ranking in which the tokens of any one
    frequency stand in the order in which the candidates first show them. *)
Theorem ties_keep_first_met_order (w : World) (text : string) (count : Z) :
  exists keywords,
    KeywordExtractor.extract_keywords w text count = Ok keywords /\
    keywords = firstn (Z.to_nat count) (ranking (KeywordExtractor.candidates w text)) /\
    forall v,
      filter (fun k => Nat.eqb (frequency k (KeywordExtractor.candidates w text)) v)
             (ranking (KeywordExtractor.candidates w text))
      = filter (fun k => Nat.eqb (frequency k (KeywordExtractor.candidates w text)) v)
               (first_met (KeywordExtractor.candidates w text)).
Proof.
  exists (KeywordExtractor.top count (KeywordExtractor.candidates w text)).
  split; [apply extract_keywords_ok |].
  split; [apply top_is_ranking_prefix | apply ranking_facts].
Qed.

(** X13.  When tokenizing or tagging raises, the extractor does not raise:
    it ranks the words that the pattern of at least three letters between
    word boundaries finds in the lower-cased text and that are not
    stopwords. *)
Theorem pattern_path_candidates (w : World) (text : string) (count : Z) (e : exn) :
  KeywordExtractor.nouns w text = Raise e ->
  KeywordExtractor.extract_keywords w text count
  = Ok (firstn (Z.to_nat count) (ranking (KeywordExtractor.candidates w text))) /\
  forall k,
    In k (KeywordExtractor.candidates w text) <->
    word_match (Str.lower text) k /\
    Str.mem k (KeywordExtractor.stop_words w) = false.
Proof.
  intros H. split.
  - rewrite extract_keywords_ok, top_is_ranking_prefix. reflexivity.
  - intros k. unfold KeywordExtractor.candidates. rewrite H. apply words_spec.
Qed.

Lemma pattern_path_candidates_witness :
  KeywordExtractor.extract_keywords Samples.offline "The cat and the dog, the CAT" 2
  = Ok (firstn 2 (ranking (KeywordExtractor.candidates Samples.offline
                             "The cat and the dog, the CAT"))) /\
  forall k,
    In k (KeywordExtractor.candidates Samples.offline "The cat and the dog, the CAT") <->
    word_match (Str.lower "The cat and the dog, the CAT") k /\
    Str.mem k (KeywordExtractor.stop_words Samples.offline) = false.
Proof.
  apply (pattern_path_candidates Samples.offline "The cat and the dog, the CAT" 2
           (MkExn LookupError "Resource punkt not found.")).
  reflexivity.
Defined.

(* ================================================================== *)
(** * Properties of [serializers.py] *)

Lemma blank_iff (text : string) :
  Serializers.blank text = true <-> Str.strip text = "".
Proof. apply empty_input_test. Qed.

Lemma not_blank_iff (text : string) :
  Serializers.blank text = false <-> Str.strip text <> "".
Proof.
  rewrite <- blank_iff. destruct (Serializers.blank text); split; congruence.
Qed.

(** The orchestration never raises its empty-input error on a text that is
    not empty after trimming. *)
Lemma not_refused_as_empty (w : World) (text : string) :
  Str.strip text <> "" ->
  outcome (analyze_text_complete w text) <> Raise empty_input_error.
Proof.
  intros Hne H. apply empty_input_error_iff in H. contradiction.
Qed.

(** X14.  [validate_text] refuses, with "Text cannot be empty", exactly the
    values that are empty after trimming, and returns every other value
    trimmed.  What it returns it would accept again unchanged, and the
    orchestration never raises its empty-input error on it. *)
Theorem validate_text_trims (value : string) :
  (Str.strip value = "" ->
   Serializers.validate_text value
   = Raise (Serializers.ValidationError "Text cannot be empty")) /\
  (Str.strip value <> "" ->
   Serializers.validate_text value = Ok (Str.strip value) /\
   Serializers.validate_text (Str.strip value) = Ok (Str.strip value) /\
   forall w, outcome (analyze_text_complete w (Str.strip value))
             <> Raise empty_input_error).
Proof.
  unfold Serializers.validate_text. split.
  - intros H. apply blank_iff in H. rewrite H. reflexivity.
  - intros H.
    assert (H' : Str.strip (Str.strip value) <> "")
      by (rewrite strip_idempotent; exact H).
    rewrite (proj2 (not_blank_iff value) H), (proj2 (not_blank_iff _) H').
    rewrite strip_idempotent.
    split; [reflexivity |]. split; [reflexivity |].
    intros w. apply not_refused_as_empty. exact H'.
Qed.

Lemma validate_text_trims_witness :
  Serializers.validate_text "   " = Raise (Serializers.ValidationError "Text cannot be empty") /\
  Serializers.validate_text "  hello world " = Ok "hello world" /\
  Serializers.validate_text "hello world" = Ok "hello world".
Proof.
  split.
  - apply (proj1 (validate_text_trims "   ")). reflexivity.
  - destruct (proj2 (validate_text_trims "  hello world ")) as [H1 [H2 _]].
    + vm_compute. discriminate.
    + split; [exact H1 | exact H2].
Defined.

Lemma check_texts_ok (value : list string) :
  Forall (fun text => Str.strip text <> "") value ->
  Serializers.check_texts value = Ok tt.
Proof.
  induction 1 as [| text rest Ht _ IH]; simpl; [reflexivity |].
  rewrite (proj2 (not_blank_iff text) Ht). exact IH.
Qed.

Lemma check_texts_blank (value : list string) :
  Exists (fun text => Str.strip text = "") value ->
  Serializers.check_texts value
  = Raise (Serializers.ValidationError "All texts must be non-empty").
Proof.
  induction 1 as [text rest Ht | text rest _ IH]; simpl.
  - apply blank_iff in Ht. rewrite Ht. reflexivity.
  - destruct (Serializers.blank text); [reflexivity | exact IH].
Qed.

(** X15.  [validate_texts] refuses the empty list with "At least one text
    must be provided" and a list that holds a text empty after trimming with
    "All texts must be non-empty"; it accepts every other list and returns it
    as it is, the texts not trimmed.  Every text of an accepted list passes
    the empty-input test of the orchestration. *)
Theorem validate_texts_accepts (value : list string) :
  (value = [] ->
   Serializers.validate_texts value
   = Raise (Serializers.ValidationError "At least one text must be provided")) /\
  (Exists (fun text => Str.strip text = "") value ->
   Serializers.validate_texts value
   = Raise (Serializers.ValidationError "All texts must be non-empty")) /\
  (value <> [] -> Forall (fun text => Str.strip text <> "") value ->
   Serializers.validate_texts value = Ok value) /\
  (forall accepted,
      Serializers.validate_texts value = Ok accepted ->
      accepted = value /\ value <> [] /\
      forall text w, In text value ->
                     outcome (analyze_text_complete w text) <> Raise empty_input_error).
Proof.
  split; [| split; [| split]].
  - intros ->. reflexivity.
  - intros H. unfold Serializers.validate_texts.
    destruct value as [| t rest]; [inversion H |].
    rewrite (check_texts_blank _ H). reflexivity.
  - intros Hne H. unfold Serializers.validate_texts.
    destruct value as [| t rest]; [contradiction |].
    rewrite (check_texts_ok _ H). reflexivity.
  - intros accepted H. unfold Serializers.validate_texts in H.
    destruct value as [| t rest]; [discriminate H |].
    destruct (Serializers.check_texts (t :: rest)) as [[] | e] eqn:Hc;
      simpl in H; [| discriminate H].
    inversion H. split; [reflexivity |]. split; [discriminate |].
    intros text w Hin. apply not_refused_as_empty.
    intros Hblank.
    assert (Hex : Exists (fun text => Str.strip text = "") (t :: rest)).
    { apply Exists_exists. exists text. auto. }
    rewrite (check_texts_blank _ Hex) in Hc. discriminate Hc.
Qed.

Lemma validate_texts_accepts_witness :
  Serializers.validate_texts ["  hello world "; "good bye"]
  = Ok ["  hello world "; "good bye"] /\
  Serializers.validate_texts ["hello"; "  "]
  = Raise (Serializers.ValidationError "All texts must be non-empty").
Proof.
  split.
  - apply (proj1 (proj2 (proj2 (validate_texts_accepts ["  hello world "; "good bye"])))).
    + discriminate.
    + repeat constructor; vm_compute; discriminate.
  - apply (proj1 (proj2 (validate_texts_accepts ["hello"; "  "]))).
    right. left. reflexivity.
Defined.

(* ================================================================== *)
(** * Properties of [views.py] *)

(** The fields of the row created for a returned analysis: the text, then
    the seven fields of the analysis. *)
Lemma create_fields_combine (text : string) (d : dict) (keywords : list string)
    (score : F64.float) (m : string) :
  Views.create_fields text (combine_results d keywords score m)
  = Ok (("original_text", PyStr text) :: combine_results d keywords score m).
Proof. reflexivity. Qed.

Lemma create_fields_returned (w : World) (text : string) (r : dict) :
  outcome (analyze_text_complete w text) = Ok r ->
  Views.create_fields text r = Ok (("original_text", PyStr text) :: r).
Proof.
  intros H. destruct (orchestration_inv w text r H) as [_ [d [m [base [_ [_ ->]]]]]].
  apply create_fields_combine.
Qed.

Lemma analyze_and_save_trace (w : World) (b : Views.Backend) (rows : list dict)
    (text : string) :
  fst (Views.analyze_and_save w b rows text) = trace (analyze_text_complete w text).
Proof.
  unfold Views.analyze_and_save, trace.
  destruct (analyze_text_complete w text) as [t r]. reflexivity.
Qed.

(** Saving fails with the exception of the analysis, or with the one of the
    database; it succeeds with the row the database made of the text and the
    analysis. *)
Lemma analyze_and_save_outcome (w : World) (b : Views.Backend) (rows : list dict)
    (text : string) :
  snd (Views.analyze_and_save w b rows text)
  = match outcome (analyze_text_complete w text) with
    | Ok r => Views.objects_create b rows (("original_text", PyStr text) :: r)
    | Raise e => Raise e
    end.
Proof.
  pose proof (create_fields_returned w text) as Hc.
  unfold Views.analyze_and_save, outcome in *.
  destruct (analyze_text_complete w text) as [t [r | e]]; simpl in *; [| reflexivity].
  rewrite (Hc r eq_refl). reflexivity.
Qed.

Lemma core_events_app (l1 l2 : list Views.io) :
  core_events (l1 ++ l2) = core_events l1 ++ core_events l2.
Proof. apply flat_map_app. Qed.

Lemma core_events_core (t : list event) : core_events (map Views.Core t) = t.
Proof.
  induction t as [| ev t IH]; simpl; [reflexivity |]. f_equal. exact IH.
Qed.

Lemma requests_app (t1 t2 : list event) :
  requests (t1 ++ t2) = requests t1 + requests t2.
Proof. unfold requests. rewrite filter_app, length_app. reflexivity. Qed.

Lemma not_logged_core (t : list event) (line : string) :
  ~ In (Views.Logged line) (map Views.Core t).
Proof.
  intros H. apply in_map_iff in H. destruct H as [ev [H _]]. discriminate H.
Qed.

Lemma valid_text_inv (b : Views.Backend) (request_data : pyval) (text : string) :
  Views.valid_text b request_data = Ok text ->
  Str.strip text = text /\ text <> "".
Proof.
  unfold Views.valid_text, Serializers.validate_text.
  destruct (Views.text_field b request_data) as [value | e]; simpl; [| discriminate].
  destruct (Serializers.blank value) eqn:Hb; [discriminate |].
  intros H. inversion H. apply not_blank_iff in Hb.
  split; [apply strip_idempotent | exact Hb].
Qed.

(** The only exceptions the analysis of a text that is not empty lets
    through are not caught by [except ValueError]. *)
Lemma analysis_error_not_ValueError (w : World) (b : Views.Backend) (text : string)
    (e : exn) :
  Str.strip text <> "" ->
  outcome (analyze_text_complete w text) = Raise e ->
  Views.is_ValueError b e = false.
Proof.
  intros Hne H.
  destruct (extractor_cases w) as [Hk | [message [_ Hk]]].
  - destruct (orchestration_returns_or_scorer_error w text Hne Hk)
      as [d [m [_ [[_ [base Hok]] | [_ [e' [He Hkind]]]]]]].
    + rewrite Hok in H. discriminate H.
    + rewrite He in H. inversion H. subst e'. unfold Views.is_ValueError.
      destruct Hkind as [-> | ->]; reflexivity.
  - rewrite (orchestration_no_extractor w text _ Hne Hk) in H.
    inversion H. reflexivity.
Qed.

(** With the keyword extractor built and a scorable object parsed from the
    reply of this call, if any, the analysis returns. *)
Lemma analysis_returns (w : World) (text : string) :
  Str.strip text <> "" ->
  KeywordExtractor.init w = ([], Ok tt) ->
  parsed_reply_scorable w text ->
  exists r, outcome (analyze_text_complete w text) = Ok r.
Proof.
  intros Hne Hk Hw.
  destruct (orchestration_returns_or_scorer_error w text Hne Hk)
    as [d [m [Hrun [[_ [base Hok]] | [Hs _]]]]].
  - eexists. exact Hok.
  - rewrite (analyzer_output_scorable w text d m Hw Hrun) in Hs. discriminate Hs.
Qed.

(** X16.  The view [analyze_text] answers 201, 400 or 500 and nothing else.
    With 201 the table has grown by exactly one row, the one the response
    shows; with 400 and with 500 the table is unchanged.  A line is logged
    only with 500, and the response then carries the fixed message "Failed
    to analyze text. Please try again." while the text of the exception goes
    to the log.  One request to the view sends at most one request to the
    service. *)
Theorem analyze_view_responses (w : World) (b : Views.Backend) (rows : list dict)
    (request_data : pyval) (rows' : list dict) (log : list Views.io)
    (resp : Views.Response) :
  Views.analyze_text w b rows request_data = (rows', log, resp) ->
  ((Views.status resp = 201 /\
    (exists row, rows' = rows ++ [row] /\ Views.data resp = Views.serializer_data b row) /\
    forall line, ~ In (Views.Logged line) log) \/
   (Views.status resp = 400 /\ rows' = rows /\
    forall line, ~ In (Views.Logged line) log) \/
   (Views.status resp = 500 /\ rows' = rows /\
    Views.data resp = Views.error_body "Failed to analyze text. Please try again." /\
    exists e, forall line,
        In (Views.Logged line) log
        <-> line = ("Error analyzing text: " ++ exn_str e)%string)) /\
  requests (core_events log) <= 1.
Proof.
  unfold Views.analyze_text. intros H.
  destruct (Views.valid_text b request_data) as [text | e].
  - pose proof (analyze_and_save_trace w b rows text) as Ht.
    pose proof (at_most_one_request w text) as Hreq.
    destruct (Views.analyze_and_save w b rows text) as [t r]. simpl in Ht.
    rewrite <- Ht in Hreq. clear Ht.
    destruct r as [analysis | e].
    + inversion H. subst. simpl. split.
      * left. split; [reflexivity |]. split; [eauto |].
        intros line. apply not_logged_core.
      * rewrite core_events_core. exact Hreq.
    + destruct (Views.is_ValueError b e); inversion H; subst; simpl; split.
      * right. left. split; [reflexivity |]. split; [reflexivity |].
        intros line. apply not_logged_core.
      * rewrite core_events_core. exact Hreq.
      * right. right. split; [reflexivity |]. split; [reflexivity |].
        split; [reflexivity |]. exists e. intros line. rewrite in_app_iff. split.
        -- intros [Hin | [Hin | []]].
           ++ exfalso. exact (not_logged_core _ _ Hin).
           ++ inversion Hin. reflexivity.
        -- intros ->. right. left. reflexivity.
      * rewrite core_events_app, core_events_core. simpl. rewrite app_nil_r.
        exact Hreq.
  - inversion H. subst. simpl. split.
    + right. left. split; [reflexivity |]. split; [reflexivity |]. intros line [].
    + unfold requests. simpl. lia.
Qed.

Lemma analyze_view_responses_witness :
  exists row,
    fst (fst (Views.analyze_text Samples.offline ViewSamples.backend []
                (PyDict [("text", PyStr "  hello world ")])))
    = [] ++ [row].
Proof.
  destruct (Views.analyze_text Samples.offline ViewSamples.backend []
              (PyDict [("text", PyStr "  hello world ")]))
    as [[rows' log] resp] eqn:H.
  assert (Hst : Views.status resp = 201).
  { change resp with (snd (rows', log, resp)). rewrite <- H. reflexivity. }
  destruct (analyze_view_responses _ _ _ _ _ _ _ H) as [[H1 | [H1 | H1]] _].
  - destruct H1 as [_ [[row [Hrow _]] _]]. exists row. exact Hrow.
  - exfalso. destruct H1 as [H1 _]. rewrite Hst in H1. discriminate H1.
  - exfalso. destruct H1 as [H1 _]. rewrite Hst in H1. discriminate H1.
Defined.

(** X17.  For a request that passes validation the text analysed and saved
    is the trimmed one, and: the response is 400 only when the database
    refuses the row with an exception that is a [ValueError], never because
    of the analysis; a failure of the analysis (the scorer on an unscorable
    reply, the keyword extractor without its corpus) is answered 500 with the
    fixed message, its text only logged; with 201 the saved row was made of
    the text and the seven fields of the analysis; and the response is 201,
    whether the service answers or not, when the keyword extractor is built,
    the object parsed from the reply to this text, if any, is scorable, and
    the database accepts the row made of this text and its analysis. *)
Theorem valid_request_outcomes (w : World) (b : Views.Backend) (rows : list dict)
    (request_data : pyval) (text : string) (rows' : list dict)
    (log : list Views.io) (resp : Views.Response) :
  Views.valid_text b request_data = Ok text ->
  Views.analyze_text w b rows request_data = (rows', log, resp) ->
  Str.strip text = text /\
  (Views.status resp = 400 ->
   exists r e,
     outcome (analyze_text_complete w text) = Ok r /\
     Views.objects_create b rows (("original_text", PyStr text) :: r) = Raise e /\
     Views.is_ValueError b e = true /\
     Views.data resp = Views.error_body (exn_str e)) /\
  (forall e,
      outcome (analyze_text_complete w text) = Raise e ->
      resp = {| Views.data := Views.error_body "Failed to analyze text. Please try again.";
                Views.status := 500 |} /\
      rows' = rows /\
      log = map Views.Core (trace (analyze_text_complete w text))
            ++ [Views.Logged ("Error analyzing text: " ++ exn_str e)%string]) /\
  (Views.status resp = 201 ->
   exists r row,
     outcome (analyze_text_complete w text) = Ok r /\
     Views.objects_create b rows (("original_text", PyStr text) :: r) = Ok row /\
     rows' = rows ++ [row] /\
     Views.data resp = Views.serializer_data b row) /\
  (KeywordExtractor.init w = ([], Ok tt) ->
   parsed_reply_scorable w text ->
   (forall r,
       outcome (analyze_text_complete w text) = Ok r ->
       exists row,
         Views.objects_create b rows (("original_text", PyStr text) :: r) = Ok row) ->
   Views.status resp = 201).
Proof.
  intros Hv H. destruct (valid_text_inv b request_data text Hv) as [Hs Hne].
  split; [exact Hs |].
  assert (Hne' : Str.strip text <> "") by (rewrite Hs; exact Hne).
  unfold Views.analyze_text in H. rewrite Hv in H.
  pose proof (analyze_and_save_trace w b rows text) as Ht.
  pose proof (analyze_and_save_outcome w b rows text) as Ho.
  destruct (Views.analyze_and_save w b rows text) as [t r]. simpl in Ht, Ho.
  subst t.
  destruct (outcome (analyze_text_complete w text)) as [r0 | e0] eqn:Hcore.
  - destruct r as [row | e].
    + inversion H. subst. simpl.
      split; [discriminate |]. split; [discriminate |].
      split; [| reflexivity]. intros _. exists r0, row. auto.
    + destruct (Views.is_ValueError b e) eqn:Hve; inversion H; subst; simpl.
      * split; [| split; [discriminate | split; [discriminate |]]].
        -- intros _. exists r0, e. auto.
        -- intros _ _ Hdb. destruct (Hdb r0 eq_refl) as [row Hrow]. congruence.
      * split; [discriminate | split; [discriminate | split; [discriminate |]]].
        intros _ _ Hdb. destruct (Hdb r0 eq_refl) as [row Hrow]. congruence.
  - subst r.
    rewrite (analysis_error_not_ValueError w b text e0 Hne' Hcore) in H.
    inversion H. subst. simpl.
    split; [discriminate |]. split.
    + intros e He. inversion He. auto.
    + split; [discriminate |].
      intros Hk Hw _. destruct (analysis_returns w text Hne' Hk Hw) as [r Hr].
      congruence.
Qed.

Lemma valid_request_outcomes_witness :
  Views.status
    (snd (Views.analyze_text Parsers.world_full_reply ViewSamples.backend []
            (PyDict [("text", PyStr "  hello world ")])))
  = 201.
Proof.
  destruct (Views.analyze_text Parsers.world_full_reply ViewSamples.backend []
              (PyDict [("text", PyStr "  hello world ")]))
    as [[rows' log] resp] eqn:H.
  refine (proj2 (proj2 (proj2 (proj2
    (valid_request_outcomes Parsers.world_full_reply ViewSamples.backend []
       (PyDict [("text", PyStr "  hello world ")]) "hello world" rows' log resp
       _ H)))) _ _ _).
  - reflexivity.
  - reflexivity.
  - intros reply j v Hc Hs Hj. simpl in Hc. inversion Hc. subst reply.
    vm_compute in Hs. inversion Hs. subst j.
    vm_compute in Hj. inversion Hj. reflexivity.
  - intros r _. eexists. reflexivity.
Defined.

(** ** The batch view *)

Lemma length_shortened (text : string) :
  String.length (Views.shortened text) <= 103 /\
  (String.length text <= 100 -> Views.shortened text = text) /\
  (100 < String.length text ->
   Views.shortened text = (Str.take 100 text ++ "...")%string /\
   String.length (Views.shortened text) = 103).
Proof.
  unfold Views.shortened.
  destruct (Nat.ltb 100 (String.length text)) eqn:Hlt.
  - apply Nat.ltb_lt in Hlt.
    assert (Hl : String.length (Str.take 100 text ++ "...") = 103).
    { rewrite length_append, length_take.
      change (String.length "...") with 3. lia. }
    rewrite Hl. split; [lia |]. split; [lia | auto].
  - apply Nat.ltb_ge in Hlt. split; [lia |]. split; [reflexivity | lia].
Qed.

(** What the loop has done when it ends, whatever it started from: the new
    rows are the new analyses, every text gave one analysis or one entry of
    [errors], each entry tells the index and the exception of its text, every
    failure was logged, and no text cost more than one request. *)
Lemma batch_loop_inv (w : World) (b : Views.Backend) (texts : list string) :
  forall (i : nat) (st : Views.Batch),
  exists (news : list dict) (errs : list pyval),
    Views.analyses (Views.batch_loop w b i texts st) = Views.analyses st ++ news /\
    Views.table (Views.batch_loop w b i texts st) = Views.table st ++ news /\
    Views.errors (Views.batch_loop w b i texts st) = Views.errors st ++ errs /\
    List.length news + List.length errs = List.length texts /\
    requests (core_events (Views.done (Views.batch_loop w b i texts st)))
    <= requests (core_events (Views.done st)) + List.length texts /\
    Forall (fun entry =>
              exists k text e rows_then,
                nth_error texts k = Some text /\
                snd (Views.analyze_and_save w b rows_then text) = Raise e /\
                entry = Views.error_entry (i + k) text e /\
                In (Views.Logged ("Error analyzing text " ++ decimal (i + k + 1)
                                  ++ ": " ++ exn_str e)%string)
                   (Views.done (Views.batch_loop w b i texts st)))
           errs /\
    (forall x, In x (Views.done st) ->
               In x (Views.done (Views.batch_loop w b i texts st))).
Proof.
  induction texts as [| text rest IH]; intros i st; simpl.
  - exists [], []. rewrite !app_nil_r. repeat split; auto. lia.
  - destruct (IH (S i) (Views.batch_step w b i text st))
      as [news [errs [Ha [Ht [He [Hn [Hr [Hf Hd]]]]]]]].
    set (final := Views.batch_loop w b (S i) rest (Views.batch_step w b i text st)) in *.
    pose proof (analyze_and_save_trace w b (Views.table st) text) as Htr.
    pose proof (at_most_one_request w text) as Hreq.
    assert (Hshift : Forall (fun entry =>
              exists k text0 e rows_then,
                nth_error (text :: rest) k = Some text0 /\
                snd (Views.analyze_and_save w b rows_then text0) = Raise e /\
                entry = Views.error_entry (i + k) text0 e /\
                In (Views.Logged ("Error analyzing text " ++ decimal (i + k + 1)
                                  ++ ": " ++ exn_str e)%string)
                   (Views.done final)) errs).
    { eapply Forall_impl; [| exact Hf]. intros entry [k [t0 [e [rt [H1 [H2 [H3 H4]]]]]]].
      exists (S k), t0, e, rt. replace (i + S k) with (S i + k) by lia. auto. }
    unfold Views.batch_step in Ha, Ht, He, Hr, Hd.
    destruct (Views.analyze_and_save w b (Views.table st) text) as [t r] eqn:Hsave.
    simpl in Htr. rewrite <- Htr in Hreq.
    destruct r as [analysis | e]; simpl in Ha, Ht, He, Hr, Hd.
    + exists (analysis :: news), errs.
      rewrite Ha, Ht, He, <- !app_assoc. simpl.
      split; [reflexivity |]. split; [reflexivity |]. split; [reflexivity |].
      split; [lia |]. split.
      * rewrite core_events_app, core_events_core, requests_app in Hr. lia.
      * split; [exact Hshift |].
        intros x Hx. apply Hd. apply in_or_app. left. exact Hx.
    + exists news, (Views.error_entry i text e :: errs).
      rewrite Ha, Ht, He, <- !app_assoc. simpl.
      split; [reflexivity |]. split; [reflexivity |]. split; [reflexivity |].
      split; [lia |]. split.
      * rewrite !core_events_app, core_events_core, !requests_app in Hr.
        match type of Hr with
        | context [requests (core_events [?x])] =>
            change (requests (core_events [x])) with 0 in Hr
        end.
        lia.
      * split.
        -- constructor; [| exact Hshift].
           exists 0, text, e, (Views.table st). rewrite Nat.add_0_r.
           split; [reflexivity |]. split; [rewrite Hsave; reflexivity |].
           split; [reflexivity |].
           apply Hd. apply in_or_app. right. apply in_or_app. right. left. reflexivity.
        -- intros x Hx. apply Hd. apply in_or_app. left. exact Hx.
Qed.

Lemma valid_texts_inv (b : Views.Backend) (request_data : pyval)
    (texts : list string) :
  Views.valid_texts b request_data = Ok texts ->
  texts <> [] /\ Forall (fun text => Str.strip text <> "") texts.
Proof.
  unfold Views.valid_texts.
  destruct (Views.texts_field b request_data) as [value | e]; simpl; [| discriminate].
  intros H. unfold Serializers.validate_texts in H.
  destruct value as [| t rest]; [discriminate H |].
  destruct (Serializers.check_texts (t :: rest)) as [[] | e] eqn:Hc;
    simpl in H; [| discriminate H].
  inversion H. subst texts. split; [discriminate |].
  apply Forall_forall. intros text Hin Hblank.
  assert (Hex : Exists (fun text => Str.strip text = "") (t :: rest)).
  { apply Exists_exists. exists text. auto. }
  rewrite (check_texts_blank _ Hex) in Hc. discriminate Hc.
Qed.

(** With the keyword extractor built, scorable replies to the texts and a
    database that accepts their rows on the table as the batch extends it,
    every text of a batch is saved. *)
Lemma batch_loop_all_saved (w : World) (b : Views.Backend) (rows : list dict)
    (texts : list string) :
  KeywordExtractor.init w = ([], Ok tt) ->
  Forall (fun text =>
            Str.strip text <> "" /\
            parsed_reply_scorable w text /\
            forall saved r,
              outcome (analyze_text_complete w text) = Ok r ->
              exists row,
                Views.objects_create b (rows ++ saved)
                  (("original_text", PyStr text) :: r)
                = Ok row)
         texts ->
  forall (i : nat) (st : Views.Batch),
  (exists saved, Views.table st = rows ++ saved) ->
  exists news : list dict,
    Views.analyses (Views.batch_loop w b i texts st) = Views.analyses st ++ news /\
    Views.table (Views.batch_loop w b i texts st) = Views.table st ++ news /\
    Views.errors (Views.batch_loop w b i texts st) = Views.errors st /\
    Forall2 (fun text row =>
               exists (r : dict) (saved : list dict),
                 outcome (analyze_text_complete w text) = Ok r /\
                 Views.objects_create b (rows ++ saved)
                   (("original_text", PyStr text) :: r)
                 = Ok row)
            texts news.
Proof.
  intros Hk Hall.
  induction Hall as [| text rest [Hne [Hw Hdb]] _ IH]; intros i st [saved Hst]; simpl.
  - exists []. rewrite !app_nil_r. repeat split; auto.
  - pose proof (analyze_and_save_outcome w b (Views.table st) text) as Ho.
    destruct (analysis_returns w text Hne Hk Hw) as [r0 Hr0].
    rewrite Hr0, Hst in Ho.
    destruct (Hdb saved r0 Hr0) as [row Hrow].
    rewrite Hrow, <- Hst in Ho.
    assert (Hstep : Views.batch_step w b i text st
                    = {| Views.table := Views.table st ++ [row];
                         Views.done := Views.done st
                                       ++ map Views.Core
                                            (fst (Views.analyze_and_save w b
                                                    (Views.table st) text));
                         Views.analyses := Views.analyses st ++ [row];
                         Views.errors := Views.errors st |}).
    { unfold Views.batch_step.
      destruct (Views.analyze_and_save w b (Views.table st) text) as [t r].
      simpl in Ho. subst r. reflexivity. }
    rewrite Hstep.
    match goal with
    | |- context [Views.batch_loop w b (S i) rest ?st'] =>
        destruct (IH (S i) st') as [news [Ha [Ht [He Hf]]]]
    end.
    { exists (saved ++ [row]). simpl. rewrite Hst, app_assoc. reflexivity. }
    simpl in Ha, Ht, He.
    exists (row :: news). rewrite Ha, Ht, He, <- !app_assoc. simpl.
    repeat split; auto. constructor; [| exact Hf].
    exists r0, saved. auto.
Qed.

(** X18.  A batch that passes validation is always answered 201, also when
    every text fails.  Every text gives either one saved analysis or one
    entry of errors: success_count and error_count add up to
    total_requested, the number of texts, which is at least one;
    total_processed counts the successes only.  The table grows by exactly
    the saved analyses, in their order, and the response shows them.  The
    key errors is present exactly when some text failed.  The batch sends at
    most one request to the service per text. *)
Theorem batch_accounting (w : World) (b : Views.Backend) (rows : list dict)
    (request_data : pyval) (texts : list string) (rows' : list dict)
    (log : list Views.io) (resp : Views.Response) :
  Views.valid_texts b request_data = Ok texts ->
  Views.batch_analyze_texts w b rows request_data = (rows', log, resp) ->
  Views.status resp = 201 /\
  requests (core_events log) <= List.length texts /\
  exists (saved : list dict) (errs : list pyval) (body : dict),
    Views.data resp = PyDict body /\
    rows' = rows ++ saved /\
    List.length saved + List.length errs = List.length texts /\
    0 < List.length texts /\
    dict_get body "analyses" PyNone = PyList (map (Views.serializer_data b) saved) /\
    dict_get body "total_requested" PyNone = PyInt (Z.of_nat (List.length texts)) /\
    dict_get body "total_processed" PyNone = PyInt (Z.of_nat (List.length saved)) /\
    dict_get body "success_count" PyNone = PyInt (Z.of_nat (List.length saved)) /\
    dict_get body "error_count" PyNone = PyInt (Z.of_nat (List.length errs)) /\
    (errs = [] -> ~ In "errors" (map fst body)) /\
    (errs <> [] -> dict_get body "errors" PyNone = PyList errs).
Proof.
  intros Hv H. unfold Views.batch_analyze_texts in H. rewrite Hv in H.
  destruct (valid_texts_inv b request_data texts Hv) as [Hne _].
  destruct (batch_loop_inv w b texts 0
              {| Views.table := rows; Views.done := [];
                 Views.analyses := []; Views.errors := [] |})
    as [saved [errs [Ha [Ht [He [Hn [Hr _]]]]]]].
  simpl in Ha, Ht, He, Hr. inversion H. subst rows' log resp. clear H. simpl.
  split; [reflexivity |]. split; [exact Hr |].
  exists saved, errs. eexists. split; [reflexivity |].
  split; [exact Ht |]. split; [exact Hn |].
  split; [destruct texts; [contradiction | simpl; lia] |].
  unfold Views.batch_body. rewrite Ha, He. simpl.
  repeat (split; [reflexivity |]).
  split.
  - intros ->. simpl. intros [H | [H | [H | [H | [H | []]]]]]; discriminate H.
  - intros Herr. destruct errs; [contradiction | reflexivity].
Qed.

Lemma batch_accounting_witness :
  Views.status
    (snd (Views.batch_analyze_texts Samples.world_null_topics ViewSamples.backend []
            (PyDict [("texts", PyList [PyStr "hello world"; PyStr "good bye"])])))
  = 201.
Proof.
  destruct (Views.batch_analyze_texts Samples.world_null_topics ViewSamples.backend []
              (PyDict [("texts", PyList [PyStr "hello world"; PyStr "good bye"])]))
    as [[rows' log] resp] eqn:H.
  refine (proj1 (batch_accounting Samples.world_null_topics ViewSamples.backend []
                   (PyDict [("texts", PyList [PyStr "hello world"; PyStr "good bye"])])
                   ["hello world"; "good bye"] rows' log resp _ H)).
  reflexivity.
Defined.

(** X19.  Each entry of errors in the response of a batch belongs to one
    text of the request that failed: index is the position of the text
    counted from zero, text is the text itself when it has at most 100
    characters and otherwise its first 100 characters followed by three dots,
    error is the text of the exception.  The same exception is logged with
    the position counted from one.  So the batch view tells the client the
    text of the exception that the single view hides. *)
Theorem batch_error_entries (w : World) (b : Views.Backend) (rows : list dict)
    (request_data : pyval) (texts : list string) (rows' : list dict)
    (log : list Views.io) (resp : Views.Response) (body : dict) (errs : list pyval) :
  Views.valid_texts b request_data = Ok texts ->
  Views.batch_analyze_texts w b rows request_data = (rows', log, resp) ->
  Views.data resp = PyDict body ->
  dict_get body "errors" (PyList []) = PyList errs ->
  Forall (fun entry =>
            exists (k : nat) (text : string) (e : exn) (rows_then : list dict),
              nth_error texts k = Some text /\
              snd (Views.analyze_and_save w b rows_then text) = Raise e /\
              entry = PyDict [ ("index", PyInt (Z.of_nat k));
                               ("text", PyStr (Views.shortened text));
                               ("error", PyStr (exn_str e)) ] /\
              String.length (Views.shortened text) <= 103 /\
              (String.length text <= 100 -> Views.shortened text = text) /\
              (100 < String.length text ->
               Views.shortened text = (Str.take 100 text ++ "...")%string) /\
              In (Views.Logged ("Error analyzing text " ++ decimal (k + 1) ++ ": "
                                ++ exn_str e)%string) log)
         errs.
Proof.
  intros Hv H Hbody Herrs. unfold Views.batch_analyze_texts in H. rewrite Hv in H.
  inversion H. subst rows' log resp. clear H.
  simpl in Hbody. inversion Hbody. subst body. clear Hbody.
  destruct (batch_loop_inv w b texts 0
              {| Views.table := rows; Views.done := [];
                 Views.analyses := []; Views.errors := [] |})
    as [saved [errs' [_ [_ [He [_ [_ [Hf _]]]]]]]].
  simpl in He.
  unfold Views.batch_body in Herrs. rewrite He in Herrs. simpl in Herrs.
  assert (Hsame : errs = errs').
  { destruct errs'; simpl in Herrs; inversion Herrs; reflexivity. }
  rewrite <- Hsame in Hf. eapply Forall_impl; [| exact Hf].
  intros entry [k [text [e [rows_then [H1 [H2 [H3 H4]]]]]]].
  exists k, text, e, rows_then. simpl in H3, H4.
  destruct (length_shortened text) as [L1 [L2 L3]].
  split; [exact H1 |]. split; [exact H2 |]. split; [exact H3 |].
  split; [exact L1 |]. split; [exact L2 |].
  split; [intros Hlong; exact (proj1 (L3 Hlong)) | exact H4].
Qed.

Lemma batch_error_entries_witness :
  exists errs : list pyval,
    List.length errs = 2 /\
    Forall (fun entry =>
              exists (k : nat) (text : string) (e : exn),
                nth_error ["hello world"; "good bye"] k = Some text /\
                entry = PyDict [ ("index", PyInt (Z.of_nat k));
                                 ("text", PyStr (Views.shortened text));
                                 ("error", PyStr (exn_str e)) ])
           errs.
Proof.
  destruct (Views.batch_analyze_texts Samples.world_null_topics ViewSamples.backend []
              (PyDict [("texts", PyList [PyStr "hello world"; PyStr "good bye"])]))
    as [[rows' log] resp] eqn:H.
  pose proof (fun body errs =>
                batch_error_entries Samples.world_null_topics ViewSamples.backend []
                  (PyDict [("texts", PyList [PyStr "hello world"; PyStr "good bye"])])
                  ["hello world"; "good bye"] rows' log resp body errs
                  eq_refl H) as HF.
  assert (Hresp : resp = snd (rows', log, resp)) by reflexivity.
  rewrite <- H in Hresp. vm_compute in Hresp. subst resp.
  eexists. split; cycle 1.
  - eapply Forall_impl; cycle 1.
    + eapply HF; reflexivity.
    + intros entry [k [text [e [_ [H1 [_ [H3 _]]]]]]]. exists k, text, e. auto.
  - reflexivity.
Defined.

(** X20.  A validated batch has no failure, whether the service answers or
    not, when the keyword extractor is built and, for each of its texts, the
    object parsed from the reply to that text, if any, is scorable and the
    database accepts, on the table as the batch has extended it, the row made
    of that text and its analysis: one row is saved per text, in the order of the texts, success_count is
    total_requested, error_count is zero and the response has no key errors.
    Each row is made of the text as validation delivered it and of the seven
    fields of its analysis. *)
Theorem batch_without_failures (w : World) (b : Views.Backend) (rows : list dict)
    (request_data : pyval) (texts : list string) (rows' : list dict)
    (log : list Views.io) (resp : Views.Response) :
  Views.valid_texts b request_data = Ok texts ->
  KeywordExtractor.init w = ([], Ok tt) ->
  (forall text, In text texts -> parsed_reply_scorable w text) ->
  (forall text saved r,
      In text texts ->
      outcome (analyze_text_complete w text) = Ok r ->
      exists row,
        Views.objects_create b (rows ++ saved) (("original_text", PyStr text) :: r)
        = Ok row) ->
  Views.batch_analyze_texts w b rows request_data = (rows', log, resp) ->
  exists saved : list dict,
    rows' = rows ++ saved /\
    Forall2 (fun text row =>
               exists (r : dict) (saved_before : list dict),
                 outcome (analyze_text_complete w text) = Ok r /\
                 Views.objects_create b (rows ++ saved_before)
                   (("original_text", PyStr text) :: r)
                 = Ok row)
            texts saved /\
    resp = {| Views.data :=
                PyDict [ ("analyses", PyList (map (Views.serializer_data b) saved));
                         ("total_processed", PyInt (Z.of_nat (List.length texts)));
                         ("total_requested", PyInt (Z.of_nat (List.length texts)));
                         ("success_count", PyInt (Z.of_nat (List.length texts)));
                         ("error_count", PyInt 0) ];
              Views.status := 201 |}.
Proof.
  intros Hv Hk Hw Hdb H. unfold Views.batch_analyze_texts in H. rewrite Hv in H.
  destruct (valid_texts_inv b request_data texts Hv) as [_ Hall].
  assert (Hlocal : Forall (fun text =>
            Str.strip text <> "" /\
            parsed_reply_scorable w text /\
            forall saved r,
              outcome (analyze_text_complete w text) = Ok r ->
              exists row,
                Views.objects_create b (rows ++ saved)
                  (("original_text", PyStr text) :: r)
                = Ok row) texts).
  { apply Forall_forall. intros text Hin.
    split; [exact (proj1 (Forall_forall _ _) Hall text Hin) |].
    split; [exact (Hw text Hin) |].
    intros saved r. exact (Hdb text saved r Hin). }
  destruct (batch_loop_all_saved w b rows texts Hk Hlocal 0
              {| Views.table := rows; Views.done := [];
                 Views.analyses := []; Views.errors := [] |})
    as [saved [Ha [Ht [He Hf]]]].
  { exists []. simpl. rewrite app_nil_r. reflexivity. }
  simpl in Ha, Ht, He. inversion H. clear H.
  exists saved. split; [exact Ht |]. split; [exact Hf |].
  unfold Views.batch_body. rewrite Ha, He. simpl.
  rewrite (Forall2_length Hf). reflexivity.
Qed.

Lemma batch_without_failures_witness :
  Views.valid_texts ViewSamples.backend
    (PyDict [("texts", PyList [PyStr " hello world"; PyStr "good bye"])])
  = Ok ["hello world"; "good bye"] /\
  exists saved : list dict,
    fst (fst (Views.batch_analyze_texts Parsers.world_full_reply ViewSamples.backend []
                (PyDict [("texts", PyList [PyStr " hello world"; PyStr "good bye"])])))
    = [] ++ saved /\
    List.length saved = 2.
Proof.
  split; [reflexivity |].
  destruct (Views.batch_analyze_texts Parsers.world_full_reply ViewSamples.backend []
              (PyDict [("texts", PyList [PyStr " hello world"; PyStr "good bye"])]))
    as [[rows' log] resp] eqn:H.
  destruct (batch_without_failures Parsers.world_full_reply ViewSamples.backend []
              (PyDict [("texts", PyList [PyStr " hello world"; PyStr "good bye"])])
              ["hello world"; "good bye"] rows' log resp) as [saved [H1 [H2 _]]].
  - reflexivity.
  - reflexivity.
  - intros text _ reply j v Hc Hs Hj. simpl in Hc. inversion Hc. subst reply.
    vm_compute in Hs. inversion Hs. subst j.
    vm_compute in Hj. inversion Hj. reflexivity.
  - intros text saved r _ _. eexists. reflexivity.
  - exact H.
  - exists saved. split; [exact H1 |]. symmetry. exact (Forall2_length H2).
Defined.

(** ** The search view *)

Lemma dict_get_in (d : dict) (key : string) (v default : pyval) :
  NoDup (map fst d) -> In (key, v) d -> dict_get d key default = v.
Proof.
  induction d as [| [k x] d IH]; simpl; intros Hnd Hin; [contradiction |].
  inversion Hnd as [| ? ? Hk Hnd']. subst.
  destruct Hin as [Heq | Hin].
  - inversion Heq. subst. rewrite String.eqb_refl. reflexivity.
  - destruct (String.eqb k key) eqn:Hkk.
    + apply String.eqb_eq in Hkk. subst k. exfalso. apply Hk.
      apply in_map_iff. exists (key, v). auto.
    + apply IH; assumption.
Qed.

Lemma dict_get_found (d : dict) (key : string) (default : pyval) :
  dict_get d key default <> default -> In (key, dict_get d key default) d.
Proof.
  induction d as [| [k x] d IH]; simpl; intros H; [congruence |].
  destruct (String.eqb k key) eqn:Hkk.
  - apply String.eqb_eq in Hkk. subst k. left. reflexivity.
  - right. apply IH. exact H.
Qed.

(** X21.  The rows that [search_analyses] keeps are these:
    when a sentiment is given a row must have it; when a topic or a keyword
    is given, a row must match the topic, or match the keyword in its
    keywords or in its original text.  Topic and keyword widen the search,
    they are joined by or; the sentiment narrows it.  A parameter that is
    absent or empty plays no part. *)
Theorem search_keeps_rows (b : Views.Backend) (rows : list dict) (validated : dict)
    (row : dict) :
  In row (Views.search_rows b rows validated) <->
  In row rows /\
  (truthy (dict_get validated "sentiment" PyNone) = true ->
   Views.lookup_matches b "sentiment" (dict_get validated "sentiment" PyNone) row = true) /\
  (truthy (dict_get validated "topic" PyNone) = true \/
   truthy (dict_get validated "keyword" PyNone) = true ->
   (truthy (dict_get validated "topic" PyNone) = true /\
    Views.lookup_matches b "topics__icontains" (dict_get validated "topic" PyNone) row
    = true) \/
   (truthy (dict_get validated "keyword" PyNone) = true /\
    (Views.lookup_matches b "keywords__icontains"
       (dict_get validated "keyword" PyNone) row = true \/
     Views.lookup_matches b "original_text__icontains"
       (dict_get validated "keyword" PyNone) row = true))).
Proof.
  unfold Views.search_rows. rewrite filter_In. unfold Views.search_query.
  destruct (truthy (dict_get validated "topic" PyNone));
    destruct (truthy (dict_get validated "keyword" PyNone));
    destruct (truthy (dict_get validated "sentiment" PyNone)); simpl;
    repeat match goal with
           | |- context [Views.lookup_matches b ?n ?v row] =>
               destruct (Views.lookup_matches b n v row)
           end; simpl;
    intuition discriminate.
Qed.

(** X22.  A search is refused with 400 and "At least one search parameter
    must be provided" exactly when, of the declared parameters topic,
    keyword and sentiment, none is given with a value that is not empty.
    So the query of an accepted search is never the empty one, which would
    keep every row, and its response is 200. *)
Theorem accepted_search_has_a_criterion (b : Views.Backend) (query_params : pyval)
    (fields : dict) :
  Views.search_fields b query_params = Ok fields ->
  NoDup (map fst fields) ->
  (forall k, In k (map fst fields) -> In k ["topic"; "keyword"; "sentiment"]) ->
  (Views.valid_search b query_params = Ok fields <->
   truthy (dict_get fields "topic" PyNone) = true \/
   truthy (dict_get fields "keyword" PyNone) = true \/
   truthy (dict_get fields "sentiment" PyNone) = true) /\
  (Views.valid_search b query_params = Ok fields ->
   Views.search_query (dict_get fields "topic" PyNone)
     (dict_get fields "keyword" PyNone) (dict_get fields "sentiment" PyNone)
   <> Views.Q_empty /\
   forall rows, Views.status (Views.search_analyses b rows query_params) = 200) /\
  (Views.valid_search b query_params <> Ok fields ->
   forall rows,
     Views.search_analyses b rows query_params
     = {| Views.data :=
            Views.serializer_errors b
              (Serializers.ValidationError
                 "At least one search parameter must be provided");
          Views.status := 400 |}).
Proof.
  intros Hf Hnd Hkeys.
  assert (Hany : existsb truthy (map snd fields) = true <->
                 truthy (dict_get fields "topic" PyNone) = true \/
                 truthy (dict_get fields "keyword" PyNone) = true \/
                 truthy (dict_get fields "sentiment" PyNone) = true).
  { rewrite existsb_exists. split.
    - intros [v [Hin Hv]]. apply in_map_iff in Hin. destruct Hin as [[k v'] [Hkv Hin]].
      simpl in Hkv. subst v'.
      assert (Hk : In k ["topic"; "keyword"; "sentiment"]).
      { apply Hkeys. apply in_map_iff. exists (k, v). auto. }
      simpl in Hk. destruct Hk as [<- | [<- | [<- | []]]];
        rewrite (dict_get_in fields _ v PyNone Hnd Hin); auto.
    - assert (Hone : forall key, truthy (dict_get fields key PyNone) = true ->
                                 exists x, In x (map snd fields) /\ truthy x = true).
      { intros key Ht. exists (dict_get fields key PyNone). split; [| exact Ht].
        apply in_map_iff. exists (key, dict_get fields key PyNone).
        split; [reflexivity |]. apply dict_get_found. intros Heq.
        rewrite Heq in Ht. discriminate Ht. }
      intros [H | [H | H]]; eapply Hone; exact H. }
  unfold Views.search_analyses, Views.valid_search. rewrite Hf. simpl.
  unfold Serializers.validate.
  destruct (existsb truthy (map snd fields)) eqn:Hex.
  - split; [split; [intros _; apply Hany; reflexivity | reflexivity] |].
    split; [| intros Hc; contradiction].
    intros _. split; [| reflexivity].
    destruct (proj1 Hany eq_refl) as [H | [H | H]]; unfold Views.search_query;
      rewrite H;
      repeat match goal with
             | |- context [truthy ?v] => destruct (truthy v)
             end; discriminate.
  - split; [split; [discriminate | intros H; apply Hany in H; discriminate H] |].
    split; [discriminate | reflexivity].
Qed.

Lemma accepted_search_has_a_criterion_witness :
  Views.valid_search ViewSamples.backend (PyDict [("sentiment", PyStr "positive")])
  = Ok [("sentiment", PyStr "positive")].
Proof.
  refine (proj2 (proj1 (accepted_search_has_a_criterion ViewSamples.backend
                          (PyDict [("sentiment", PyStr "positive")])
                          [("sentiment", PyStr "positive")] _ _ _)) _).
  - reflexivity.
  - repeat constructor. simpl. tauto.
  - simpl. tauto.
  - right. right. reflexivity.
Defined.
